(** * TournamentWorkshop: the submission verification script and the
      in-memory submission registry

    A shallow embedding of
    - [Tools/verificationScript.py] (the five verification checks, the
      pipeline [run_all_verifications] and [main]), and
    - [.vscode/server.py] (the [submissions_db] dictionary with
      [get_submission], [update_submission] and [delete_submission]; then
      the same store in insertion order with [submit_bot],
      [list_submissions], [get_submission_status] and [get_statistics];
      and the archive tools [verify_bot_submission] and
      [submit_bot_to_tournament], whose extraction loop is also that of
      [test_verify.py]),
    followed by the properties established about them.

    Modelling conventions.
    - Text is [string]; a character is an [ascii], read as a code point
      below 256.
    - What the script prints is kept as data: a check returns its verdict
      together with the list of lines it printed, in order ([io]).  An
      f-string is kept as the list of its pieces ([text]), so that no
      number formatting has to be modelled.
    - Everything the script observes from outside (subprocess outcomes,
      directory listings, file contents) is a field of [environment].
      An observation that can raise carries an [outcome].
    - The checks are given twice.  First as they run when the operations
      outside their [try] statements return; then, in [Process], whole,
      with the exceptions that no handler catches ([unhandled]): these
      leave the check, the pipeline and [main].  Writing to the standard
      output is taken to return, and interruptions from outside
      ([KeyboardInterrupt]) are not part of a run.
    - ANSI colour codes and leading blank lines of the printed text are
      left out of the literals.
    - The floats of the execution-time check (a parsed decimal and what
      is computed from it) are binary64 numbers with their rounding
      ([F64]).  The two percentages, ratios of file and of statement
      counts, are kept as exact rationals ([Q]). *)

From stdpp Require Import gmap strings.
From Stdlib Require Import ZArith QArith Qround String Ascii List Bool Arith Lia.
From Stdlib Require Import DecimalString DecimalNat Sorted.
Import ListNotations.

Close Scope Q_scope.
Close Scope Z_scope.
Open Scope nat_scope.
Open Scope string_scope.
Open Scope list_scope.

(* ===================================================================== *)
(** ** Python string operations used by the scripts *)
(* ===================================================================== *)

Module PyStr.

(** [str.isspace] on one character, for code points below 256:
    TAB..CR, FS..US, SPACE, NEL and NBSP. *)
Definition is_space (c : ascii) : bool :=
  let n := nat_of_ascii c in
  (((9 <=? n) && (n <=? 13)) || ((28 <=? n) && (n <=? 32))
   || (n =? 133) || (n =? 160))%nat.

Fixpoint lstrip (s : string) : string :=
  match s with
  | EmptyString => EmptyString
  | String c s' => if is_space c then lstrip s' else s
  end.

Fixpoint rstrip (s : string) : string :=
  match s with
  | EmptyString => EmptyString
  | String c s' =>
      match rstrip s' with
      | EmptyString => if is_space c then EmptyString else String c EmptyString
      | r => String c r
      end
  end.

(** [s.strip()] *)
Definition strip (s : string) : string := rstrip (lstrip s).

(** [s.startswith(p)] *)
Definition startswith (p s : string) : bool := String.prefix p s.

(** [s.endswith(p)] *)
Fixpoint endswith (p s : string) : bool :=
  String.eqb s p
  || match s with
     | EmptyString => false
     | String _ s' => endswith p s'
     end.

(** [sub in s] *)
Fixpoint contains (sub s : string) : bool :=
  String.prefix sub s
  || match s with
     | EmptyString => false
     | String _ s' => contains sub s'
     end.

(** [s.count(c)] for a one-character [c] *)
Fixpoint count_char (c : ascii) (s : string) : nat :=
  match s with
  | EmptyString => 0
  | String d s' => ((if Ascii.eqb c d then 1 else 0) + count_char c s')%nat
  end.

(** The double quote character and the one-character string of it. *)
Definition quote_char : ascii := "034"%char.
Definition quote : string := String quote_char EmptyString.

(** [s[:n]] *)
Definition upto (n : nat) (s : string) : string := String.substring 0 n s.

(** [bool(s)]: a string is true when it is not empty. *)
Definition nonempty (s : string) : bool :=
  match s with EmptyString => false | _ => true end.

(** [s.split('\n')] *)
Fixpoint split_newline_aux (cur : string) (s : string) : list string :=
  match s with
  | EmptyString => [cur]
  | String c s' =>
      if Ascii.eqb c "010"%char
      then cur :: split_newline_aux EmptyString s'
      else split_newline_aux (cur ++ String c EmptyString) s'
  end.

Definition split_newline (s : string) : list string :=
  split_newline_aux EmptyString s.

(** [enumerate(xs, start)] *)
Fixpoint enumerate {A : Type} (start : nat) (xs : list A) : list (nat * A) :=
  match xs with
  | [] => []
  | x :: xs' => (start, x) :: enumerate (S start) xs'
  end.

End PyStr.

(* ===================================================================== *)
(** ** What the script prints *)
(* ===================================================================== *)

(** One piece of an f-string. *)
Inductive piece : Type :=
| Lit (s : string)              (* literal text, or a [str] value *)
| Int (n : Z)                   (* an [int] value *)
| Fixed (digits : nat) (q : Q). (* a float printed with [:.<digits>f] *)

Definition text := list piece.

(** One call of a printing helper. *)
Inductive line : Type :=
| Header (t : string)                  (* print_header *)
| Success (t : text)                   (* print_success *)
| Error (t : text)                     (* print_error *)
| Warning (t : text)                   (* print_warning *)
| Info (t : text)                      (* print_info *)
| Print (t : text)                     (* print *)
| SummaryRow (check : string) (passed : bool).
                                       (* the row printed per check in the summary *)

Definition is_header (l : line) : bool :=
  match l with Header _ => true | _ => false end.

(** A computation that prints: its value and the lines printed. *)
Definition io (A : Type) : Type := (A * list line)%type.

Definition ret {A : Type} (a : A) : io A := (a, []).

Definition bind {A B : Type} (m : io A) (k : A -> io B) : io B :=
  let (a, out1) := m in
  let (b, out2) := k a in
  (b, out1 ++ out2).

Definition emit (l : line) : io unit := (tt, [l]).

Definition value {A : Type} (m : io A) : A := fst m.
Definition printed {A : Type} (m : io A) : list line := snd m.

Declare Scope io_scope.
Delimit Scope io_scope with io.
Notation "'do' x <- m ; k" := (bind m (fun x => k))
  (at level 10, x name, m at level 100, k at level 200) : io_scope.
Notation "'run' m ; k" := (bind m (fun _ => k))
  (at level 10, m at level 100, k at level 200) : io_scope.
Local Open Scope io_scope.

(** [for x in xs: body], threading the variables the body assigns. *)
Fixpoint for_each {A St : Type} (xs : list A) (body : A -> St -> io St)
    (st : St) : io St :=
  match xs with
  | [] => ret st
  | x :: xs' => do st' <- body x st; for_each xs' body st'
  end.

(** Printing without state ([for x in xs: print(...)]). *)
Definition print_each {A : Type} (xs : list A) (body : A -> io unit) : io unit :=
  for_each xs (fun x _ => body x) tt.

(* ===================================================================== *)
(** ** The environment of one run *)
(* ===================================================================== *)

(** An operation that may raise [Exception]. *)
Inductive outcome (A : Type) : Type :=
| Returned (a : A)
| Raised (e : string).
Arguments Returned {A} a.
Arguments Raised {A} e.

(** [subprocess.CompletedProcess] with captured text output. *)
Record CompletedProcess : Type := {
  returncode : Z;
  stdout : string;
  stderr : string
}.

(** A file found by [rglob]: [str(f)], the relative path the check shows
    for it ([relative_to]), and what [open]/[readlines] gives. *)
Record cs_file : Type := {
  path : string;
  shown : string;
  readlines : outcome (list string)
}.

(** Everything one run of the script observes, in the order it asks. *)
Record environment : Type := {
  (* main *)
  userbot_dir_exists : bool;          (* USERBOT_DIR.exists() *)
  (* check_compilation *)
  build_run : outcome CompletedProcess;   (* dotnet build *)
  (* check_double_semicolons *)
  ds_cs_files : list cs_file;         (* STRATEGICMIND_DIR.rglob("*.cs") *)
  (* check_statement_endings *)
  se_cs_files : list cs_file;         (* STRATEGICMIND_DIR.rglob("*.cs") *)
  se_test_files : list cs_file;       (* TEST_DIR.rglob("*.cs") *)
  (* check_test_coverage *)
  cov_test_run : outcome CompletedProcess;  (* dotnet test --collect ... *)
  cov_cobertura : list string;        (* rglob("coverage.cobertura.xml") *)
  cov_xml : list string;              (* rglob("*.xml") *)
  cov_source_files : list string;     (* STRATEGICMIND_DIR.rglob("*.cs") *)
  cov_test_files : list string;       (* TEST_DIR.rglob("*Tests.cs") *)
  cov_list_tests : outcome CompletedProcess; (* dotnet test --list-tests *)
  (* check_execution_time *)
  perf_setup : outcome unit;          (* temp_dir.mkdir, test_file.write_text *)
  perf_build : outcome CompletedProcess;    (* dotnet build *)
  perf_test_run : outcome CompletedProcess  (* dotnet test, timeout=30:
                                               TimeoutExpired is [Raised] *)
}.

(* ===================================================================== *)
(** ** verificationScript.py *)
(* ===================================================================== *)

(** The paths are those of the script's directory. *)
Definition USERBOT_DIR : string := "UserBot".
Definition REQUIRED_COVERAGE_PERCENT : Q := 50%Q.
Definition MAX_EXECUTION_TIME_MS : Z := 300%Z.

Definition print_header (t : string) : io unit := emit (Header t).
Definition print_success (t : text) : io unit := emit (Success t).
Definition print_error (t : text) : io unit := emit (Error t).
Definition print_warning (t : text) : io unit := emit (Warning t).
Definition print_info (t : text) : io unit := emit (Info t).
Definition print (t : text) : io unit := emit (Print t).

(** [len(xs)] as a Python [int]. *)
Definition len {A : Type} (xs : list A) : Z := Z.of_nat (length xs).

(** [a / b] on two [int]s. *)
Definition true_div (a b : nat) : Q :=
  (inject_Z (Z.of_nat a) / inject_Z (Z.of_nat b))%Q.

(** *** check_compilation *)

Definition check_compilation (env : environment) : io bool :=
  run print_header "VERIFICATION 1: COMPILATION";
  match build_run env with
  | Returned result =>
      if (returncode result =? 0)%Z then
        run print_success [Lit "UserBot.StrategicMind compiles successfully"];
        ret true
      else
        run print_error [Lit "Compilation failed"];
        run print [Lit "Build Output:"];
        run print [Lit (stdout result)];
        run print [Lit (stderr result)];
        ret false
  | Raised e =>
      run print_error [Lit "Failed to run compilation: "; Lit e];
      ret false
  end.

(** *** check_double_semicolons *)

(** [check_double_semicolons] and [check_statement_endings] below are the
    checks once their listings have returned; the listings raising is in
    [Process]. *)

(** An entry of [issues_found]. *)
Record issue : Type := {
  issue_file : string;
  issue_line : nat;
  issue_content : string
}.

(** The body of the loop over the lines of one file. *)
Definition double_semicolon_line (cs_file : cs_file) (numbered : nat * string)
    (issues_found : list issue) : list issue :=
  let (line_num, line) := numbered in
  if PyStr.contains ";;" line then
    let stripped := PyStr.strip line in
    if negb (PyStr.startswith "//" stripped) && negb (PyStr.startswith "*" stripped)
    then issues_found ++ [ {| issue_file := shown cs_file;
                              issue_line := line_num;
                              issue_content := PyStr.strip line |} ]
    else issues_found
  else issues_found.

(** The body of the loop over the files: [try: ... except Exception]. *)
Definition double_semicolon_file (cs_file : cs_file) (issues_found : list issue)
    : io (list issue) :=
  match readlines cs_file with
  | Returned lines =>
      ret (fold_left (fun acc numbered => double_semicolon_line cs_file numbered acc)
                     (PyStr.enumerate 1 lines) issues_found)
  | Raised e =>
      run print_warning [Lit "Could not read "; Lit (path cs_file); Lit ": "; Lit e];
      ret issues_found
  end.

(** [issues_found] after the loop over the files. *)
Definition double_semicolon_issues (cs_files : list cs_file) : io (list issue) :=
  for_each cs_files double_semicolon_file [].

Definition check_double_semicolons (env : environment) : io bool :=
  run print_header "VERIFICATION 2: DOUBLE SEMICOLON RULE";
  let cs_files := ds_cs_files env in
  do issues_found <- double_semicolon_issues cs_files;
  match issues_found with
  | _ :: _ =>
      run print_error [Lit "Found "; Int (len issues_found);
                       Lit " double semicolon violations:"];
      run print_each (firstn 10 issues_found) (fun issue =>
            run print [Lit "  "; Lit (issue_file issue); Lit ":";
                       Int (Z.of_nat (issue_line issue))];
            print [Lit "    "; Lit (PyStr.upto 100 (issue_content issue))]);
      run (if (10 <? len issues_found)%Z
           then print [Lit "  ... and "; Int (len issues_found - 10); Lit " more"]
           else ret tt);
      ret false
  | [] =>
      run print_success [Lit "No double semicolons found in "; Int (len cs_files);
                         Lit " C# files"];
      ret true
  end.

(** *** check_statement_endings *)

(** [any(x in str(f) for x in ['obj/', 'bin/', '/obj\\', '\\bin\\'])] *)
Definition is_generated (f : cs_file) : bool :=
  existsb (fun x => PyStr.contains x (path f)) ["obj/"; "bin/"; "/obj\"; "\bin\"].

(** The variables the scan assigns. *)
Record scan_state : Type := {
  issues_found : list issue;
  total_statements : nat;
  correct_statements : nat
}.

Definition scan_start : scan_state :=
  {| issues_found := []; total_statements := 0; correct_statements := 0 |}.

(** The body of the loop over the lines of one file; the flag is
    [in_multiline_comment]. *)
Definition statement_line (cs_file : cs_file) (numbered : nat * string)
    (st : bool * scan_state) : bool * scan_state :=
  let (line_num, line) := numbered in
  let (in_multiline_comment, sc) := st in
  let stripped := PyStr.strip line in
  if negb (PyStr.nonempty stripped) then st
  else
    let in_multiline_comment :=
      if PyStr.contains "/*" stripped then true else in_multiline_comment in
    if PyStr.contains "*/" stripped then (false, sc)
    else if in_multiline_comment then (in_multiline_comment, sc)
    else if PyStr.startswith "///" stripped || PyStr.startswith "//" stripped
    then (in_multiline_comment, sc)
    else if PyStr.startswith "[" stripped && PyStr.endswith "]" stripped
    then (in_multiline_comment, sc)
    else
      let has_semicolon := PyStr.contains ";" stripped in
      let is_brace_only :=
        existsb (String.eqb stripped) ["{"; "}"; "{;"; "};"] in
      let is_property_or_method :=
        PyStr.contains "=>" stripped || PyStr.contains "get;" stripped
        || PyStr.contains "set;" stripped in
      let is_for_loop := PyStr.startswith "for (" stripped in
      let is_linq_continuation := PyStr.startswith "." stripped in
      let is_lambda := PyStr.startswith "async () =>" stripped in
      if (has_semicolon || is_property_or_method) && negb is_brace_only
         && negb is_for_loop && negb is_linq_continuation && negb is_lambda
      then
        if PyStr.endswith "//" stripped then
          (in_multiline_comment,
           {| issues_found := issues_found sc;
              total_statements := total_statements sc + 1;
              correct_statements := correct_statements sc + 1 |})
        else if negb (PyStr.contains PyStr.quote stripped
                      && (2 <=? PyStr.count_char PyStr.quote_char stripped)%nat)
        then
          (in_multiline_comment,
           {| issues_found := issues_found sc ++
                [ {| issue_file := shown cs_file;
                     issue_line := line_num;
                     issue_content := PyStr.upto 80 stripped |} ];
              total_statements := total_statements sc + 1;
              correct_statements := correct_statements sc |})
        else
          (in_multiline_comment,
           {| issues_found := issues_found sc;
              total_statements := total_statements sc + 1;
              correct_statements := correct_statements sc |})
      else (in_multiline_comment, sc).

(** The body of the loop over the files: [try: ... except Exception]. *)
Definition statement_file (cs_file : cs_file) (sc : scan_state) : io scan_state :=
  match readlines cs_file with
  | Returned lines =>
      ret (snd (fold_left (fun acc numbered => statement_line cs_file numbered acc)
                          (PyStr.enumerate 1 lines) (false, sc)))
  | Raised e =>
      run print_warning [Lit "Could not read "; Lit (path cs_file); Lit ": "; Lit e];
      ret sc
  end.

(** The files scanned: both listings, generated files left out. *)
Definition statement_files (env : environment) : list cs_file :=
  filter (fun f => negb (is_generated f)) (se_cs_files env ++ se_test_files env).

(** The three variables after the loop over the files. *)
Definition statement_scan (env : environment) : io scan_state :=
  for_each (statement_files env) statement_file scan_start.

(** [(correct_statements / total_statements) * 100] *)
Definition compliance_rate (sc : scan_state) : Q :=
  (true_div (correct_statements sc) (total_statements sc) * 100)%Q.

Definition check_statement_endings (env : environment) : io bool :=
  run print_header "VERIFICATION 4: STATEMENT ENDING RULE (//)";
  do sc <- statement_scan env;
  if (total_statements sc =? 0)%nat then
    run print_warning [Lit "No statements found to verify"];
    ret true
  else
    let rate := compliance_rate sc in
    run print_info [Lit "Total statements checked: ";
                    Int (Z.of_nat (total_statements sc))];
    run print_info [Lit "Compliant statements: ";
                    Int (Z.of_nat (correct_statements sc))];
    run print_info [Lit "Compliance rate: "; Fixed 1 rate; Lit "%"];
    if Qle_bool 95 rate then
      run print_success [Lit "Statement ending rule compliance: "; Fixed 1 rate;
                         Lit "%"];
      ret true
    else
      run print_error [Lit "Statement ending rule compliance only "; Fixed 1 rate;
                       Lit "%"];
      run match issues_found sc with
          | _ :: _ =>
              run print_error [Lit "Found "; Int (len (issues_found sc));
                               Lit " violations (showing first 15):"];
              print_each (firstn 15 (issues_found sc)) (fun issue =>
                run print [Lit "  "; Lit (issue_file issue); Lit ":";
                           Int (Z.of_nat (issue_line issue))];
                print [Lit "    "; Lit (issue_content issue)])
          | [] => ret tt
          end;
      ret false.

(** *** check_test_coverage *)

(** [len([line for line in stdout.split('\n')
          if line.strip() and not line.startswith(' ') and 'Test' in line])] *)
Definition count_listed_tests (out : string) : nat :=
  length (filter (fun line =>
                    PyStr.nonempty (PyStr.strip line)
                    && negb (PyStr.startswith " " line)
                    && PyStr.contains "Test" line)
                 (PyStr.split_newline out)).

(** [(len(test_files) / len(source_files)) * 100 if source_files else 0] *)
Definition coverage_ratio (test_files source_files : list string) : Q :=
  match source_files with
  | _ :: _ => (true_div (length test_files) (length source_files) * 100)%Q
  | [] => 0%Q
  end.

(** The coverage files looked at: the cobertura reports, or when there is
    none, every XML file of the results directory. *)
Definition coverage_files (env : environment) : list string :=
  match cov_cobertura env with
  | [] => cov_xml env
  | found => found
  end.

Definition check_test_coverage (env : environment) : io bool :=
  run print_header "VERIFICATION 3: UNIT TEST COVERAGE";
  run print_info [Lit "Running tests with coverage collection..."];
  match cov_test_run env with
  | Raised e =>
      run print_error [Lit "Failed to check test coverage: "; Lit e];
      ret false
  | Returned result =>
      if negb (returncode result =? 0)%Z then
        run print_error [Lit "Tests failed to run"];
        run print [Lit (stdout result)];
        run print [Lit (stderr result)];
        ret false
      else
        match coverage_files env with
        | _ :: _ =>
            let source_files := cov_source_files env in
            let test_files := cov_test_files env in
            let ratio := coverage_ratio test_files source_files in
            run print_info [Lit "Coverage files found: "; Int (len (coverage_files env))];
            run print_info [Lit "Source files: "; Int (len source_files)];
            run print_info [Lit "Test files: "; Int (len test_files)];
            run print_info [Lit "Approximate coverage ratio: "; Fixed 1 ratio; Lit "%"];
            if Qle_bool REQUIRED_COVERAGE_PERCENT ratio then
              run print_success [Lit "Test coverage ("; Fixed 1 ratio;
                                 Lit "%) is above 50.0%"];
              ret true
            else
              run print_warning [Lit "Test coverage ("; Fixed 1 ratio;
                                 Lit "%) is below 50.0%"];
              ret true
        | [] =>
            run print_info [Lit "Coverage report not available, checking test count..."];
            match cov_list_tests env with
            | Raised e =>
                run print_error [Lit "Failed to check test coverage: "; Lit e];
                ret false
            | Returned result =>
                let test_count := count_listed_tests (stdout result) in
                run print_info [Lit "Total tests found: "; Int (Z.of_nat test_count)];
                if (50 <=? test_count)%nat then
                  run print_success [Lit "Comprehensive test suite with ";
                                     Int (Z.of_nat test_count); Lit "+ tests"];
                  ret true
                else
                  run print_warning [Lit "Only "; Int (Z.of_nat test_count);
                                     Lit " tests found"];
                  ret (0 <? test_count)%nat
            end
        end
  end.

(** *** check_execution_time *)

Definition is_digit (c : ascii) : bool :=
  let n := nat_of_ascii c in ((48 <=? n) && (n <=? 57))%nat.

(** The character class [[\d.]]. *)
Definition is_digit_or_dot (c : ascii) : bool :=
  is_digit c || Ascii.eqb c "."%char.

(** The longest prefix of characters satisfying [p], and the rest. *)
Fixpoint span (p : ascii -> bool) (s : string) : string * string :=
  match s with
  | EmptyString => (EmptyString, EmptyString)
  | String c s' =>
      if p c then let (a, b) := span p s' in (String c a, b)
      else (EmptyString, s)
  end.

(** [s] without the prefix [p], when it starts with it. *)
Fixpoint drop_prefix (p s : string) : option string :=
  match p, s with
  | EmptyString, _ => Some s
  | String a p', String b s' => if Ascii.eqb a b then drop_prefix p' s' else None
  | String _ _, EmptyString => None
  end.

(** A match of [Total time: ([\d.]+) Seconds] starting at the first
    character of [s]: its group 1.  The class excludes the space, so the
    greedy run is the only candidate. *)
Definition match_total_time (s : string) : option string :=
  match drop_prefix "Total time: " s with
  | Some rest =>
      let (group, after) := span is_digit_or_dot rest in
      if PyStr.nonempty group && PyStr.startswith " Seconds" after
      then Some group else None
  | None => None
  end.

(** [re.search(r'Total time: ([\d.]+) Seconds', s)]: group 1 of the
    leftmost match. *)
Fixpoint search_total_time (s : string) : option string :=
  match match_total_time s with
  | Some group => Some group
  | None =>
      match s with
      | EmptyString => None
      | String _ s' => search_total_time s'
      end
  end.

(** The floats of the execution-time check.  They come from a string
    of digits and dots and from divisions and multiplications by positive
    integers, so they are never negative and never a NaN: a value is a
    finite binary64 number, kept as the rational it is, or [inf]. *)
Module F64.

Inductive t : Type :=
| Finite (q : Q)
| Infinity.

(** [n / d] rounded to the nearest integer, a tie going to the even one
    (for [0 <= n] and [0 < d]). *)
Definition nearest_even (n d : Z) : Z :=
  let q := (n / d)%Z in
  match (2 * (n mod d) ?= d)%Z with
  | Lt => q
  | Gt => (q + 1)%Z
  | Eq => if Z.even q then q else (q + 1)%Z
  end.

(** The integer part of the base 2 logarithm of [n / d] (for [0 < n] and
    [0 < d]). *)
Definition exponent (n d : Z) : Z :=
  let e := (Z.log2 n - Z.log2 d)%Z in
  if (0 <=? e)%Z
  then (if (d * 2 ^ e <=? n)%Z then e else e - 1)%Z
  else (if (d <=? n * 2 ^ (- e))%Z then e else e - 1)%Z.

(** The binary64 number nearest to [x], ties to even: 53 significant
    bits, no exponent below -1022 (gradual underflow), and [inf] when the
    rounded value reaches 2^1024.  What is not positive gives 0. *)
Definition round (x : Q) : t :=
  let n := Qnum x in
  let d := Zpos (Qden x) in
  if (n <=? 0)%Z then Finite 0
  else
    let p := (Z.max (exponent n d) (-1022) - 52)%Z in
    if (0 <=? p)%Z then
      let v := (nearest_even n (d * 2 ^ p) * 2 ^ p)%Z in
      if (2 ^ 1024 <=? v)%Z then Infinity else Finite (inject_Z v)
    else
      Finite (Qred (Qmake (nearest_even (n * 2 ^ (- p)) d)
                          (Z.to_pos (2 ^ (- p))))).

(** [x / k] and [x * k] for a positive [int] [k], which Python turns
    into the float of the same value. *)
Definition div (x : t) (k : Z) : t :=
  match x with
  | Finite q => round (q / inject_Z k)%Q
  | Infinity => Infinity
  end.

Definition mul (x : t) (k : Z) : t :=
  match x with
  | Finite q => round (q * inject_Z k)%Q
  | Infinity => Infinity
  end.

(** [x < k] for an [int] [k]. *)
Definition ltb (x : t) (k : Z) : bool :=
  match x with
  | Finite q => negb (Qle_bool (inject_Z k) q)
  | Infinity => false
  end.

(** The order of the floats. *)
Definition le (x y : t) : Prop :=
  match x, y with
  | Finite a, Finite b => (a <= b)%Q
  | _, Infinity => True
  | Infinity, Finite _ => False
  end.

(** [x] in an f-string with [:.<digits>f]. *)
Definition fixed (digits : nat) (x : t) : piece :=
  match x with
  | Finite q => Fixed digits q
  | Infinity => Lit "inf"
  end.

End F64.

(** The number written by a string of decimal digits. *)
Definition digits_value (s : string) : Z :=
  fold_left (fun acc c => (10 * acc + Z.of_nat (nat_of_ascii c - 48))%Z)
            (list_ascii_of_string s) 0%Z.

(** [float(s)] for [s] made of digits and dots: the decimal written,
    rounded to the nearest binary64 number; [None] is [ValueError]. *)
Definition py_float (s : string) : option F64.t :=
  let (int_part, rest) := span is_digit s in
  match rest with
  | EmptyString =>
      if PyStr.nonempty int_part
      then Some (F64.round (inject_Z (digits_value int_part)))
      else None
  | String c frac_part =>
      if Ascii.eqb c "."%char
         && forallb is_digit (list_ascii_of_string frac_part)
         && (PyStr.nonempty int_part || PyStr.nonempty frac_part)
      then Some (F64.round
                   (inject_Z (digits_value (int_part ++ frac_part))
                    / inject_Z (10 ^ Z.of_nat (String.length frac_part)))%Q)
      else None
  end.

(** [avg_time_ms / 5] with [avg_time_ms = (total_time / test_count) * 1000]
    and [test_count = 69]; every operation rounds. *)
Definition avg_time_ms (total_time : F64.t) : F64.t :=
  F64.mul (F64.div total_time 69) 1000.
Definition estimated_api_time (total_time : F64.t) : F64.t :=
  F64.div (avg_time_ms total_time) 5.

(** The lines after the timing block, reached when no time was parsed. *)
Definition no_measurement : io bool :=
  run print_info [Lit "Direct measurement not available, but implementation is optimized"];
  run print_success [Lit "Implementation uses O(1) lookups and minimal computation"];
  ret true.

(** The handler [except Exception as e]. *)
Definition execution_time_failed (e : string) : io bool :=
  run print_error [Lit "Failed to check execution time: "; Lit e];
  ret true.

(** The header and the [try] statement with its handler: what is printed
    and the value of the [return] reached.  The [finally] clause, which
    runs after it, is in [Process.check_execution_time]. *)
Definition check_execution_time (env : environment) : io bool :=
  run print_header "VERIFICATION 4: EXECUTION TIME (<0.3 sec)";
  match perf_setup env with
  | Raised e => execution_time_failed e
  | Returned _ =>
      run print_info [Lit "Running performance test..."];
      match perf_build env with
      | Raised e => execution_time_failed e
      | Returned _ =>
          run print_info [Lit "Checking test execution times as proxy for API performance..."];
          match perf_test_run env with
          | Raised e => execution_time_failed e
          | Returned result =>
              if PyStr.contains "Total time:" (stdout result) then
                match search_total_time (stdout result) with
                | Some group =>
                    match py_float group with
                    | None =>
                        execution_time_failed
                          ("could not convert string to float: '" ++ group ++ "'")
                    | Some total_time =>
                        let estimate := estimated_api_time total_time in
                        run print_info [Lit "Total test time: ";
                                        F64.fixed 2 total_time; Lit " seconds"];
                        run print_info [Lit "Average time per test: ";
                                        F64.fixed 2 (avg_time_ms total_time);
                                        Lit " ms"];
                        if F64.ltb estimate MAX_EXECUTION_TIME_MS then
                          run print_success [Lit "Estimated API execution time (";
                                             F64.fixed 2 estimate;
                                             Lit " ms) is well below ";
                                             Int MAX_EXECUTION_TIME_MS; Lit " ms"];
                          ret true
                        else
                          run print_warning [Lit "Estimated API execution time (";
                                             F64.fixed 2 estimate;
                                             Lit " ms) approaches limit"];
                          ret true
                    end
                | None => no_measurement
                end
              else no_measurement
          end
      end
  end.

(** *** run_all_verifications and main *)

(** The dictionary [results] once the five checks have returned: its
    items in insertion order. *)
Definition run_checks (env : environment) : io (list (string * bool)) :=
  do compilation <- check_compilation env;
  do double_semicolons <- check_double_semicolons env;
  do statement_endings <- check_statement_endings env;
  do test_coverage <- check_test_coverage env;
  do execution_time <- check_execution_time env;
  ret [ ("compilation", compilation);
        ("double_semicolons", double_semicolons);
        ("statement_endings", statement_endings);
        ("test_coverage", test_coverage);
        ("execution_time", execution_time) ].

(** The banner: colour codes and the box-drawing frame are not kept. *)
Definition print_banner : io unit :=
  run print [];
  run print [Lit "(frame)"];
  run print [Lit "USERBOT VERIFICATION SCRIPT"];
  run print [Lit "StrategicMind RPSLS Bot"];
  run print [Lit "(frame)"];
  print [].

(** The summary printed from [results], and the overall verdict
    (lines 418-437). *)
Definition summary (results : list (string * bool)) : io bool :=
  run print_header "VERIFICATION SUMMARY";
  let all_passed := forallb snd results in
  run print_each results (fun item => emit (SummaryRow (fst item) (snd item)));
  run print [Lit "(rule)"];
  if all_passed then
    run print [Lit "ALL VERIFICATIONS PASSED!"];
    run print [Lit "The UserBot is ready for submission!"];
    ret true
  else
    run print [Lit "SOME VERIFICATIONS FAILED"];
    run print [Lit "Please fix the issues above before submission."];
    ret false.

Definition run_all_verifications (env : environment) : io bool :=
  run print_banner;
  do results <- run_checks env;
  summary results.

(** [main]: the value is the status given to [sys.exit]. *)
Definition main (env : environment) : io Z :=
  if negb (userbot_dir_exists env) then
    run print_error [Lit "UserBot directory not found: "; Lit USERBOT_DIR];
    ret 1%Z
  else
    do success <- run_all_verifications env;
    ret (if success then 0%Z else 1%Z).

(** *** Exceptions that no handler catches *)

(** The functions above are the script as it runs when the operations it
    performs outside its [try] statements return.  There are five of
    them: [USERBOT_DIR.exists()] in [main] (line 441), the listing
    [rglob] of [check_double_semicolons] (line 88), the two listings of
    [check_statement_endings] (lines 128 and 129), and
    [temp_dir.exists()] in the [finally] clause of [check_execution_time]
    (lines 393-398).  [Path.exists] and the [is_dir] that [rglob] starts
    with let through every [OSError] that is not about a missing file, a
    permission error for one.  Such an exception leaves the check, then
    [run_all_verifications] and [main], and the interpreter ends with a
    traceback and status 1.

    [Process] has the whole functions.  They take, beside the environment,
    what each of the five operations does: [None] when it returns (what it
    returns is then in the environment), [Some e] when it raises [e]. *)

(** How a call ends. *)
Inductive ending (A : Type) : Type :=
| Returns (a : A)
| Escapes (e : string).
Arguments Returns {A} a.
Arguments Escapes {A} e.

Record unhandled : Type := {
  userbot_dir_exists_raises : option string;  (* line 441 *)
  ds_rglob_raises : option string;            (* line 88 *)
  se_rglob_raises : option string;            (* line 128 *)
  se_test_rglob_raises : option string;       (* line 129 *)
  cleanup_raises : option string              (* line 397 *)
}.

Module Process.

(** A call that cannot be left by an exception. *)
Definition returning {A : Type} (m : io A) : io (ending A) :=
  do a <- m;
  ret (Returns a).

(** A call followed by the rest of the caller: an exception that leaves
    the call leaves the caller. *)
Definition andthen {A B : Type} (m : io (ending A)) (k : A -> io (ending B))
    : io (ending B) :=
  do r <- m;
  match r with
  | Returns a => k a
  | Escapes e => ret (Escapes e)
  end.

(** Lines 84-122.  The listing of line 88 follows the header. *)
Definition check_double_semicolons (env : environment) (u : unhandled)
    : io (ending bool) :=
  match ds_rglob_raises u with
  | Some e =>
      run print_header "VERIFICATION 2: DOUBLE SEMICOLON RULE";
      ret (Escapes e)
  | None => returning (check_double_semicolons env)
  end.

(** Lines 124-219.  The listings of lines 128 and 129 follow the header. *)
Definition check_statement_endings (env : environment) (u : unhandled)
    : io (ending bool) :=
  match se_rglob_raises u with
  | Some e =>
      run print_header "VERIFICATION 4: STATEMENT ENDING RULE (//)";
      ret (Escapes e)
  | None =>
      match se_test_rglob_raises u with
      | Some e =>
          run print_header "VERIFICATION 4: STATEMENT ENDING RULE (//)";
          ret (Escapes e)
      | None => returning (check_statement_endings env)
      end
  end.

(** Lines 298-398.  The [finally] clause runs once the [try] statement
    has reached a [return], in its body or in its handler; an exception
    raised there takes the place of the value returned. *)
Definition check_execution_time (env : environment) (u : unhandled)
    : io (ending bool) :=
  do passed <- check_execution_time env;
  match cleanup_raises u with
  | Some e => ret (Escapes e)
  | None => ret (Returns passed)
  end.

(** Lines 400-437. *)
Definition run_all_verifications (env : environment) (u : unhandled)
    : io (ending bool) :=
  run print_banner;
  andthen (returning (check_compilation env)) (fun compilation =>
  andthen (check_double_semicolons env u) (fun double_semicolons =>
  andthen (check_statement_endings env u) (fun statement_endings =>
  andthen (returning (check_test_coverage env)) (fun test_coverage =>
  andthen (check_execution_time env u) (fun execution_time =>
  returning (summary [ ("compilation", compilation);
                       ("double_semicolons", double_semicolons);
                       ("statement_endings", statement_endings);
                       ("test_coverage", test_coverage);
                       ("execution_time", execution_time) ])))))).

(** Lines 439-446: the value returned is the status given to [sys.exit]. *)
Definition main (env : environment) (u : unhandled) : io (ending Z) :=
  match userbot_dir_exists_raises u with
  | Some e => ret (Escapes e)
  | None =>
      if negb (userbot_dir_exists env) then
        run print_error [Lit "UserBot directory not found: "; Lit USERBOT_DIR];
        ret (Returns 1%Z)
      else
        andthen (run_all_verifications env u) (fun success =>
        ret (Returns (if success then 0%Z else 1%Z)))
  end.

(** The exit status of the interpreter: the one given to [sys.exit], or 1
    when an exception leaves [main]. *)
Definition exit_status (r : ending Z) : Z :=
  match r with
  | Returns status => status
  | Escapes _ => 1%Z
  end.

End Process.

(* ===================================================================== *)
(** ** server.py: the submission store *)
(* ===================================================================== *)

Module Server.

(** A value of [submissions_db]: the dictionary built by [submit_bot]. *)
Record submission : Type := {
  submission_id : string;
  bot_name : string;
  team_name : string;
  bot_version : string;
  repository_url : string;
  description : string;
  language : string;
  framework : string;
  status : string;
  submitted_at : string;
  updated_at : string
}.

(** What a tool returns; [success] is its ["success"] entry. *)
Inductive response : Type :=
| Failure (error : string)
| Found (found : submission)
| Updated (message : string) (updated : submission)
| Deleted (message : string) (deleted_submission : submission).

Definition success (r : response) : bool :=
  match r with
  | Failure _ => false
  | _ => true
  end.

(** [f"Submission '{submission_id}' not found"] *)
Definition not_found (id : string) : response :=
  Failure ("Submission '" ++ id ++ "' not found").

(** Each tool takes the store [submissions_db] and gives back its
    response with the store afterwards. *)

Definition get_submission (id : string) (db : gmap string submission)
    : response * gmap string submission :=
  match db !! id with
  | None => (not_found id, db)
  | Some s => (Found s, db)
  end.

(** [if v is not None: submission[field] = v] *)
Definition provided (new : option string) (old : string) : string :=
  match new with
  | Some v => v
  | None => old
  end.

(** [now] is [datetime.now().isoformat()]. *)
Definition update_submission (id : string)
    (new_version new_description new_url new_status : option string)
    (now : string) (db : gmap string submission)
    : response * gmap string submission :=
  match db !! id with
  | None => (not_found id, db)
  | Some s =>
      let s' := {| submission_id := submission_id s;
                   bot_name := bot_name s;
                   team_name := team_name s;
                   bot_version := provided new_version (bot_version s);
                   repository_url := provided new_url (repository_url s);
                   description := provided new_description (description s);
                   language := language s;
                   framework := framework s;
                   status := provided new_status (status s);
                   submitted_at := submitted_at s;
                   updated_at := now |} in
      (Updated ("Submission '" ++ id ++ "' updated successfully") s',
       <[id := s']> db)
  end.

Definition delete_submission (id : string) (db : gmap string submission)
    : response * gmap string submission :=
  match db !! id with
  | None => (not_found id, db)
  | Some s =>
      (Deleted ("Submission '" ++ id ++ "' deleted successfully") s,
       delete id db)
  end.

(** An entry as [submit_bot] stores it. *)
Definition sample_submission : submission :=
  {| submission_id := "sub_1_20240101120000";
     bot_name := "StrategicMind";
     team_name := "Minds";
     bot_version := "1.0.0";
     repository_url := "https://example.org/minds/bot.git";
     description := "";
     language := "C#";
     framework := "";
     status := "pending";
     submitted_at := "2024-01-01T12:00:00";
     updated_at := "2024-01-01T12:00:00" |}.

End Server.

(* ===================================================================== *)
(** ** server.py: the tools over the store in insertion order *)
(* ===================================================================== *)

(** A Python [dict] shows its insertion order ([list(d.values())]), which
    a finite map forgets.  Here the dictionary is the list of its items in
    insertion order. *)
Module PyDict.

(** [d.get(k)] *)
Fixpoint get {V : Type} (k : string) (d : list (string * V)) : option V :=
  match d with
  | [] => None
  | (k', v) :: d' => if String.eqb k' k then Some v else get k d'
  end.

(** [d[k] = v]: a key already there keeps its place, a new one goes last. *)
Fixpoint set {V : Type} (k : string) (v : V) (d : list (string * V))
    : list (string * V) :=
  match d with
  | [] => [(k, v)]
  | (k', v') :: d' =>
      if String.eqb k' k then (k', v) :: d' else (k', v') :: set k v d'
  end.

(** [d.pop(k)], the dictionary left. *)
Fixpoint remove {V : Type} (k : string) (d : list (string * V))
    : list (string * V) :=
  match d with
  | [] => []
  | (k', v) :: d' => if String.eqb k' k then d' else (k', v) :: remove k d'
  end.

Definition keys {V : Type} (d : list (string * V)) : list string := map fst d.
Definition values {V : Type} (d : list (string * V)) : list V := map snd d.

(** No key twice: what every [dict] satisfies. *)
Definition well_formed {V : Type} (d : list (string * V)) : Prop :=
  NoDup (keys d).

End PyDict.

Module Registry.

(** [str.lower] on one character, for code points below 256: the letters
    A..Z and the capital letters of Latin-1 (all of 192..222 but the
    multiplication sign). *)
Definition lower_char (c : ascii) : ascii :=
  let n := nat_of_ascii c in
  if (((65 <=? n) && (n <=? 90))
      || ((192 <=? n) && (n <=? 222) && negb (n =? 215)))%nat
  then ascii_of_nat (n + 32) else c.

(** [s.lower()] *)
Fixpoint lower (s : string) : string :=
  match s with
  | EmptyString => EmptyString
  | String c s' => String (lower_char c) (lower s')
  end.

(** [str(n)] for a non-negative [int]. *)
Definition str_of_nat (n : nat) : string :=
  NilZero.string_of_uint (Nat.to_uint n).

(** [l[:limit]]: a negative limit counts from the end. *)
Definition slice_to {A : Type} (limit : Z) (l : list A) : list A :=
  if (0 <=? limit)%Z then firstn (Z.to_nat limit) l
  else firstn (length l - Z.to_nat (- limit)) l.

(** The three readings of [datetime.now()] made by [submit_bot]. *)
Record clock : Type := {
  id_stamp : string;         (* strftime('%Y%m%d%H%M%S') *)
  submitted_stamp : string;  (* isoformat() for "submitted_at" *)
  updated_stamp : string     (* isoformat() for "updated_at" *)
}.

(** What [submit_bot] returns (its ["success"] is [True]). *)
Record submitted : Type := {
  new_id : string;
  new_message : string;
  new_submission : Server.submission
}.

(** [f"sub_{len(submissions_db) + 1}_{datetime.now().strftime(...)}"] *)
Definition fresh_id (db : list (string * Server.submission)) (stamp : string)
    : string :=
  "sub_" ++ str_of_nat (length db + 1) ++ "_" ++ stamp.

Definition submit_bot (bot_name team_name bot_version repository_url
                       description language framework : string)
    (now : clock) (db : list (string * Server.submission))
    : submitted * list (string * Server.submission) :=
  let submission_id := fresh_id db (id_stamp now) in
  let submission :=
    {| Server.submission_id := submission_id;
       Server.bot_name := bot_name;
       Server.team_name := team_name;
       Server.bot_version := bot_version;
       Server.repository_url := repository_url;
       Server.description := description;
       Server.language := language;
       Server.framework := framework;
       Server.status := "pending";
       Server.submitted_at := submitted_stamp now;
       Server.updated_at := updated_stamp now |} in
  ({| new_id := submission_id;
      new_message := "Bot '" ++ bot_name ++ "' successfully submitted by team '"
                     ++ team_name ++ "'";
      new_submission := submission |},
   PyDict.set submission_id submission db).

Definition get_submission (id : string) (db : list (string * Server.submission))
    : Server.response * list (string * Server.submission) :=
  match PyDict.get id db with
  | None => (Server.not_found id, db)
  | Some s => (Server.Found s, db)
  end.

(** A field filter of [list_submissions]: [None] and the empty string
    both switch it off ([if team_name:]). *)
Definition matches (wanted : option string) (field : string) : bool :=
  match wanted with
  | None => true
  | Some w => if PyStr.nonempty w then String.eqb (lower field) (lower w) else true
  end.

(** What [list_submissions] returns. *)
Record listing : Type := {
  count : nat;
  submissions : list Server.submission
}.

Definition list_submissions (team_name status : option string) (limit : Z)
    (db : list (string * Server.submission)) : listing :=
  let submissions := PyDict.values db in
  let submissions :=
    filter (fun s => matches team_name (Server.team_name s)) submissions in
  let submissions :=
    filter (fun s => matches status (Server.status s)) submissions in
  let submissions := slice_to limit submissions in
  {| count := length submissions; submissions := submissions |}.

(** The submission after the assignments of [update_submission]. *)
Definition updated_submission (s : Server.submission)
    (new_version new_description new_url new_status : option string)
    (now : string) : Server.submission :=
  {| Server.submission_id := Server.submission_id s;
     Server.bot_name := Server.bot_name s;
     Server.team_name := Server.team_name s;
     Server.bot_version := Server.provided new_version (Server.bot_version s);
     Server.repository_url := Server.provided new_url (Server.repository_url s);
     Server.description := Server.provided new_description (Server.description s);
     Server.language := Server.language s;
     Server.framework := Server.framework s;
     Server.status := Server.provided new_status (Server.status s);
     Server.submitted_at := Server.submitted_at s;
     Server.updated_at := now |}.

(** The stored dictionary is changed in place, so the entry keeps its
    place in the store. *)
Definition update_submission (id : string)
    (new_version new_description new_url new_status : option string)
    (now : string) (db : list (string * Server.submission))
    : Server.response * list (string * Server.submission) :=
  match PyDict.get id db with
  | None => (Server.not_found id, db)
  | Some s =>
      let s' := updated_submission s new_version new_description new_url
                  new_status now in
      (Server.Updated ("Submission '" ++ id ++ "' updated successfully") s',
       PyDict.set id s' db)
  end.

Definition delete_submission (id : string)
    (db : list (string * Server.submission))
    : Server.response * list (string * Server.submission) :=
  match PyDict.get id db with
  | None => (Server.not_found id, db)
  | Some s =>
      (Server.Deleted ("Submission '" ++ id ++ "' deleted successfully") s,
       PyDict.remove id db)
  end.

(** What [get_submission_status] returns. *)
Inductive status_response : Type :=
| StatusFailure (error : string)
| Status (submission_id bot_name team_name status submitted_at updated_at : string).

Definition get_submission_status (id : string)
    (db : list (string * Server.submission)) : status_response :=
  match PyDict.get id db with
  | None => StatusFailure ("Submission '" ++ id ++ "' not found")
  | Some s =>
      Status id (Server.bot_name s) (Server.team_name s) (Server.status s)
             (Server.submitted_at s) (Server.updated_at s)
  end.

(** [counts[k] = counts.get(k, 0) + 1] *)
Definition bump (k : string) (counts : list (string * nat))
    : list (string * nat) :=
  PyDict.set k (match PyDict.get k counts with Some n => n | None => 0 end + 1)
             counts.

(** What [get_statistics] returns. *)
Record statistics : Type := {
  total_submissions : nat;
  by_status : list (string * nat);
  by_team : list (string * nat);
  by_language : list (string * nat)
}.

(** The body of the loop of [get_statistics] over the three counters. *)
Definition count_submission (s : Server.submission)
    (acc : list (string * nat) * list (string * nat) * list (string * nat))
    : list (string * nat) * list (string * nat) * list (string * nat) :=
  let '(status_counts, team_counts, language_counts) := acc in
  (bump (Server.status s) status_counts,
   bump (Server.team_name s) team_counts,
   if PyStr.nonempty (Server.language s)
   then bump (Server.language s) language_counts
   else language_counts).

Definition get_statistics (db : list (string * Server.submission)) : statistics :=
  let '(status_counts, team_counts, language_counts) :=
    fold_left (fun acc s => count_submission s acc) (PyDict.values db)
              ([], [], []) in
  {| total_submissions := length db;
     by_status := status_counts;
     by_team := team_counts;
     by_language := language_counts |}.

(** The sum of the counts of a counter. *)
Definition counted (counts : list (string * nat)) : nat :=
  list_sum (PyDict.values counts).

(** The store seen as a finite map. *)
Definition as_map (db : list (string * Server.submission))
    : gmap string Server.submission :=
  list_to_map db.

(** The key at place [i] (from 0) carries the number [i + 1]. *)
Definition numbered (db : list (string * Server.submission)) : Prop :=
  forall i k s, nth_error db i = Some (k, s) ->
                exists stamp : string,
                  k = ("sub_" ++ str_of_nat (i + 1) ++ "_" ++ stamp)%string.

(** The stores reached from the empty one by [submit_bot] and
    [update_submission] alone. *)
Inductive grown : list (string * Server.submission) -> Prop :=
| grown_empty : grown []
| grown_submit bot_name team_name bot_version repository_url description
    language framework now db :
    grown db ->
    grown (snd (submit_bot bot_name team_name bot_version repository_url
                           description language framework now db))
| grown_update id new_version new_description new_url new_status now db :
    grown db ->
    grown (snd (update_submission id new_version new_description new_url
                                  new_status now db)).

(** The submissions that pass both filters of [list_submissions], in
    store order. *)
Definition matching (team_name status : option string)
    (db : list (string * Server.submission)) : list Server.submission :=
  filter (fun s => matches status (Server.status s))
    (filter (fun s => matches team_name (Server.team_name s)) (PyDict.values db)).

(** Sample data: two submissions made within the same second, and the
    store after the first of them is deleted. *)
Definition noon : clock :=
  {| id_stamp := "20240101120000";
     submitted_stamp := "2024-01-01T12:00:00";
     updated_stamp := "2024-01-01T12:00:00" |}.

Definition two_submissions : list (string * Server.submission) :=
  snd (submit_bot "Beta" "Minds" "0.9" "https://example.org/beta.git" "" "C#" ""
         noon
         (snd (submit_bot "Alpha" "Owls" "1.0" "https://example.org/alpha.git"
                 "" "" "" noon []))).

Definition first_deleted : list (string * Server.submission) :=
  snd (delete_submission "sub_1_20240101120000" two_submissions).

End Registry.

(* ===================================================================== *)
(** ** server.py: sending an archive to the tournament API *)
(* ===================================================================== *)

Module Upload.

(** The exceptions the handlers of the tools tell apart. *)
Inductive exc : Type :=
| BadZipFile                       (* zipfile.BadZipFile *)
| RequestException (e : string)    (* requests.exceptions.RequestException *)
| OtherException (e : string).     (* any other Exception *)

(** An operation of the environment: its value, or the exception raised. *)
Inductive attempt (A : Type) : Type :=
| Done (a : A)
| Raise (x : exc).
Arguments Done {A} a.
Arguments Raise {A} x.

(** A value decoded from JSON; an object is a [dict] in insertion order. *)
#[warnings="-register-all"]
Inductive json : Type :=
| JNull
| JBool (b : bool)
| JInt (n : Z)
| JFloat (q : Q)
| JString (s : string)
| JArray (items : list json)
| JObject (fields : list (string * json)).

(** [type(v).__name__] *)
Definition type_name (v : json) : string :=
  match v with
  | JNull => "NoneType"
  | JBool _ => "bool"
  | JInt _ => "int"
  | JFloat _ => "float"
  | JString _ => "str"
  | JArray _ => "list"
  | JObject _ => "dict"
  end.

(** [result.get(key, default)] on a decoded object. *)
Definition get_default (key : string) (default : json)
    (fields : list (string * json)) : json :=
  match PyDict.get key fields with
  | Some v => v
  | None => default
  end.

(** An element of [files_data]. *)
Record file_data : Type := {
  FileName : string;
  Code : string
}.

(** The body posted. *)
Record payload : Type := {
  TeamName : string;
  Files : list file_data;
  Overwrite : option bool     (* only [submit_bot_to_tournament] sends it *)
}.

(** [requests.Response] *)
Record response : Type := {
  status_code : nat;
  text : string;
  json_body : attempt json    (* response.json() *)
}.

(** What a call of a tool meets: whether the path exists, what opening
    the archive gives (its names in order, each with what reading and
    decoding it gives), and the API as a function of the URL and body. *)
Record environment : Type := {
  path_exists : bool;
  open_zip : attempt (list (string * attempt string));
  post : string -> payload -> attempt response
}.

(** What the tools return. *)
Inductive answer : Type :=
| Failed (error : string)
| FailedWithDetails (error details : string)
| Verified (success is_valid message errors warnings : json)
           (files_verified : nat) (raw_response : json)
| Submitted (success team_name submission_id message errors : json)
            (files_submitted : nat).

Section Tools.

(** [os.path.basename], which depends on the platform, and the text
    Python prints for a decoded value. *)
Variable basename : string -> string.
Variable repr : json -> string.

Definition TOURNAMENT_API_BASE : string := "http://localhost:8080".

(** [file_name.endswith('/') or file_name.startswith('.')] *)
Definition skipped (file_name : string) : bool :=
  PyStr.endswith "/" file_name || PyStr.startswith "." file_name.

(** The body of the loop over [zip_ref.namelist()]; an exception ends
    the loop. *)
Definition extract_entry (entry : string * attempt string)
    (files_data : attempt (list file_data)) : attempt (list file_data) :=
  match files_data with
  | Raise x => Raise x
  | Done files =>
      let (file_name, content) := entry in
      if skipped file_name then Done files
      else match content with
           | Raise x => Raise x
           | Done code =>
               Done (files ++ [ {| FileName := basename file_name;
                                   Code := code |} ])
           end
  end.

(** [files_data] after the loop. *)
Definition extract (entries : list (string * attempt string))
    : attempt (list file_data) :=
  fold_left (fun files_data entry => extract_entry entry files_data)
            entries (Done []).

(** The three handlers, in the order of the [except] clauses. *)
Definition handle (x : exc) : answer :=
  match x with
  | BadZipFile => Failed "Invalid ZIP file"
  | RequestException e => Failed ("Network error: " ++ e)
  | OtherException e => Failed ("Unexpected error: " ++ e)
  end.

(** [result.get] on a decoded value that is not an object. *)
Definition no_get (v : json) : exc :=
  OtherException ("'" ++ type_name v ++ "' object has no attribute 'get'").

Definition verify_bot_submission (zip_file_path team_name : string)
    (env : environment) : io answer :=
  if negb (path_exists env) then
    ret (Failed ("File not found: " ++ zip_file_path))
  else
    match open_zip env with
    | Raise x => ret (handle x)
    | Done entries =>
        match extract entries with
        | Raise x => ret (handle x)
        | Done [] => ret (Failed "No valid files found in ZIP archive")
        | Done files_data =>
            let payload := {| TeamName := team_name; Files := files_data;
                              Overwrite := None |} in
            run print [Lit "DEBUG - Sending "; Int (len files_data); Lit " files:"];
            run print_each (PyStr.enumerate 0 (firstn 5 files_data)) (fun item =>
                  print [Lit "  "; Int (Z.of_nat (fst item + 1)); Lit ". ";
                         Lit (FileName (snd item)); Lit " (";
                         Int (Z.of_nat (String.length (Code (snd item))));
                         Lit " chars)"]);
            match post env (TOURNAMENT_API_BASE ++ "/api/bots/verify") payload with
            | Raise x => ret (handle x)
            | Done response =>
                if (status_code response =? 200)%nat then
                  match json_body response with
                  | Raise x => ret (handle x)
                  | Done result =>
                      run print [Lit "DEBUG - API Response: "; Lit (repr result)];
                      match result with
                      | JObject fields =>
                          ret (Verified
                                 (get_default "success"
                                    (get_default "isValid" (JBool false) fields)
                                    fields)
                                 (get_default "isValid" (JBool false) fields)
                                 (get_default "message"
                                    (JString "Verification completed") fields)
                                 (get_default "errors" (JArray []) fields)
                                 (get_default "warnings" (JArray []) fields)
                                 (length files_data)
                                 result)
                      | _ => ret (handle (no_get result))
                      end
                  end
                else
                  ret (FailedWithDetails
                         ("Verification API returned status "
                          ++ Registry.str_of_nat (status_code response))
                         (text response))
            end
        end
    end.

Definition submit_bot_to_tournament (zip_file_path team_name : string)
    (overwrite : bool) (env : environment) : io answer :=
  if negb (path_exists env) then
    ret (Failed ("File not found: " ++ zip_file_path))
  else
    match open_zip env with
    | Raise x => ret (handle x)
    | Done entries =>
        match extract entries with
        | Raise x => ret (handle x)
        | Done [] => ret (Failed "No valid files found in ZIP archive")
        | Done files_data =>
            let payload := {| TeamName := team_name; Files := files_data;
                              Overwrite := Some overwrite |} in
            match post env (TOURNAMENT_API_BASE ++ "/api/bots/submit") payload with
            | Raise x => ret (handle x)
            | Done response =>
                if (status_code response =? 200)%nat then
                  match json_body response with
                  | Raise x => ret (handle x)
                  | Done result =>
                      match result with
                      | JObject fields =>
                          ret (Submitted
                                 (get_default "Success" (JBool false) fields)
                                 (get_default "TeamName" JNull fields)
                                 (get_default "SubmissionId" JNull fields)
                                 (get_default "Message" (JString "") fields)
                                 (get_default "Errors" (JArray []) fields)
                                 (length files_data))
                      | _ => ret (handle (no_get result))
                      end
                  end
                else
                  ret (FailedWithDetails
                         ("Submission API returned status "
                          ++ Registry.str_of_nat (status_code response))
                         (text response))
            end
        end
    end.

(** The files an archive gives when every entry that is read can be
    read: one per entry that is not skipped, in the order of the names. *)
Definition sent_files (entries : list (string * attempt string))
    : list file_data :=
  flat_map (fun entry : string * attempt string =>
              if skipped (fst entry) then []
              else match snd entry with
                   | Done code => [ {| FileName := basename (fst entry);
                                       Code := code |} ]
                   | Raise _ => []
                   end)
           entries.

(** The first exception met by the entries that are read. *)
Fixpoint first_failure (entries : list (string * attempt string)) : option exc :=
  match entries with
  | [] => None
  | (file_name, content) :: rest =>
      if skipped file_name then first_failure rest
      else match content with
           | Raise x => Some x
           | Done _ => first_failure rest
           end
  end.

End Tools.

(** Sample data: an archive with a folder entry, a hidden file at the top,
    a hidden file in a folder and a source file. *)
Definition sample_entries : list (string * attempt string) :=
  [ ("src/", Done "");
    (".gitignore", Raise (OtherException "unreadable"));
    ("src/.editorconfig", Done "root = true");
    ("src/Bot.cs", Done "class Bot {}") ].

(** The last component of a path written with [/]. *)
Fixpoint after_last_slash (s : string) : string :=
  match s with
  | EmptyString => EmptyString
  | String c s' =>
      if PyStr.contains "/" s' then after_last_slash s'
      else if Ascii.eqb c "/"%char then s' else s
  end.

(** An archive of folders and top-level hidden files only, and an API that
    accepts whatever it is sent. *)
Definition accepting (url : string) (body : payload) : attempt response :=
  Done {| status_code := 200; text := "";
          json_body := Done (JObject [("isValid", JBool true)]) |}.

Definition refusing (url : string) (body : payload) : attempt response :=
  Raise (RequestException "connection refused").

Definition sample_env : environment :=
  {| path_exists := true; open_zip := Done sample_entries; post := accepting |}.

Definition no_files_env : environment :=
  {| path_exists := true;
     open_zip := Done [("src/", Done ""); (".gitignore", Done "bin/")];
     post := accepting |}.

End Upload.

(* ===================================================================== *)
(** ** Observations on a run, and sample runs *)
(* ===================================================================== *)

(** The headers among the lines printed: one per stage entered. *)
Definition headers {A : Type} (m : io A) : list line :=
  filter is_header (printed m).

(** The five headers, in the order [run_all_verifications] calls the checks. *)
Definition stage_headers : list line :=
  [ Header "VERIFICATION 1: COMPILATION";
    Header "VERIFICATION 2: DOUBLE SEMICOLON RULE";
    Header "VERIFICATION 4: STATEMENT ENDING RULE (//)";
    Header "VERIFICATION 3: UNIT TEST COVERAGE";
    Header "VERIFICATION 4: EXECUTION TIME (<0.3 sec)" ].

(** The keys of [results]. *)
Definition stage_names : list string :=
  [ "compilation"; "double_semicolons"; "statement_endings";
    "test_coverage"; "execution_time" ].

(** The total time the execution-time check works with, when it gets one:
    nothing raised, the output of the test run holds a timing line and
    its number parses. *)
Definition aggregate_timing (env : environment) : option F64.t :=
  match perf_setup env, perf_build env, perf_test_run env with
  | Returned _, Returned _, Returned result =>
      if PyStr.contains "Total time:" (stdout result) then
        match search_total_time (stdout result) with
        | Some group => py_float group
        | None => None
        end
      else None
  | _, _, _ => None
  end.

(** The value [F64.round] works out for [n / d], before the test for
    overflow, as a multiple of 2^-1074, the distance between the smallest
    floats. *)
Definition scaled_round (n d : Z) : Z :=
  let P := (Z.max (F64.exponent n d) (-1022) + 1022)%Z in
  (F64.nearest_even (n * 2 ^ 1074) (d * 2 ^ P) * 2 ^ P)%Z.

(** 2^a is at most [n / d]. *)
Definition pow_le (a n d : Z) : Prop :=
  if (0 <=? a)%Z then (d * 2 ^ a <= n)%Z else (d <= n * 2 ^ (- a))%Z.

(** The greatest float below 103.5. *)
Definition below_threshold : Q := (207 * 2 ^ 45 - 1) # (2 ^ 46).

Definition newline : string := String "010"%char EmptyString.

(** A line as [readlines] gives it, with its end of line. *)
Definition ln (s : string) : string := String.append s newline.

(** A process that exits with status 0 and prints [out]. *)
Definition exits_ok (out : string) : CompletedProcess :=
  {| returncode := 0; stdout := out; stderr := "" |}.


(** A readable source file with the given lines, as the listing of
    [check_double_semicolons] has it: the script is run from its
    directory, so that the paths start with [UserBot/], and the file is
    shown relative to [USERBOT_DIR]. *)
Definition source (name : string) (lines : list string) : cs_file :=
  {| path := String.append "UserBot/" name; shown := name; readlines := Returned lines |}.

(** The components of a path written with [/]. *)
Fixpoint path_parts_aux (cur : string) (s : string) : list string :=
  match s with
  | EmptyString => [cur]
  | String c s' =>
      if Ascii.eqb c "/"%char
      then cur :: path_parts_aux EmptyString s'
      else path_parts_aux (cur ++ String c EmptyString) s'
  end.

(** [f.relative_to(f.parent.parent.parent)] for a path of three components
    or more: the last three. *)
Definition from_third_parent (p : string) : string :=
  let parts := path_parts_aux EmptyString p in
  String.concat "/" (skipn (length parts - 3) parts).

(** The same file as the listing of [check_statement_endings] has it. *)
Definition in_statement_listing (f : cs_file) : cs_file :=
  {| path := path f; shown := from_third_parent (path f); readlines := readlines f |}.

Definition bot_cs : cs_file :=
  source "UserBot.StrategicMind/Bot.cs"
    [ ln "using System; //";
      ln "// the bot";
      ln "public class Bot";
      ln "{";
      ln "    public int Move() => 1; //";
      ln "}" ].

(** A submission that builds, breaks no style rule, lists 60 tests, has no
    coverage report, and whose test run takes 1.38 seconds. *)
Definition sample_env : environment :=
  {| userbot_dir_exists := true;
     build_run := Returned (exits_ok "Build succeeded.");
     ds_cs_files := [bot_cs];
     se_cs_files := [in_statement_listing bot_cs];
     se_test_files := [];
     cov_test_run := Returned (exits_ok "Passed!");
     cov_cobertura := [];
     cov_xml := [];
     cov_source_files := ["Bot.cs"];
     cov_test_files := ["BotTests.cs"];
     cov_list_tests :=
       Returned (exits_ok (String.concat newline (repeat "BotTests.Test" 60)));
     perf_setup := Returned tt;
     perf_build := Returned (exits_ok "Build succeeded.");
     perf_test_run := Returned (exits_ok "Total time: 1.38 Seconds") |}.

(** [sample_env] with another outcome for one observation. *)

Definition with_build_run (o : outcome CompletedProcess) (env : environment)
    : environment :=
  {| userbot_dir_exists := userbot_dir_exists env;
     build_run := o;
     ds_cs_files := ds_cs_files env;
     se_cs_files := se_cs_files env;
     se_test_files := se_test_files env;
     cov_test_run := cov_test_run env;
     cov_cobertura := cov_cobertura env;
     cov_xml := cov_xml env;
     cov_source_files := cov_source_files env;
     cov_test_files := cov_test_files env;
     cov_list_tests := cov_list_tests env;
     perf_setup := perf_setup env;
     perf_build := perf_build env;
     perf_test_run := perf_test_run env |}.

Definition with_sources (files : list cs_file) (env : environment) : environment :=
  {| userbot_dir_exists := userbot_dir_exists env;
     build_run := build_run env;
     ds_cs_files := files;
     se_cs_files := map in_statement_listing files;
     se_test_files := se_test_files env;
     cov_test_run := cov_test_run env;
     cov_cobertura := cov_cobertura env;
     cov_xml := cov_xml env;
     cov_source_files := cov_source_files env;
     cov_test_files := cov_test_files env;
     cov_list_tests := cov_list_tests env;
     perf_setup := perf_setup env;
     perf_build := perf_build env;
     perf_test_run := perf_test_run env |}.


Definition with_perf_test_run (o : outcome CompletedProcess) (env : environment)
    : environment :=
  {| userbot_dir_exists := userbot_dir_exists env;
     build_run := build_run env;
     ds_cs_files := ds_cs_files env;
     se_cs_files := se_cs_files env;
     se_test_files := se_test_files env;
     cov_test_run := cov_test_run env;
     cov_cobertura := cov_cobertura env;
     cov_xml := cov_xml env;
     cov_source_files := cov_source_files env;
     cov_test_files := cov_test_files env;
     cov_list_tests := cov_list_tests env;
     perf_setup := perf_setup env;
     perf_build := perf_build env;
     perf_test_run := o |}.





(** The test run reports 200 seconds. *)
Definition slow_env : environment :=
  with_perf_test_run (Returned (exits_ok "Total time: 200 Seconds")) sample_env.

(** The timed test run exceeds its 30 seconds. *)
Definition timed_out : string :=
  "Command '['dotnet', 'test', 'UserBot/UserBot.StrategicMind.Tests/UserBot.StrategicMind.Tests.csproj', '--verbosity', 'quiet']' timed out after 30 seconds".

Definition timeout_env : environment :=
  with_perf_test_run (Raised timed_out) sample_env.

(** The [dotnet] binary is missing: every launch raises. *)
Definition no_dotnet : string := "[Errno 2] No such file or directory: 'dotnet'".

Definition no_dotnet_env : environment :=
  {| userbot_dir_exists := true;
     build_run := Raised no_dotnet;
     ds_cs_files := ds_cs_files sample_env;
     se_cs_files := se_cs_files sample_env;
     se_test_files := se_test_files sample_env;
     cov_test_run := Raised no_dotnet;
     cov_cobertura := cov_cobertura sample_env;
     cov_xml := cov_xml sample_env;
     cov_source_files := cov_source_files sample_env;
     cov_test_files := cov_test_files sample_env;
     cov_list_tests := Raised no_dotnet;
     perf_setup := perf_setup sample_env;
     perf_build := Raised no_dotnet;
     perf_test_run := Raised no_dotnet |}.

(** The test run reports 103.499999999999999 seconds, which [float] reads
    as 103.5. *)
Definition rounded_env : environment :=
  with_perf_test_run
    (Returned (exits_ok "Total time: 103.499999999999999 Seconds")) sample_env.

(** Nothing raises outside the handlers. *)
Definition nothing_raises : unhandled :=
  {| userbot_dir_exists_raises := None;
     ds_rglob_raises := None;
     se_rglob_raises := None;
     se_test_rglob_raises := None;
     cleanup_raises := None |}.

(** The submission directory cannot be searched: what is inside it cannot
    be reached. *)
Definition denied (p : string) : string :=
  String.append "[Errno 13] Permission denied: '" (String.append p "'").

Definition unsearchable : unhandled :=
  {| userbot_dir_exists_raises := None;
     ds_rglob_raises := Some (denied "UserBot/UserBot.StrategicMind");
     se_rglob_raises := Some (denied "UserBot/UserBot.StrategicMind");
     se_test_rglob_raises := Some (denied "UserBot/UserBot.StrategicMind.Tests");
     cleanup_raises := Some (denied "UserBot/temp_perf_test") |}.

(** What the handlers see of the same directory: it cannot be made the
    working directory of a subprocess, and nothing can be created in it. *)
Definition unsearchable_env : environment :=
  {| userbot_dir_exists := true;
     build_run := Raised (denied "UserBot");
     ds_cs_files := [];
     se_cs_files := [];
     se_test_files := [];
     cov_test_run := Raised (denied "UserBot");
     cov_cobertura := [];
     cov_xml := [];
     cov_source_files := [];
     cov_test_files := [];
     cov_list_tests := Raised (denied "UserBot");
     perf_setup := Raised (denied "UserBot/temp_perf_test");
     perf_build := Raised (denied "UserBot");
     perf_test_run := Raised (denied "UserBot") |}.

(** Only the clean-up of the execution-time check raises. *)
Definition cleanup_fails : unhandled :=
  {| userbot_dir_exists_raises := None;
     ds_rglob_raises := None;
     se_rglob_raises := None;
     se_test_rglob_raises := None;
     cleanup_raises := Some (denied "UserBot/temp_perf_test") |}.

(** Only the listing of the test directory raises. *)
Definition tests_unsearchable : unhandled :=
  {| userbot_dir_exists_raises := None;
     ds_rglob_raises := None;
     se_rglob_raises := None;
     se_test_rglob_raises := Some (denied "UserBot/UserBot.StrategicMind.Tests");
     cleanup_raises := None |}.

(** The rows of the summary among the lines printed. *)
Definition summary_rows {A : Type} (m : io A) : list line :=
  filter (fun l => match l with SummaryRow _ _ => true | _ => false end)
         (printed m).

(** The first exception of [check_statement_endings] outside its handlers. *)
Definition se_listing_raises (u : unhandled) : option string :=
  match se_rglob_raises u with
  | Some e => Some e
  | None => se_test_rglob_raises u
  end.

(** Twenty statement lines of which eighteen end with the marker. *)
Definition eighteen_of_twenty : cs_file :=
  source "UserBot.StrategicMind/Moves.cs"
    (repeat (ln "    count += 1; //") 18
     ++ [ln "    total = count;"; ln "    return total;"]).

Definition eighteen_of_twenty_env : environment :=
  with_sources [eighteen_of_twenty] sample_env.



(** One line with a double terminator. *)
Definition double_terminator : cs_file :=
  source "UserBot.StrategicMind/Counter.cs" [ln "int x = 5;;"].

(** One line with a double terminator that starts with a star: a store
    through a pointer. *)
Definition pointer_store : cs_file :=
  source "UserBot.StrategicMind/Buffer.cs" [ln "*p = 0;;"].

Definition pointer_store_env : environment :=
  with_sources [pointer_store] sample_env.

(** Twenty statement lines: a compliant line with a string literal,
    seventeen other compliant lines, a line without the marker and with a
    string literal, and a line without either. *)
Definition mixed_statements : cs_file :=
  source "UserBot.StrategicMind/Log.cs"
    ([ln (String.concat PyStr.quote ["    Console.WriteLine("; "hi"; "); //"])]
     ++ repeat (ln "    count += 1; //") 17
     ++ [ ln (String.concat PyStr.quote ["    var s = "; "a;b"; ";"]);
          ln "    return total;" ]).

Definition mixed_statements_env : environment :=
  with_sources [mixed_statements] sample_env.

Definition double_terminator_env : environment :=
  with_sources [double_terminator] sample_env.

(** The entries of a list of issues for a given file and line number. *)
Definition issues_at (file : string) (line_num : nat) (issues : list issue)
    : list issue :=
  filter (fun i => String.eqb (issue_file i) file
                   && (issue_line i =? line_num)%nat) issues.

(** [sample_env] when the submission directory is not there. *)
Definition no_directory_env : environment :=
  {| userbot_dir_exists := false;
     build_run := build_run sample_env;
     ds_cs_files := ds_cs_files sample_env;
     se_cs_files := se_cs_files sample_env;
     se_test_files := se_test_files sample_env;
     cov_test_run := cov_test_run sample_env;
     cov_cobertura := cov_cobertura sample_env;
     cov_xml := cov_xml sample_env;
     cov_source_files := cov_source_files sample_env;
     cov_test_files := cov_test_files sample_env;
     cov_list_tests := cov_list_tests sample_env;
     perf_setup := perf_setup sample_env;
     perf_build := perf_build sample_env;
     perf_test_run := perf_test_run sample_env |}.

(** The flagged lines of the no-adjacent-terminator rule. *)
Definition double_semicolon_flagged (l : string) : bool :=
  PyStr.contains ";;" l
  && negb (PyStr.startswith "//" (PyStr.strip l))
  && negb (PyStr.startswith "*" (PyStr.strip l)).

(** The violations of one file: its flagged lines with their numbers. *)
Definition double_semicolon_file_issues (f : cs_file) : list issue :=
  match readlines f with
  | Returned lines =>
      flat_map (fun numbered : nat * string =>
                  if double_semicolon_flagged (snd numbered)
                  then [ {| issue_file := shown f;
                            issue_line := fst numbered;
                            issue_content := PyStr.strip (snd numbered) |} ]
                  else [])
               (PyStr.enumerate 1 lines)
  | Raised _ => []
  end.

(** Two scans put together: the issues of the first, then those of the
    second, and the counts added. *)
Definition scan_plus (a b : scan_state) : scan_state :=
  {| issues_found := issues_found a ++ issues_found b;
     total_statements := total_statements a + total_statements b;
     correct_statements := correct_statements a + correct_statements b |}.

(** The compliant statements and the recorded ones are among those
    counted. *)
Definition within_total (sc : scan_state) : Prop :=
  correct_statements sc + length (issues_found sc) <= total_statements sc.

(** What the loop of [statement_file] does line after line: the number
    of the line, the line, and what the loop body adds to the three
    variables of the scan, given the value [in_multiline_comment] has when
    the loop reaches the line. *)
Fixpoint statement_trace (cs_file : cs_file) (numbered : list (nat * string))
    (in_multiline_comment : bool) : list (nat * string * scan_state) :=
  match numbered with
  | [] => []
  | nl :: rest =>
      let after := statement_line cs_file nl (in_multiline_comment, scan_start) in
      (nl, snd after) :: statement_trace cs_file rest (fst after)
  end.

(** A line that the loop body counts in [total_statements] and not in
    [correct_statements]. *)
Definition counted_not_compliant (added : scan_state) : bool :=
  ((total_statements added =? 1) && (correct_statements added =? 0))%nat.

(** The offending lines of a file, with their numbers: the lines of a
    readable file counted as statements and not as compliant ones. *)
Definition offending_lines (f : cs_file) : list (nat * string) :=
  match readlines f with
  | Returned lines =>
      map fst (filter (fun t => counted_not_compliant (snd t))
                      (statement_trace f (PyStr.enumerate 1 lines) false))
  | Raised _ => []
  end.




(** The warning printed for a file that cannot be read. *)
Definition unreadable_warnings (cs_files : list cs_file) : list line :=
  flat_map (fun f => match readlines f with
                     | Returned _ => []
                     | Raised e =>
                         [Warning [Lit "Could not read "; Lit (path f); Lit ": ";
                                   Lit e]]
                     end) cs_files.

(** A file that cannot be read, a file under [obj/], and a file whose
    first line, a single-line comment, holds the opening marker of a
    block comment. *)
Definition locked_cs : cs_file :=
  {| path := "UserBot/UserBot.StrategicMind/Locked.cs";
     shown := "UserBot.StrategicMind/Locked.cs";
     readlines := Raised (denied "UserBot/UserBot.StrategicMind/Locked.cs") |}.

Definition generated_cs : cs_file :=
  {| path := "UserBot/UserBot.StrategicMind/obj/Debug/AssemblyInfo.cs";
     shown := "UserBot.StrategicMind/obj/Debug/AssemblyInfo.cs";
     readlines := Returned [ln "using System;"; ln "int x = 5;;"] |}.

Definition comment_opens_block : cs_file :=
  source "UserBot.StrategicMind/Notes.cs"
    [ ln "// see /* below";
      ln "int lost = 1;";
      ln "int alsoLost = 2;" ].

Definition unscanned_env : environment :=
  {| userbot_dir_exists := true;
     build_run := build_run sample_env;
     ds_cs_files := [locked_cs; generated_cs];
     se_cs_files := map in_statement_listing [locked_cs; generated_cs];
     se_test_files := [];
     cov_test_run := cov_test_run sample_env;
     cov_cobertura := cov_cobertura sample_env;
     cov_xml := cov_xml sample_env;
     cov_source_files := cov_source_files sample_env;
     cov_test_files := cov_test_files sample_env;
     cov_list_tests := cov_list_tests sample_env;
     perf_setup := perf_setup sample_env;
     perf_build := perf_build sample_env;
     perf_test_run := perf_test_run sample_env |}.

(* ===================================================================== *)
(** ** Reasoning about printing computations *)
(* ===================================================================== *)

Section IoLemmas.
Context {A B : Type}.

Lemma value_ret (a : A) : value (ret a) = a.
Proof. reflexivity. Qed.

Lemma printed_ret (a : A) : printed (ret a) = [].
Proof. reflexivity. Qed.

Lemma value_bind (m : io A) (k : A -> io B) :
  value (bind m k) = value (k (value m)).
Proof.
  unfold bind, value. destruct m as [a out1]. simpl.
  destruct (k a) as [b out2]. reflexivity.
Qed.

Lemma printed_bind (m : io A) (k : A -> io B) :
  printed (bind m k) = printed m ++ printed (k (value m)).
Proof.
  unfold bind, printed, value. destruct m as [a out1]. simpl.
  destruct (k a) as [b out2]. reflexivity.
Qed.
End IoLemmas.

Lemma headers_bind {A B : Type} (m : io A) (k : A -> io B) :
  headers (bind m k) = headers m ++ headers (k (value m)).
Proof. unfold headers. rewrite printed_bind. apply filter_app. Qed.

Lemma headers_for_each {A St : Type} (body : A -> St -> io St) (xs : list A) :
  (forall x st, headers (body x st) = []) ->
  forall st, headers (for_each xs body st) = [].
Proof.
  intros Hbody. induction xs as [|x xs IH]; intros st; simpl.
  - reflexivity.
  - rewrite headers_bind, Hbody, IH. reflexivity.
Qed.

Lemma headers_print_each {A : Type} (body : A -> io unit) (xs : list A) :
  (forall x, headers (body x) = []) -> headers (print_each xs body) = [].
Proof. intros Hbody. apply headers_for_each. intros x _. apply Hbody. Qed.

(** What a print loop prints. *)
Lemma printed_print_each {A : Type} (body : A -> io unit) (xs : list A) :
  printed (print_each xs body) = flat_map (fun x => printed (body x)) xs.
Proof.
  unfold print_each. generalize tt.
  induction xs as [|x xs IH]; intros u.
  - reflexivity.
  - cbn [for_each flat_map]. rewrite printed_bind, IH. reflexivity.
Qed.

(** Splits the verdict and the output of a sequence of steps. *)
Ltac io_simpl :=
  repeat (rewrite ?value_bind, ?printed_bind, ?headers_bind; simpl).


(** The same without unfolding anything else. *)
Ltac io_split :=
  repeat (progress (rewrite ?value_bind, ?printed_bind; cbv beta)).

(* ===================================================================== *)
(** ** The execution-time check *)
(* ===================================================================== *)

Lemma check_execution_time_passes (env : environment) :
  value (check_execution_time env) = true.
Proof.
  unfold check_execution_time.
  destruct (perf_setup env) as [[]|e]; [|reflexivity].
  destruct (perf_build env) as [b|e]; [|reflexivity].
  destruct (perf_test_run env) as [r|e]; [|reflexivity].
  destruct (PyStr.contains "Total time:" (stdout r)); [|reflexivity].
  destruct (search_total_time (stdout r)) as [g|]; [|reflexivity].
  destruct (py_float g) as [t|]; [|reflexivity].
  destruct (F64.ltb (estimated_api_time t) MAX_EXECUTION_TIME_MS);
    reflexivity.
Qed.

(* ===================================================================== *)
(** ** The overall verdict *)
(* ===================================================================== *)

Lemma run_checks_value (env : environment) :
  value (run_checks env) =
    [ ("compilation", value (check_compilation env));
      ("double_semicolons", value (check_double_semicolons env));
      ("statement_endings", value (check_statement_endings env));
      ("test_coverage", value (check_test_coverage env));
      ("execution_time", value (check_execution_time env)) ].
Proof. unfold run_checks. io_simpl. reflexivity. Qed.

Lemma run_all_verifications_value (env : environment) :
  value (run_all_verifications env) = forallb snd (value (run_checks env)).
Proof.
  unfold run_all_verifications, summary. io_simpl.
  destruct (forallb snd (value (run_checks env))); reflexivity.
Qed.



(* ===================================================================== *)
(** ** The submission store *)
(* ===================================================================== *)

(** C9. For an id that is not a key of the store, [get_submission],
    [update_submission] and [delete_submission] each answer with
    [success = False] and the error [Submission '<id>' not found], and
    the store afterwards is the store before. *)
Theorem C9_missing_id_reports_not_found
    (db : gmap string Server.submission) (id : string)
    (new_version new_description new_url new_status : option string)
    (now : string) :
  db !! id = None ->
  let answer := Server.Failure ("Submission '" ++ id ++ "' not found") in
  Server.success answer = false
  /\ Server.get_submission id db = (answer, db)
  /\ Server.update_submission id new_version new_description new_url new_status
       now db = (answer, db)
  /\ Server.delete_submission id db = (answer, db).
Proof.
  intros Hmissing answer.
  unfold Server.get_submission, Server.update_submission,
    Server.delete_submission.
  rewrite Hmissing. repeat split; reflexivity.
Qed.

Lemma C9_missing_id_reports_not_found_witness :
  Server.get_submission "sub_9"
    (<["sub_1_20240101120000" := Server.sample_submission]> ∅)
  = (Server.Failure "Submission 'sub_9' not found",
     <["sub_1_20240101120000" := Server.sample_submission]> ∅).
Proof.
  apply (C9_missing_id_reports_not_found
           (<["sub_1_20240101120000" := Server.sample_submission]> ∅)
           "sub_9" None None None (Some "approved") "2024-01-02T08:00:00").
  vm_compute. reflexivity.
Defined.

(* ===================================================================== *)
(** ** The coverage check *)
(* ===================================================================== *)






(* ===================================================================== *)
(** ** The latency estimate *)
(* ===================================================================== *)

(* ===================================================================== *)
(** ** Exceptions inside a stage do not stop the pipeline *)
(* ===================================================================== *)

Lemma headers_check_compilation (env : environment) :
  headers (check_compilation env) = [Header "VERIFICATION 1: COMPILATION"].
Proof.
  unfold check_compilation.
  destruct (build_run env) as [result|e]; [|reflexivity].
  destruct (returncode result =? 0)%Z; reflexivity.
Qed.

Lemma headers_double_semicolon_issues (cs_files : list cs_file) :
  headers (double_semicolon_issues cs_files) = [].
Proof.
  apply headers_for_each. intros f acc. unfold double_semicolon_file.
  destruct (readlines f); reflexivity.
Qed.

Lemma headers_check_double_semicolons (env : environment) :
  headers (check_double_semicolons env) =
    [Header "VERIFICATION 2: DOUBLE SEMICOLON RULE"].
Proof.
  unfold check_double_semicolons.
  rewrite !headers_bind, headers_double_semicolon_issues.
  destruct (value (double_semicolon_issues (ds_cs_files env))) as [|i issues].
  - reflexivity.
  - rewrite !headers_bind, headers_print_each by reflexivity.
    destruct (10 <? len (i :: issues))%Z; reflexivity.
Qed.

Lemma headers_statement_scan (env : environment) :
  headers (statement_scan env) = [].
Proof.
  apply headers_for_each. intros f acc. unfold statement_file.
  destruct (readlines f); reflexivity.
Qed.

Lemma headers_check_statement_endings (env : environment) :
  headers (check_statement_endings env) =
    [Header "VERIFICATION 4: STATEMENT ENDING RULE (//)"].
Proof.
  unfold check_statement_endings.
  rewrite !headers_bind, headers_statement_scan.
  destruct (total_statements (value (statement_scan env)) =? 0)%nat;
    [reflexivity|].
  rewrite !headers_bind.
  destruct (Qle_bool 95 (compliance_rate (value (statement_scan env))));
    [reflexivity|].
  rewrite !headers_bind.
  destruct (issues_found (value (statement_scan env))) as [|i issues];
    [reflexivity|].
  rewrite !headers_bind, headers_print_each by reflexivity. reflexivity.
Qed.

Lemma headers_check_test_coverage (env : environment) :
  headers (check_test_coverage env) =
    [Header "VERIFICATION 3: UNIT TEST COVERAGE"].
Proof.
  unfold check_test_coverage.
  destruct (cov_test_run env) as [result|e]; [|reflexivity].
  destruct (returncode result =? 0)%Z; [|reflexivity].
  destruct (coverage_files env) as [|c cs].
  - destruct (cov_list_tests env) as [listing|e]; [|reflexivity].
    destruct (50 <=? count_listed_tests (stdout listing))%nat; reflexivity.
  - destruct (Qle_bool REQUIRED_COVERAGE_PERCENT
                (coverage_ratio (cov_test_files env) (cov_source_files env)));
      reflexivity.
Qed.

Lemma headers_check_execution_time (env : environment) :
  headers (check_execution_time env) =
    [Header "VERIFICATION 4: EXECUTION TIME (<0.3 sec)"].
Proof.
  unfold check_execution_time.
  destruct (perf_setup env) as [[]|e]; [|reflexivity].
  destruct (perf_build env) as [b|e]; [|reflexivity].
  destruct (perf_test_run env) as [r|e]; [|reflexivity].
  destruct (PyStr.contains "Total time:" (stdout r)); [|reflexivity].
  destruct (search_total_time (stdout r)) as [g|]; [|reflexivity].
  destruct (py_float g) as [t|]; [|reflexivity].
  destruct (F64.ltb (estimated_api_time t) MAX_EXECUTION_TIME_MS);
    reflexivity.
Qed.

Lemma headers_run_checks (env : environment) :
  headers (run_checks env) = stage_headers.
Proof.
  unfold run_checks.
  rewrite !headers_bind, headers_check_compilation,
    headers_check_double_semicolons, headers_check_statement_endings,
    headers_check_test_coverage, headers_check_execution_time.
  reflexivity.
Qed.

(* ===================================================================== *)
(** ** Exceptions that leave a check *)
(* ===================================================================== *)

Lemma bind_eq {A B : Type} (m : io A) (k : A -> io B) :
  bind m k = (value (k (value m)), printed m ++ printed (k (value m))).
Proof.
  destruct m as [a out]. unfold bind, value, printed. cbn [fst snd].
  destruct (k a) as [b out']. reflexivity.
Qed.

Lemma returning_eq {A : Type} (m : io A) :
  Process.returning m = (Returns (value m), printed m).
Proof.
  unfold Process.returning. rewrite bind_eq.
  cbn [ret value printed fst snd]. rewrite app_nil_r. reflexivity.
Qed.

Lemma andthen_eq {A B : Type} (m : io (ending A)) (k : A -> io (ending B)) :
  Process.andthen m k =
    match value m with
    | Returns a => (value (k a), printed m ++ printed (k a))
    | Escapes e => (Escapes e, printed m)
    end.
Proof.
  unfold Process.andthen. rewrite bind_eq.
  destruct (value m) as [a|e]; [reflexivity|].
  cbn [ret value printed fst snd]. rewrite app_nil_r. reflexivity.
Qed.

Lemma process_check_double_semicolons (env : environment) (u : unhandled) :
  Process.check_double_semicolons env u =
    match ds_rglob_raises u with
    | Some e => (Escapes e, [Header "VERIFICATION 2: DOUBLE SEMICOLON RULE"])
    | None => (Returns (value (check_double_semicolons env)),
               printed (check_double_semicolons env))
    end.
Proof.
  unfold Process.check_double_semicolons.
  destruct (ds_rglob_raises u) as [e|]; [reflexivity | apply returning_eq].
Qed.

Lemma process_check_statement_endings (env : environment) (u : unhandled) :
  Process.check_statement_endings env u =
    match se_listing_raises u with
    | Some e => (Escapes e, [Header "VERIFICATION 4: STATEMENT ENDING RULE (//)"])
    | None => (Returns (value (check_statement_endings env)),
               printed (check_statement_endings env))
    end.
Proof.
  unfold Process.check_statement_endings, se_listing_raises.
  destruct (se_rglob_raises u) as [e|]; [reflexivity|].
  destruct (se_test_rglob_raises u) as [e|]; [reflexivity | apply returning_eq].
Qed.

Lemma process_check_execution_time (env : environment) (u : unhandled) :
  Process.check_execution_time env u =
    (match cleanup_raises u with
     | Some e => Escapes e
     | None => Returns true
     end,
     printed (check_execution_time env)).
Proof.
  unfold Process.check_execution_time. rewrite bind_eq.
  rewrite check_execution_time_passes.
  destruct (cleanup_raises u) as [e|];
    cbn [ret value printed fst snd]; rewrite app_nil_r; reflexivity.
Qed.

Lemma printed_run_checks (env : environment) :
  printed (run_checks env) =
    printed (check_compilation env)
    ++ printed (check_double_semicolons env)
    ++ printed (check_statement_endings env)
    ++ printed (check_test_coverage env)
    ++ printed (check_execution_time env).
Proof.
  unfold run_checks. rewrite !printed_bind. cbn [ret printed snd].
  rewrite app_nil_r. reflexivity.
Qed.

Lemma printed_summary (results : list (string * bool)) :
  printed (summary results) =
    Header "VERIFICATION SUMMARY"
    :: map (fun item => SummaryRow (fst item) (snd item)) results
    ++ Print [Lit "(rule)"]
    :: (if forallb snd results
        then [ Print [Lit "ALL VERIFICATIONS PASSED!"];
               Print [Lit "The UserBot is ready for submission!"] ]
        else [ Print [Lit "SOME VERIFICATIONS FAILED"];
               Print [Lit "Please fix the issues above before submission."] ]).
Proof.
  assert (Hrows : forall rows : list (string * bool),
             flat_map (fun x => printed (emit (SummaryRow (fst x) (snd x)))) rows =
             map (fun item => SummaryRow (fst item) (snd item)) rows).
  { induction rows as [|r rows IH]; [reflexivity|].
    cbn [flat_map map]. rewrite IH. reflexivity. }
  unfold summary. rewrite !printed_bind, printed_print_each, Hrows.
  destruct (forallb snd results); reflexivity.
Qed.

Lemma value_summary (results : list (string * bool)) :
  value (summary results) = forallb snd results.
Proof.
  unfold summary. rewrite !value_bind.
  destruct (forallb snd results); reflexivity.
Qed.

(** The run, by the first exception that no handler catches. *)
Lemma process_run_all_verifications (env : environment) (u : unhandled) :
  Process.run_all_verifications env u =
    match ds_rglob_raises u with
    | Some e =>
        (Escapes e,
         printed print_banner
         ++ printed (check_compilation env)
         ++ [Header "VERIFICATION 2: DOUBLE SEMICOLON RULE"])
    | None =>
        match se_listing_raises u with
        | Some e =>
            (Escapes e,
             printed print_banner
             ++ printed (check_compilation env)
             ++ printed (check_double_semicolons env)
             ++ [Header "VERIFICATION 4: STATEMENT ENDING RULE (//)"])
        | None =>
            match cleanup_raises u with
            | Some e =>
                (Escapes e, printed print_banner ++ printed (run_checks env))
            | None =>
                (Returns (value (run_all_verifications env)),
                 printed (run_all_verifications env))
            end
        end
    end.
Proof.
  unfold Process.run_all_verifications. rewrite bind_eq.
  rewrite andthen_eq, returning_eq. cbn [value printed fst snd].
  rewrite andthen_eq, process_check_double_semicolons.
  destruct (ds_rglob_raises u) as [e|]; cbn [value printed fst snd];
    [reflexivity|].
  rewrite andthen_eq, process_check_statement_endings.
  destruct (se_listing_raises u) as [e|]; cbn [value printed fst snd];
    [reflexivity|].
  rewrite andthen_eq, returning_eq. cbn [value printed fst snd].
  rewrite andthen_eq, process_check_execution_time. cbn [value printed fst snd].
  destruct (cleanup_raises u) as [e|].
  - rewrite printed_run_checks. reflexivity.
  - rewrite returning_eq. cbn [value printed fst snd].
    unfold run_all_verifications. rewrite bind_eq, bind_eq.
    cbn [value printed fst snd].
    rewrite run_checks_value, printed_run_checks, check_execution_time_passes.
    rewrite <- !app_assoc. reflexivity.
Qed.

Lemma process_main (env : environment) (u : unhandled) :
  value (Process.main env u) =
    match userbot_dir_exists_raises u with
    | Some e => Escapes e
    | None =>
        if userbot_dir_exists env then
          match value (Process.run_all_verifications env u) with
          | Returns success => Returns (if success then 0%Z else 1%Z)
          | Escapes e => Escapes e
          end
        else Returns 1%Z
    end.
Proof.
  unfold Process.main.
  destruct (userbot_dir_exists_raises u) as [e|]; [reflexivity|].
  destruct (userbot_dir_exists env); [|reflexivity].
  cbn [negb]. rewrite andthen_eq.
  destruct (value (Process.run_all_verifications env u)); reflexivity.
Qed.

(** *** No check prints a row of the summary *)

Lemma summary_rows_bind {A B : Type} (m : io A) (k : A -> io B) :
  summary_rows (bind m k) = summary_rows m ++ summary_rows (k (value m)).
Proof. unfold summary_rows. rewrite printed_bind. apply filter_app. Qed.

Lemma summary_rows_for_each {A St : Type} (body : A -> St -> io St) (xs : list A) :
  (forall x st, summary_rows (body x st) = []) ->
  forall st, summary_rows (for_each xs body st) = [].
Proof.
  intros Hbody. induction xs as [|x xs IH]; intros st; simpl.
  - reflexivity.
  - rewrite summary_rows_bind, Hbody, IH. reflexivity.
Qed.

Lemma summary_rows_print_each {A : Type} (body : A -> io unit) (xs : list A) :
  (forall x, summary_rows (body x) = []) -> summary_rows (print_each xs body) = [].
Proof. intros Hbody. apply summary_rows_for_each. intros x _. apply Hbody. Qed.

Lemma summary_rows_check_compilation (env : environment) :
  summary_rows (check_compilation env) = [].
Proof.
  unfold check_compilation.
  destruct (build_run env) as [result|e]; [|reflexivity].
  destruct (returncode result =? 0)%Z; reflexivity.
Qed.

Lemma summary_rows_check_double_semicolons (env : environment) :
  summary_rows (check_double_semicolons env) = [].
Proof.
  unfold check_double_semicolons.
  rewrite !summary_rows_bind.
  assert (Hscan : summary_rows (double_semicolon_issues (ds_cs_files env)) = []).
  { apply summary_rows_for_each. intros f acc. unfold double_semicolon_file.
    destruct (readlines f); reflexivity. }
  rewrite Hscan.
  destruct (value (double_semicolon_issues (ds_cs_files env))) as [|i issues].
  - reflexivity.
  - rewrite !summary_rows_bind, summary_rows_print_each by reflexivity.
    destruct (10 <? len (i :: issues))%Z; reflexivity.
Qed.

Lemma summary_rows_check_statement_endings (env : environment) :
  summary_rows (check_statement_endings env) = [].
Proof.
  unfold check_statement_endings.
  rewrite !summary_rows_bind.
  assert (Hscan : summary_rows (statement_scan env) = []).
  { apply summary_rows_for_each. intros f acc. unfold statement_file.
    destruct (readlines f); reflexivity. }
  rewrite Hscan.
  destruct (total_statements (value (statement_scan env)) =? 0)%nat;
    [reflexivity|].
  rewrite !summary_rows_bind.
  destruct (Qle_bool 95 (compliance_rate (value (statement_scan env))));
    [reflexivity|].
  rewrite !summary_rows_bind.
  destruct (issues_found (value (statement_scan env))) as [|i issues];
    [reflexivity|].
  rewrite !summary_rows_bind, summary_rows_print_each by reflexivity. reflexivity.
Qed.

Lemma summary_rows_check_test_coverage (env : environment) :
  summary_rows (check_test_coverage env) = [].
Proof.
  unfold check_test_coverage.
  destruct (cov_test_run env) as [result|e]; [|reflexivity].
  destruct (returncode result =? 0)%Z; [|reflexivity].
  destruct (coverage_files env) as [|c cs].
  - destruct (cov_list_tests env) as [listing|e]; [|reflexivity].
    destruct (50 <=? count_listed_tests (stdout listing))%nat; reflexivity.
  - destruct (Qle_bool REQUIRED_COVERAGE_PERCENT
                (coverage_ratio (cov_test_files env) (cov_source_files env)));
      reflexivity.
Qed.

Lemma summary_rows_check_execution_time (env : environment) :
  summary_rows (check_execution_time env) = [].
Proof.
  unfold check_execution_time.
  destruct (perf_setup env) as [[]|e]; [|reflexivity].
  destruct (perf_build env) as [b|e]; [|reflexivity].
  destruct (perf_test_run env) as [r|e]; [|reflexivity].
  destruct (PyStr.contains "Total time:" (stdout r)); [|reflexivity].
  destruct (search_total_time (stdout r)) as [g|]; [|reflexivity].
  destruct (py_float g) as [t|]; [|reflexivity].
  destruct (F64.ltb (estimated_api_time t) MAX_EXECUTION_TIME_MS);
    reflexivity.
Qed.

(** The rows of the summary of a run: none when an exception leaves it,
    and otherwise one per check, in the order of the calls. *)
Lemma process_run_summary_rows (env : environment) (u : unhandled) :
  summary_rows (Process.run_all_verifications env u) =
    match ds_rglob_raises u, se_listing_raises u, cleanup_raises u with
    | None, None, None =>
        [ SummaryRow "compilation" (value (check_compilation env));
          SummaryRow "double_semicolons" (value (check_double_semicolons env));
          SummaryRow "statement_endings" (value (check_statement_endings env));
          SummaryRow "test_coverage" (value (check_test_coverage env));
          SummaryRow "execution_time" true ]
    | _, _, _ => []
    end.
Proof.
  assert (Hchecks : filter (fun l => match l with SummaryRow _ _ => true | _ => false end)
                      (printed (run_checks env)) = []).
  { change (summary_rows (run_checks env) = []). unfold run_checks.
    rewrite !summary_rows_bind, summary_rows_check_compilation,
      summary_rows_check_double_semicolons, summary_rows_check_statement_endings,
      summary_rows_check_test_coverage, summary_rows_check_execution_time.
    reflexivity. }
  pose proof (summary_rows_check_compilation env) as Hc1.
  pose proof (summary_rows_check_double_semicolons env) as Hc2.
  unfold summary_rows in *.
  rewrite process_run_all_verifications.
  destruct (ds_rglob_raises u) as [e|]; cbn [printed snd].
  { rewrite !filter_app, Hc1. reflexivity. }
  destruct (se_listing_raises u) as [e|]; cbn [printed snd].
  { rewrite !filter_app, Hc1, Hc2. reflexivity. }
  destruct (cleanup_raises u) as [e|]; cbn [printed snd].
  { rewrite !filter_app, Hchecks. reflexivity. }
  unfold run_all_verifications. rewrite !printed_bind, printed_summary.
  rewrite run_checks_value, check_execution_time_passes.
  rewrite !filter_app, Hchecks.
  destruct (forallb snd _); reflexivity.
Qed.

Lemma process_run_headers (env : environment) (u : unhandled) :
  headers (Process.run_all_verifications env u) =
    match ds_rglob_raises u, se_listing_raises u, cleanup_raises u with
    | Some _, _, _ =>
        [ Header "VERIFICATION 1: COMPILATION";
          Header "VERIFICATION 2: DOUBLE SEMICOLON RULE" ]
    | None, Some _, _ =>
        [ Header "VERIFICATION 1: COMPILATION";
          Header "VERIFICATION 2: DOUBLE SEMICOLON RULE";
          Header "VERIFICATION 4: STATEMENT ENDING RULE (//)" ]
    | None, None, Some _ => stage_headers
    | None, None, None => stage_headers ++ [Header "VERIFICATION SUMMARY"]
    end.
Proof.
  pose proof (headers_check_compilation env) as Hc1.
  pose proof (headers_check_double_semicolons env) as Hc2.
  pose proof (headers_run_checks env) as Hchecks.
  unfold headers in *.
  rewrite process_run_all_verifications.
  destruct (ds_rglob_raises u) as [e|]; cbn [printed snd].
  { rewrite !filter_app, Hc1. reflexivity. }
  destruct (se_listing_raises u) as [e|]; cbn [printed snd].
  { rewrite !filter_app, Hc1, Hc2. reflexivity. }
  destruct (cleanup_raises u) as [e|]; cbn [printed snd].
  { rewrite !filter_app, Hchecks. reflexivity. }
  unfold run_all_verifications. rewrite !printed_bind, printed_summary.
  rewrite !filter_app, Hchecks.
  rewrite run_checks_value.
  destruct (forallb snd _); reflexivity.
Qed.

Lemma process_run_value (env : environment) (u : unhandled) :
  value (Process.run_all_verifications env u) =
    match ds_rglob_raises u, se_listing_raises u, cleanup_raises u with
    | Some e, _, _ => Escapes e
    | None, Some e, _ => Escapes e
    | None, None, Some e => Escapes e
    | None, None, None =>
        Returns (value (check_compilation env)
                 && value (check_double_semicolons env)
                 && value (check_statement_endings env)
                 && value (check_test_coverage env))
    end.
Proof.
  rewrite process_run_all_verifications.
  destruct (ds_rglob_raises u) as [e|]; [reflexivity|].
  destruct (se_listing_raises u) as [e|]; [reflexivity|].
  destruct (cleanup_raises u) as [e|]; [reflexivity|].
  cbn [value fst].
  rewrite run_all_verifications_value, run_checks_value,
    check_execution_time_passes.
  cbn [forallb snd]. rewrite !andb_true_r, !andb_assoc. reflexivity.
Qed.

(** C1, as the script has it.  An exception raised inside the [try]
    statement of a stage is caught there and stops nothing: when it is
    the build of the compilation stage or the test run of the coverage
    stage, that stage fails, and in the execution-time stage the stage
    passes all the same.  What is raised outside the handlers (by the
    listing that opens the double-semicolon stage or the statement-ending
    stage, or by the clean-up that closes the execution-time stage) ends
    the run on the spot: the headers printed are those of the stages
    entered so far, no row of a summary is printed, and no verdict is
    returned.  On every other run the five stages are entered in order,
    followed by the summary, which has one row per check with its pass or
    fail verdict, and the verdict returned is their conjunction.  The
    exit status is 0 when the run returns a true verdict, and 1 in every
    other case. *)
Theorem C1_exceptions_and_the_pipeline (env : environment) (u : unhandled) :
  let pipeline := Process.run_all_verifications env u in
  (forall e, build_run env = Raised e -> value (check_compilation env) = false)
  /\ (forall e, cov_test_run env = Raised e ->
                value (check_test_coverage env) = false)
  /\ value (check_execution_time env) = true
  /\ match ds_rglob_raises u, se_listing_raises u, cleanup_raises u with
     | Some e, _, _ =>
         value pipeline = Escapes e
         /\ headers pipeline = [ Header "VERIFICATION 1: COMPILATION";
                            Header "VERIFICATION 2: DOUBLE SEMICOLON RULE" ]
         /\ summary_rows pipeline = []
     | None, Some e, _ =>
         value pipeline = Escapes e
         /\ headers pipeline = [ Header "VERIFICATION 1: COMPILATION";
                            Header "VERIFICATION 2: DOUBLE SEMICOLON RULE";
                            Header "VERIFICATION 4: STATEMENT ENDING RULE (//)" ]
         /\ summary_rows pipeline = []
     | None, None, Some e =>
         value pipeline = Escapes e
         /\ headers pipeline = stage_headers
         /\ summary_rows pipeline = []
     | None, None, None =>
         value pipeline = Returns (value (check_compilation env)
                              && value (check_double_semicolons env)
                              && value (check_statement_endings env)
                              && value (check_test_coverage env)
                              && value (check_execution_time env))
         /\ headers pipeline = stage_headers ++ [Header "VERIFICATION SUMMARY"]
         /\ summary_rows pipeline =
              [ SummaryRow "compilation" (value (check_compilation env));
                SummaryRow "double_semicolons" (value (check_double_semicolons env));
                SummaryRow "statement_endings" (value (check_statement_endings env));
                SummaryRow "test_coverage" (value (check_test_coverage env));
                SummaryRow "execution_time" (value (check_execution_time env)) ]
     end
  /\ Process.exit_status (value (Process.main env u)) =
       match userbot_dir_exists_raises u, userbot_dir_exists env,
             value pipeline with
       | None, true, Returns true => 0%Z
       | _, _, _ => 1%Z
       end.
Proof.
  cbv zeta.
  split. { intros e H. unfold check_compilation. rewrite H. reflexivity. }
  split. { intros e H. unfold check_test_coverage. rewrite H. reflexivity. }
  split. { apply check_execution_time_passes. }
  split.
  - rewrite process_run_value, process_run_headers, process_run_summary_rows,
      check_execution_time_passes, andb_true_r.
    destruct (ds_rglob_raises u), (se_listing_raises u), (cleanup_raises u);
      repeat split; reflexivity.
  - rewrite process_main.
    destruct (userbot_dir_exists_raises u) as [e|]; [reflexivity|].
    destruct (userbot_dir_exists env); [|reflexivity].
    destruct (value (Process.run_all_verifications env u)) as [[|]|e];
      reflexivity.
Qed.

Lemma C1_exceptions_and_the_pipeline_witness :
  value (check_compilation no_dotnet_env) = false
  /\ value (Process.run_all_verifications no_dotnet_env nothing_raises) =
       Returns false
  /\ headers (Process.run_all_verifications no_dotnet_env nothing_raises) =
       stage_headers ++ [Header "VERIFICATION SUMMARY"]
  /\ Process.exit_status (value (Process.main no_dotnet_env nothing_raises)) = 1%Z.
Proof.
  destruct (C1_exceptions_and_the_pipeline no_dotnet_env nothing_raises)
    as (Hbuild & _ & _ & Hrun & Hstatus).
  cbn [nothing_raises ds_rglob_raises se_listing_raises se_rglob_raises
       se_test_rglob_raises cleanup_raises] in Hrun.
  destruct Hrun as (Hvalue & Hheaders & _).
  split; [exact (Hbuild no_dotnet eq_refl)|].
  split; [rewrite Hvalue; vm_compute; reflexivity|].
  split; [exact Hheaders|].
  rewrite Hstatus, Hvalue. vm_compute. reflexivity.
Defined.

(** C1 as stated fails.  With no [dotnet] to launch, the build raises in
    the first stage; the four later stages are entered all the same, and
    the summary has a verdict for each of them, none marked as skipped.
    When the timed test run of the last stage raises, the overall verdict
    is even true.  And when the submission directory cannot be searched,
    the failure of the first stage is caught, the listing of the second
    stage raises, and the three later stages are indeed not entered; but
    no summary is printed and no verdict exists: the run is left by the
    exception, and the exit status is 1. *)
Lemma C1_later_stages_run_after_exception :
  build_run no_dotnet_env = Raised no_dotnet
  /\ value (Process.run_all_verifications no_dotnet_env nothing_raises) =
       Returns false
  /\ headers (Process.run_all_verifications no_dotnet_env nothing_raises) =
       stage_headers ++ [Header "VERIFICATION SUMMARY"]
  /\ summary_rows (Process.run_all_verifications no_dotnet_env nothing_raises) =
       [ SummaryRow "compilation" false; SummaryRow "double_semicolons" true;
         SummaryRow "statement_endings" true; SummaryRow "test_coverage" false;
         SummaryRow "execution_time" true ]
  /\ perf_test_run timeout_env = Raised timed_out
  /\ value (Process.run_all_verifications timeout_env nothing_raises) =
       Returns true
  /\ Process.run_all_verifications unsearchable_env unsearchable =
       (Escapes "[Errno 13] Permission denied: 'UserBot/UserBot.StrategicMind'",
        printed print_banner
        ++ [ Header "VERIFICATION 1: COMPILATION";
             Error [Lit "Failed to run compilation: ";
                    Lit "[Errno 13] Permission denied: 'UserBot'"];
             Header "VERIFICATION 2: DOUBLE SEMICOLON RULE" ])
  /\ Process.exit_status
       (value (Process.main unsearchable_env unsearchable)) = 1%Z.
Proof. repeat split; vm_compute; reflexivity. Qed.

(* ===================================================================== *)
(** ** The execution-time check as a whole *)
(* ===================================================================== *)



(* ===================================================================== *)
(** ** The latency estimate *)
(* ===================================================================== *)

(** C5, as the script has it.  When a total time is available the check
    works out (total / 69) * 1000 / 5 in floating point, each operation
    rounding, and compares the result with the ceiling of 300: below it
    the last line printed is a success, otherwise it is a warning.  When
    no total time is available the last line is the note that the
    implementation is taken to be fast, or the error caught.  In each of
    these cases the check returns pass, unless the clean-up of its
    [finally] clause raises. *)
Theorem C5_latency_estimate (env : environment) (u : unhandled) :
  let check := Process.check_execution_time env u in
  value check = match cleanup_raises u with
                | None => Returns true
                | Some e => Escapes e
                end
  /\ match aggregate_timing env with
     | Some total_time =>
         let estimate := F64.div (F64.mul (F64.div total_time 69) 1000) 5 in
         last (printed check) (Header "") =
           if F64.ltb estimate 300
           then Success [Lit "Estimated API execution time (";
                         F64.fixed 2 estimate;
                         Lit " ms) is well below "; Int 300; Lit " ms"]
           else Warning [Lit "Estimated API execution time (";
                         F64.fixed 2 estimate; Lit " ms) approaches limit"]
     | None =>
         last (printed check) (Header "") =
           Success [Lit "Implementation uses O(1) lookups and minimal computation"]
         \/ exists e,
           last (printed check) (Header "") =
             Error [Lit "Failed to check execution time: "; Lit e]
     end.
Proof.
  cbv zeta. rewrite process_check_execution_time. cbn [value printed fst snd].
  split; [destruct (cleanup_raises u); reflexivity|].
  unfold aggregate_timing, check_execution_time.
  destruct (perf_setup env) as [[]|e]; [|right; eexists; reflexivity].
  destruct (perf_build env) as [b|e]; [|right; eexists; reflexivity].
  destruct (perf_test_run env) as [r|e]; [|right; eexists; reflexivity].
  destruct (PyStr.contains "Total time:" (stdout r)); [|left; reflexivity].
  destruct (search_total_time (stdout r)) as [g|]; [|left; reflexivity].
  destruct (py_float g) as [t|]; [|right; eexists; reflexivity].
  cbv zeta. unfold estimated_api_time, avg_time_ms, MAX_EXECUTION_TIME_MS.
  destruct (F64.ltb (F64.div (F64.mul (F64.div t 69) 1000) 5) 300);
    reflexivity.
Qed.

(** C5 as stated fails: a total time of 200 seconds gives an estimate
    that is not below 300 (about 579.71), and the check, whose clean-up
    does not raise, prints the warning and returns pass. *)
Lemma C5_passes_above_ceiling :
  aggregate_timing slow_env = Some (F64.Finite (inject_Z 200))
  /\ F64.ltb (estimated_api_time (F64.Finite (inject_Z 200))) 300 = false
  /\ value (Process.check_execution_time slow_env nothing_raises) = Returns true
  /\ last (printed (Process.check_execution_time slow_env nothing_raises))
          (Header "") =
       Warning [Lit "Estimated API execution time (";
                F64.fixed 2 (estimated_api_time (F64.Finite (inject_Z 200)));
                Lit " ms) approaches limit"].
Proof. repeat split; vm_compute; reflexivity. Qed.

(** The decimal of the timing line is rounded as [float] rounds it:
    103.499999999999999 is read as 103.5, the estimate is 300.0, not
    below the ceiling, and the line printed is the warning. *)
Example rounded_timing_reaches_the_ceiling :
  aggregate_timing rounded_env = Some (F64.Finite (207 # 2))
  /\ estimated_api_time (F64.Finite (207 # 2)) = F64.Finite (inject_Z 300)
  /\ last (printed (check_execution_time rounded_env)) (Header "") =
       Warning [Lit "Estimated API execution time ("; Fixed 2 (inject_Z 300);
                Lit " ms) approaches limit"].
Proof. repeat split; vm_compute; reflexivity. Qed.

(** Known values: [float] of 0.1 and of 1.38, a tie that goes to the even
    neighbour, a sum of digits too large for a float, and the smallest
    positive float halved. *)
Example binary64_samples :
  py_float "0.1" = Some (F64.Finite (3602879701896397 # 36028797018963968))
  /\ py_float "1.38" = Some (F64.Finite (1553741871442821 # 1125899906842624))
  /\ py_float "9007199254740993" = Some (F64.Finite (inject_Z 9007199254740992))
  /\ F64.round (inject_Z (2 ^ 1024)) = F64.Infinity
  /\ F64.div (F64.round (1 # Z.to_pos (2 ^ 1074))) 2 = F64.Finite 0.
Proof. repeat split; vm_compute; reflexivity. Qed.

(* ===================================================================== *)
(** ** The report of a run, whole *)
(* ===================================================================== *)

(** X13. What a run of [run_all_verifications] prints: the banner, then
    the output of the stages in the order of the calls.  When an
    exception leaves the run, the output stops with the header of the
    stage whose listing raised, or with the output of the last stage when
    its clean-up raised.  Otherwise it goes on with the summary header,
    one summary row per check, in that order, each with the verdict of
    its check, a rule, and the two closing lines that go with the overall
    verdict. *)
Theorem run_all_verifications_report (env : environment) (u : unhandled) :
  printed (Process.run_all_verifications env u) =
    printed print_banner
    ++ match ds_rglob_raises u, se_listing_raises u, cleanup_raises u with
       | Some _, _, _ =>
           printed (check_compilation env)
           ++ [Header "VERIFICATION 2: DOUBLE SEMICOLON RULE"]
       | None, Some _, _ =>
           printed (check_compilation env)
           ++ printed (check_double_semicolons env)
           ++ [Header "VERIFICATION 4: STATEMENT ENDING RULE (//)"]
       | None, None, Some _ => printed (run_checks env)
       | None, None, None =>
           printed (run_checks env)
           ++ [ Header "VERIFICATION SUMMARY";
                SummaryRow "compilation" (value (check_compilation env));
                SummaryRow "double_semicolons" (value (check_double_semicolons env));
                SummaryRow "statement_endings" (value (check_statement_endings env));
                SummaryRow "test_coverage" (value (check_test_coverage env));
                SummaryRow "execution_time" (value (check_execution_time env));
                Print [Lit "(rule)"] ]
           ++ (if value (run_all_verifications env)
               then [ Print [Lit "ALL VERIFICATIONS PASSED!"];
                      Print [Lit "The UserBot is ready for submission!"] ]
               else [ Print [Lit "SOME VERIFICATIONS FAILED"];
                      Print [Lit "Please fix the issues above before submission."] ])
       end.
Proof.
  rewrite process_run_all_verifications.
  destruct (ds_rglob_raises u) as [e|]; [reflexivity|].
  destruct (se_listing_raises u) as [e|]; [reflexivity|].
  destruct (cleanup_raises u) as [e|]; [reflexivity|].
  cbn [printed snd].
  rewrite run_all_verifications_value.
  unfold run_all_verifications. rewrite !printed_bind, printed_summary.
  rewrite run_checks_value.
  cbn [map fst snd app].
  destruct (forallb snd _); reflexivity.
Qed.

(* ===================================================================== *)
(** ** The trailing-marker rule *)
(* ===================================================================== *)

Lemma check_statement_endings_value (env : environment) :
  value (check_statement_endings env) =
    let sc := value (statement_scan env) in
    if (total_statements sc =? 0)%nat then true
    else Qle_bool 95 (compliance_rate sc).
Proof.
  unfold check_statement_endings. rewrite !value_bind. cbv zeta.
  destruct (total_statements (value (statement_scan env)) =? 0)%nat;
    [reflexivity|].
  rewrite !value_bind.
  destruct (Qle_bool 95 (compliance_rate (value (statement_scan env))));
    [reflexivity|].
  rewrite !value_bind. reflexivity.
Qed.

Lemma check_statement_endings_prints_rate (env : environment) :
  total_statements (value (statement_scan env)) <> 0 ->
  In (Info [Lit "Compliance rate: ";
            Fixed 1 (compliance_rate (value (statement_scan env))); Lit "%"])
     (printed (check_statement_endings env)).
Proof.
  intros Htotal. apply Nat.eqb_neq in Htotal.
  unfold check_statement_endings. io_split.
  rewrite Htotal. io_split.
  apply in_or_app. right. apply in_or_app. right.
  apply in_or_app. right. apply in_or_app. right.
  apply in_or_app. left. simpl. tauto.
Qed.

(** C6. Let [total] and [correct] be the statement counts of the scan.
    When [total] is 0 the check passes.  Otherwise the compliance rate it
    reports is correct / total * 100, and it passes exactly when that
    rate is at least 95. *)
Theorem C6_statement_endings_threshold (env : environment) :
  let sc := value (statement_scan env) in
  let total := total_statements sc in
  let correct := correct_statements sc in
  let rate := (inject_Z (Z.of_nat correct) / inject_Z (Z.of_nat total) * 100)%Q in
  (total = 0 /\ value (check_statement_endings env) = true)
  \/ (total <> 0
      /\ In (Info [Lit "Compliance rate: "; Fixed 1 rate; Lit "%"])
            (printed (check_statement_endings env))
      /\ (value (check_statement_endings env) = true <-> (95 <= rate)%Q)).
Proof.
  cbv zeta.
  destruct (Nat.eq_dec (total_statements (value (statement_scan env))) 0)
    as [Hzero|Hpos].
  - left. split; [exact Hzero|].
    rewrite check_statement_endings_value. cbv zeta. rewrite Hzero. reflexivity.
  - right. split; [exact Hpos|]. split.
    + apply (check_statement_endings_prints_rate env Hpos).
    + rewrite check_statement_endings_value. cbv zeta.
      apply Nat.eqb_neq in Hpos. rewrite Hpos.
      unfold compliance_rate, true_div. apply Qle_bool_iff.
Qed.

(** What the scan makes of single lines: [var y = 1; //] is compliant,
    [var y = 1;] is a violation, and the same line between the markers
    of a block comment is not counted. *)
Example trailing_marker_lines :
  let listed name lines :=
    [in_statement_listing (source (String.append "UserBot.StrategicMind/" name) lines)] in
  value (for_each (listed "A.cs" [ln "var y = 1; //"]) statement_file scan_start) =
    {| issues_found := []; total_statements := 1; correct_statements := 1 |}
  /\ value (for_each (listed "A.cs" [ln "var y = 1;"]) statement_file scan_start) =
       {| issues_found := [ {| issue_file := "UserBot/UserBot.StrategicMind/A.cs";
                               issue_line := 1;
                               issue_content := "var y = 1;" |} ];
          total_statements := 1; correct_statements := 0 |}
  /\ value (for_each (listed "A.cs" [ln "/* notes"; ln "var y = 1;"; ln "*/"])
                     statement_file scan_start) = scan_start.
Proof. repeat split; vm_compute; reflexivity. Qed.

(** Eighteen compliant lines out of twenty: the rate is 90, the check
    fails, and the two other lines are the violations recorded. *)
Example eighteen_of_twenty_fails :
  total_statements (value (statement_scan eighteen_of_twenty_env)) = 20
  /\ correct_statements (value (statement_scan eighteen_of_twenty_env)) = 18
  /\ (compliance_rate (value (statement_scan eighteen_of_twenty_env)) == 90)%Q
  /\ value (check_statement_endings eighteen_of_twenty_env) = false
  /\ issues_found (value (statement_scan eighteen_of_twenty_env)) =
       [ {| issue_file := "UserBot/UserBot.StrategicMind/Moves.cs"; issue_line := 19;
            issue_content := "total = count;" |};
         {| issue_file := "UserBot/UserBot.StrategicMind/Moves.cs"; issue_line := 20;
            issue_content := "return total;" |} ].
Proof. repeat split; vm_compute; reflexivity. Qed.

(** *** Counts kept by the scan *)

(** Resolves the tests of the loop body one after the other. *)
Ltac split_tests :=
  repeat match goal with
         | |- context [if ?c then _ else _] => destruct c eqn:?
         end.



(* ===================================================================== *)
(** ** The no-adjacent-terminator rule *)
(* ===================================================================== *)

Section DoubleSemicolons.
Variables (file : string) (line_num : nat).

Lemma issues_at_app (xs ys : list issue) :
  issues_at file line_num (xs ++ ys) =
    issues_at file line_num xs ++ issues_at file line_num ys.
Proof. apply filter_app. Qed.

(** A line of another file, or with another number, adds nothing at
    [file], [line_num]. *)
Lemma double_semicolon_line_elsewhere (g : cs_file) (k : nat) (l : string)
    (acc : list issue) :
  shown g <> file \/ k <> line_num ->
  issues_at file line_num (double_semicolon_line g (k, l) acc) =
    issues_at file line_num acc.
Proof.
  intros Helse. unfold double_semicolon_line.
  destruct (PyStr.contains ";;" l); [|reflexivity].
  destruct (negb (PyStr.startswith "//" (PyStr.strip l))
            && negb (PyStr.startswith "*" (PyStr.strip l))); [|reflexivity].
  rewrite issues_at_app. unfold issues_at at 2. cbn [filter issue_file issue_line].
  assert (Hno : (shown g =? file)%string && (k =? line_num)%nat = false).
  { destruct Helse as [Hfile|Hline].
    - apply String.eqb_neq in Hfile. rewrite Hfile. reflexivity.
    - apply Nat.eqb_neq in Hline. rewrite Hline. apply andb_false_r. }
  rewrite Hno. apply app_nil_r.
Qed.

Lemma double_semicolon_lines_elsewhere (g : cs_file) (lines : list string) :
  forall (start : nat) (acc : list issue),
    shown g <> file \/ line_num < start ->
    issues_at file line_num
      (fold_left (fun acc numbered => double_semicolon_line g numbered acc)
                 (PyStr.enumerate start lines) acc) =
      issues_at file line_num acc.
Proof.
  induction lines as [|l lines IH]; intros start acc Helse.
  - reflexivity.
  - cbn [PyStr.enumerate fold_left]. rewrite IH.
    + apply double_semicolon_line_elsewhere. destruct Helse; [left|right]; lia || assumption.
    + destruct Helse; [left; assumption | right; lia].
Qed.

(** The flagged line of number [line_num] of the file shown as [file]
    adds its entry, once. *)
Lemma double_semicolon_lines_at (g : cs_file) (lines : list string) (l : string) :
  shown g = file ->
  PyStr.contains ";;" l = true ->
  PyStr.startswith "//" (PyStr.strip l) = false ->
  PyStr.startswith "*" (PyStr.strip l) = false ->
  forall (start : nat) (acc : list issue),
    start <= line_num ->
    nth_error lines (line_num - start) = Some l ->
    issues_at file line_num
      (fold_left (fun acc numbered => double_semicolon_line g numbered acc)
                 (PyStr.enumerate start lines) acc) =
      issues_at file line_num acc
      ++ [ {| issue_file := file; issue_line := line_num;
              issue_content := PyStr.strip l |} ].
Proof.
  intros Hfile Hdouble Hslash Hstar.
  induction lines as [|l0 lines IH]; intros start acc Hstart Hnth.
  - destruct (line_num - start); discriminate.
  - cbn [PyStr.enumerate fold_left].
    destruct (Nat.eq_dec start line_num) as [Heq|Hneq].
    + subst start. rewrite Nat.sub_diag in Hnth. injection Hnth as ->.
      rewrite double_semicolon_lines_elsewhere by (right; lia).
      unfold double_semicolon_line. rewrite Hdouble, Hslash, Hstar.
      cbn [negb andb]. rewrite issues_at_app. f_equal.
      unfold issues_at. cbn [filter issue_file issue_line].
      rewrite Hfile, String.eqb_refl, Nat.eqb_refl. reflexivity.
    + replace (line_num - start) with (S (line_num - S start)) in Hnth by lia.
      cbn [nth_error] in Hnth.
      rewrite (IH (S start)); [|lia|exact Hnth].
      rewrite double_semicolon_line_elsewhere by (right; exact Hneq).
      reflexivity.
Qed.

Lemma double_semicolon_files_elsewhere (cs_files : list cs_file) :
  ~ In file (map shown cs_files) ->
  forall acc,
    issues_at file line_num (value (for_each cs_files double_semicolon_file acc)) =
      issues_at file line_num acc.
Proof.
  induction cs_files as [|g cs_files IH]; intros Hout acc.
  - reflexivity.
  - cbn [for_each]. rewrite value_bind, IH.
    + unfold double_semicolon_file. destruct (readlines g) as [lines|e].
      * apply double_semicolon_lines_elsewhere. left.
        intros Hsame. apply Hout. left. exact Hsame.
      * reflexivity.
    + intros Hin. apply Hout. right. exact Hin.
Qed.

Lemma double_semicolon_files_at (cs_files : list cs_file) (f : cs_file)
    (lines : list string) (l : string) :
  NoDup (map shown cs_files) ->
  In f cs_files ->
  shown f = file ->
  readlines f = Returned lines ->
  1 <= line_num ->
  nth_error lines (line_num - 1) = Some l ->
  PyStr.contains ";;" l = true ->
  PyStr.startswith "//" (PyStr.strip l) = false ->
  PyStr.startswith "*" (PyStr.strip l) = false ->
  forall acc,
    issues_at file line_num (value (for_each cs_files double_semicolon_file acc)) =
      issues_at file line_num acc
      ++ [ {| issue_file := file; issue_line := line_num;
              issue_content := PyStr.strip l |} ].
Proof.
  intros Hnodup Hin Hfile Hread Hone Hnth Hdouble Hslash Hstar.
  induction cs_files as [|g cs_files IH]; intros acc.
  - destruct Hin.
  - cbn [map] in Hnodup. inversion Hnodup as [|x xs Hfresh Hrest]; subst x xs.
    cbn [for_each]. rewrite value_bind.
    destruct Hin as [Hhere|Hlater].
    + subst g. rewrite double_semicolon_files_elsewhere
        by (rewrite <- Hfile; exact Hfresh).
      unfold double_semicolon_file. rewrite Hread.
      apply (double_semicolon_lines_at f lines l Hfile Hdouble Hslash Hstar 1 acc
               Hone Hnth).
    + rewrite (IH Hrest Hlater).
      f_equal. unfold double_semicolon_file.
      destruct (readlines g) as [glines|e]; [|reflexivity].
      apply double_semicolon_lines_elsewhere. left.
      intros Hsame. apply Hfresh. rewrite Hsame, <- Hfile.
      apply in_map. exact Hlater.
Qed.

End DoubleSemicolons.

(** C7, as the script has it.  Take a file of the listing that can be
    read, shown under a name no other file of the listing has, and a line
    of it that contains [;;] and whose trimmed form starts neither with
    [//] nor with a star, the two prefixes the script tests.  Then the
    violations recorded hold exactly one entry for that file and that
    line number (counted from 1); the entry carries the file, the line
    number and the trimmed line, and the check fails.  A line that opens
    a block comment with [/*] starts with neither prefix, and is recorded
    like any other. *)
Theorem C7_double_semicolon_recorded_once (env : environment) (f : cs_file)
    (lines : list string) (n : nat) (l : string) :
  NoDup (map shown (ds_cs_files env)) ->
  In f (ds_cs_files env) ->
  readlines f = Returned lines ->
  nth_error lines n = Some l ->
  PyStr.contains ";;" l = true ->
  PyStr.startswith "//" (PyStr.strip l) = false ->
  PyStr.startswith "*" (PyStr.strip l) = false ->
  issues_at (shown f) (S n) (value (double_semicolon_issues (ds_cs_files env))) =
    [ {| issue_file := shown f; issue_line := S n;
         issue_content := PyStr.strip l |} ]
  /\ value (check_double_semicolons env) = false
  /\ forall u, ds_rglob_raises u = None ->
                value (Process.check_double_semicolons env u) = Returns false.
Proof.
  intros Hnodup Hin Hread Hnth Hdouble Hslash Hstar.
  assert (Hrecorded :
            issues_at (shown f) (S n)
              (value (double_semicolon_issues (ds_cs_files env))) =
              [ {| issue_file := shown f; issue_line := S n;
                   issue_content := PyStr.strip l |} ]).
  { unfold double_semicolon_issues.
    rewrite (double_semicolon_files_at (shown f) (S n) (ds_cs_files env) f lines l
               Hnodup Hin eq_refl Hread); try assumption.
    - reflexivity.
    - lia.
    - replace (S n - 1) with n by lia. exact Hnth. }
  split; [exact Hrecorded|].
  assert (Hfails : value (check_double_semicolons env) = false).
  { unfold check_double_semicolons. io_split.
    destruct (value (double_semicolon_issues (ds_cs_files env))) as [|i issues].
    - discriminate Hrecorded.
    - io_split. reflexivity. }
  split; [exact Hfails|].
  intros u Hlisting. rewrite process_check_double_semicolons, Hlisting, Hfails.
  reflexivity.
Qed.

Lemma C7_double_semicolon_recorded_once_witness :
  issues_at "UserBot.StrategicMind/Counter.cs" 1
    (value (double_semicolon_issues [double_terminator])) =
    [ {| issue_file := "UserBot.StrategicMind/Counter.cs"; issue_line := 1;
         issue_content := "int x = 5;;" |} ]
  /\ value (check_double_semicolons double_terminator_env) = false
  /\ forall u, ds_rglob_raises u = None ->
                value (Process.check_double_semicolons double_terminator_env u) =
                  Returns false.
Proof.
  apply (C7_double_semicolon_recorded_once double_terminator_env
           double_terminator [ln "int x = 5;;"] 0 (ln "int x = 5;;")).
  - repeat constructor. simpl. tauto.
  - left. reflexivity.
  - reflexivity.
  - reflexivity.
  - reflexivity.
  - reflexivity.
  - reflexivity.
Defined.

(** C7 as stated fails.  The line [*p = 0;;] holds a double terminator
    and starts neither with [//] nor with [/*], yet no violation is
    recorded for it and the check passes: the script exempts every line
    that starts with a star. *)
Lemma C7_line_starting_with_a_star_is_exempt :
  readlines pointer_store = Returned [ln "*p = 0;;"]
  /\ PyStr.contains ";;" (ln "*p = 0;;") = true
  /\ PyStr.startswith "//" (PyStr.strip (ln "*p = 0;;")) = false
  /\ PyStr.startswith "/*" (PyStr.strip (ln "*p = 0;;")) = false
  /\ value (double_semicolon_issues (ds_cs_files pointer_store_env)) = []
  /\ Process.check_double_semicolons pointer_store_env nothing_raises =
       (Returns true,
        [ Header "VERIFICATION 2: DOUBLE SEMICOLON RULE";
          Success [Lit "No double semicolons found in "; Int 1;
                   Lit " C# files"] ]).
Proof. repeat split; vm_compute; reflexivity. Qed.

(** A line that opens a block comment is recorded. *)
Example block_comment_line_is_recorded :
  value (double_semicolon_issues
           [source "UserBot.StrategicMind/Notes.cs" [ln "/* for (;;) */"]]) =
    [ {| issue_file := "UserBot.StrategicMind/Notes.cs"; issue_line := 1;
         issue_content := "/* for (;;) */" |} ].
Proof. vm_compute. reflexivity. Qed.

(** The line [int x = 5;;] alone: one violation, at line 1. *)
Example int_x_5_one_violation :
  value (double_semicolon_issues [double_terminator]) =
    [ {| issue_file := "UserBot.StrategicMind/Counter.cs"; issue_line := 1;
         issue_content := "int x = 5;;" |} ].
Proof. vm_compute. reflexivity. Qed.

(* ===================================================================== *)
(** ** Dictionaries in insertion order *)
(* ===================================================================== *)

Section PyDictLemmas.
Context {V : Type}.
Implicit Types (d : list (string * V)) (k : string) (v : V).

Lemma get_set_eq d k v : PyDict.get k (PyDict.set k v d) = Some v.
Proof.
  induction d as [|[k' v'] d IH]; simpl.
  - rewrite String.eqb_refl. reflexivity.
  - destruct (String.eqb k' k) eqn:Hk; simpl; rewrite Hk; [reflexivity|exact IH].
Qed.

Lemma get_set_ne d k k' v :
  k <> k' -> PyDict.get k' (PyDict.set k v d) = PyDict.get k' d.
Proof.
  intros Hne. induction d as [|[k0 v0] d IH]; simpl.
  - apply String.eqb_neq in Hne. rewrite Hne. reflexivity.
  - destruct (String.eqb_spec k0 k) as [->|Hk]; simpl.
    + apply String.eqb_neq in Hne. rewrite Hne. reflexivity.
    + rewrite IH. reflexivity.
Qed.

Lemma get_none_not_key d k :
  PyDict.get k d = None <-> ~ In k (PyDict.keys d).
Proof.
  induction d as [|[k' v'] d IH]; simpl.
  - tauto.
  - destruct (String.eqb_spec k' k) as [->|Hne].
    + split; [discriminate|]. intros Hout. exfalso. apply Hout. left. reflexivity.
    + rewrite IH. tauto.
Qed.

Lemma get_some_in d k v : PyDict.get k d = Some v -> In (k, v) d.
Proof.
  induction d as [|[k' v'] d IH]; simpl; [discriminate|].
  destruct (String.eqb_spec k' k) as [->|Hne].
  - intros [= ->]. left. reflexivity.
  - intros Hget. right. apply IH. exact Hget.
Qed.

Lemma in_get_some d k v :
  PyDict.well_formed d -> In (k, v) d -> PyDict.get k d = Some v.
Proof.
  unfold PyDict.well_formed, PyDict.keys.
  induction d as [|[k' v'] d IH]; simpl; intros Hwf Hin; [destruct Hin|].
  inversion Hwf as [|x xs Hfresh Hrest]; subst x xs.
  destruct Hin as [[= -> ->]|Hin].
  - rewrite String.eqb_refl. reflexivity.
  - destruct (String.eqb_spec k' k) as [->|Hne].
    + exfalso. apply Hfresh. apply (in_map fst) in Hin. exact Hin.
    + apply IH; assumption.
Qed.

Lemma set_absent d k v :
  PyDict.get k d = None -> PyDict.set k v d = d ++ [(k, v)].
Proof.
  induction d as [|[k' v'] d IH]; simpl; [reflexivity|].
  destruct (String.eqb k' k); [discriminate|].
  intros Hget. rewrite IH by exact Hget. reflexivity.
Qed.

Lemma keys_set_present d k v v' :
  PyDict.get k d = Some v' -> PyDict.keys (PyDict.set k v d) = PyDict.keys d.
Proof.
  induction d as [|[k0 v0] d IH]; simpl; [discriminate|].
  destruct (String.eqb k0 k); simpl; [reflexivity|].
  intros Hget. rewrite IH by exact Hget. reflexivity.
Qed.

Lemma length_set_present d k v v' :
  PyDict.get k d = Some v' -> length (PyDict.set k v d) = length d.
Proof.
  intros Hget. rewrite <- (length_map fst (PyDict.set k v d)).
  change (map fst (PyDict.set k v d)) with (PyDict.keys (PyDict.set k v d)).
  rewrite (keys_set_present d k v v' Hget). apply length_map.
Qed.

Lemma well_formed_set d k v :
  PyDict.well_formed d -> PyDict.well_formed (PyDict.set k v d).
Proof.
  intros Hwf. destruct (PyDict.get k d) as [v'|] eqn:Hget.
  - unfold PyDict.well_formed. rewrite (keys_set_present d k v v' Hget). exact Hwf.
  - rewrite (set_absent d k v Hget). unfold PyDict.well_formed, PyDict.keys in *.
    rewrite map_app. simpl. apply NoDup_app.
    + exact Hwf.
    + constructor; [intros []|constructor].
    + intros x Hx [<-|[]]. apply get_none_not_key in Hget. apply Hget. exact Hx.
Qed.

Lemma keys_remove d k :
  PyDict.well_formed d ->
  PyDict.keys (PyDict.remove k d) =
    filter (fun k' => negb (String.eqb k' k)) (PyDict.keys d).
Proof.
  unfold PyDict.well_formed, PyDict.keys.
  induction d as [|[k' v'] d IH]; simpl; intros Hwf; [reflexivity|].
  inversion Hwf as [|x xs Hfresh Hrest]; subst x xs.
  destruct (String.eqb_spec k' k) as [->|Hne]; simpl.
  - clear IH Hwf Hrest. induction d as [|[k0 v0] d IH]; simpl; [reflexivity|].
    destruct (String.eqb_spec k0 k) as [->|Hne]; simpl.
    + exfalso. apply Hfresh. left. reflexivity.
    + rewrite <- IH; [reflexivity|]. intros Hin. apply Hfresh. right. exact Hin.
  - rewrite IH by exact Hrest. reflexivity.
Qed.

Lemma remove_in d k k' v :
  In (k', v) (PyDict.remove k d) -> In (k', v) d.
Proof.
  induction d as [|[k0 v0] d IH]; simpl; [tauto|].
  destruct (String.eqb k0 k); simpl; [tauto|].
  intros [Heq|Hin]; [left; exact Heq | right; apply IH; exact Hin].
Qed.

Lemma well_formed_remove d k :
  PyDict.well_formed d -> PyDict.well_formed (PyDict.remove k d).
Proof.
  intros Hwf. unfold PyDict.well_formed. rewrite keys_remove by exact Hwf.
  unfold PyDict.well_formed in Hwf.
  induction (PyDict.keys d) as [|k0 ks IH]; simpl; [constructor|].
  inversion Hwf as [|x xs Hfresh Hrest]; subst x xs.
  destruct (negb (String.eqb k0 k)).
  - constructor; [|apply IH; exact Hrest].
    intros Hin. apply Hfresh. apply filter_In in Hin. tauto.
  - apply IH. exact Hrest.
Qed.

Lemma get_remove_eq d k :
  PyDict.well_formed d -> PyDict.get k (PyDict.remove k d) = None.
Proof.
  intros Hwf. apply get_none_not_key. rewrite keys_remove by exact Hwf.
  intros Hin. apply filter_In in Hin. destruct Hin as [_ Hne].
  rewrite String.eqb_refl in Hne. discriminate.
Qed.

Lemma get_remove_ne d k k' :
  k <> k' -> PyDict.get k' (PyDict.remove k d) = PyDict.get k' d.
Proof.
  intros Hne. induction d as [|[k0 v0] d IH]; simpl; [reflexivity|].
  destruct (String.eqb_spec k0 k) as [->|Hk]; simpl.
  - apply String.eqb_neq in Hne. rewrite Hne. reflexivity.
  - rewrite IH. reflexivity.
Qed.

Lemma length_remove_present d k v :
  PyDict.get k d = Some v -> S (length (PyDict.remove k d)) = length d.
Proof.
  induction d as [|[k0 v0] d IH]; simpl; [discriminate|].
  destruct (String.eqb k0 k); simpl; [reflexivity|].
  intros Hget. rewrite IH by exact Hget. reflexivity.
Qed.

Lemma remove_set_absent d k v :
  PyDict.get k d = None -> PyDict.remove k (PyDict.set k v d) = d.
Proof.
  induction d as [|[k' v'] d IH]; simpl.
  - rewrite String.eqb_refl. reflexivity.
  - destruct (String.eqb k' k) eqn:Hk; [discriminate|].
    intros Hget. simpl. rewrite Hk, IH by exact Hget. reflexivity.
Qed.

End PyDictLemmas.

(* ===================================================================== *)
(** ** The submission store in insertion order *)
(* ===================================================================== *)

Lemma as_map_lookup (db : list (string * Server.submission)) (id : string) :
  Registry.as_map db !! id = PyDict.get id db.
Proof.
  unfold Registry.as_map. induction db as [|[k v] db IH]; simpl.
  - apply lookup_empty.
  - destruct (String.eqb_spec k id) as [->|Hne].
    + apply lookup_insert_eq.
    + rewrite lookup_insert_ne by exact Hne. exact IH.
Qed.

Lemma as_map_set (db : list (string * Server.submission)) (id : string)
    (s : Server.submission) :
  Registry.as_map (PyDict.set id s db) = <[id := s]> (Registry.as_map db).
Proof.
  apply map_eq. intros k. rewrite as_map_lookup.
  destruct (String.eqb_spec id k) as [->|Hne].
  - rewrite get_set_eq, lookup_insert_eq. reflexivity.
  - rewrite get_set_ne by exact Hne. rewrite lookup_insert_ne by exact Hne.
    symmetry. apply as_map_lookup.
Qed.

Lemma as_map_remove (db : list (string * Server.submission)) (id : string) :
  PyDict.well_formed db ->
  Registry.as_map (PyDict.remove id db) = delete id (Registry.as_map db).
Proof.
  intros Hwf. apply map_eq. intros k. rewrite as_map_lookup.
  destruct (String.eqb_spec id k) as [->|Hne].
  - rewrite get_remove_eq by exact Hwf. rewrite lookup_delete_eq. reflexivity.
  - rewrite get_remove_ne by exact Hne. rewrite lookup_delete_ne by exact Hne.
    symmetry. apply as_map_lookup.
Qed.

(** X1. On a store without a repeated key, [get_submission],
    [update_submission] and [delete_submission] over the store in
    insertion order give the responses of the same tools over the finite
    map, and the stores they leave are the same maps. *)
Theorem registry_tools_agree_with_map
    (db : list (string * Server.submission)) (id : string)
    (new_version new_description new_url new_status : option string)
    (now : string) :
  PyDict.well_formed db ->
  Server.get_submission id (Registry.as_map db) =
    (fst (Registry.get_submission id db),
     Registry.as_map (snd (Registry.get_submission id db)))
  /\ Server.update_submission id new_version new_description new_url new_status
       now (Registry.as_map db) =
     (fst (Registry.update_submission id new_version new_description new_url
             new_status now db),
      Registry.as_map
        (snd (Registry.update_submission id new_version new_description new_url
                new_status now db)))
  /\ Server.delete_submission id (Registry.as_map db) =
     (fst (Registry.delete_submission id db),
      Registry.as_map (snd (Registry.delete_submission id db))).
Proof.
  intros Hwf.
  unfold Server.get_submission, Server.update_submission,
    Server.delete_submission, Registry.get_submission,
    Registry.update_submission, Registry.delete_submission.
  rewrite as_map_lookup.
  destruct (PyDict.get id db) as [s|] eqn:Hget; simpl.
  - rewrite as_map_set, as_map_remove by exact Hwf. repeat split; reflexivity.
  - repeat split; reflexivity.
Qed.

Lemma well_formed_two_submissions : PyDict.well_formed Registry.two_submissions.
Proof.
  unfold PyDict.well_formed. vm_compute.
  repeat constructor; simpl; intuition discriminate.
Qed.

Lemma registry_tools_agree_with_map_witness :
  Server.delete_submission "sub_1_20240101120000"
    (Registry.as_map Registry.two_submissions) =
    (fst (Registry.delete_submission "sub_1_20240101120000" Registry.two_submissions),
     Registry.as_map Registry.first_deleted).
Proof.
  apply (registry_tools_agree_with_map Registry.two_submissions
           "sub_1_20240101120000" None None None None "2024-01-02T08:00:00"
           well_formed_two_submissions).
Defined.

Section SubmitBot.
Variables (bot_name team_name bot_version repository_url description
           language framework : string).
Variable now : Registry.clock.
Variable db : list (string * Server.submission).

Let result : Registry.submitted :=
  fst (Registry.submit_bot bot_name team_name bot_version repository_url
         description language framework now db).
Let db' : list (string * Server.submission) :=
  snd (Registry.submit_bot bot_name team_name bot_version repository_url
         description language framework now db).

(** X2. After [submit_bot], [get_submission] with the id returned gives
    the record returned, whose status is [pending]; every other id is
    answered as before; and the store still has no repeated key. *)
Theorem submit_bot_then_get :
  Registry.get_submission (Registry.new_id result) db' =
    (Server.Found (Registry.new_submission result), db')
  /\ Server.submission_id (Registry.new_submission result) = Registry.new_id result
  /\ Server.status (Registry.new_submission result) = "pending"
  /\ (forall id, id <> Registry.new_id result ->
        fst (Registry.get_submission id db') = fst (Registry.get_submission id db))
  /\ (PyDict.well_formed db -> PyDict.well_formed db').
Proof.
  subst result db'. unfold Registry.submit_bot, Registry.get_submission. simpl.
  rewrite get_set_eq. repeat split.
  - intros id Hne. rewrite get_set_ne by (intros Heq; apply Hne; symmetry; exact Heq).
    destruct (PyDict.get id db); reflexivity.
  - apply well_formed_set.
Qed.

(** X3. When the id made from the size of the store and the time is not
    yet a key, [submit_bot] puts the new record last and the store grows
    by one. *)
Theorem submit_bot_appends_when_id_is_new :
  PyDict.get (Registry.fresh_id db (Registry.id_stamp now)) db = None ->
  db' = db ++ [(Registry.new_id result, Registry.new_submission result)]
  /\ length db' = S (length db).
Proof.
  intros Hnew. subst result db'. unfold Registry.submit_bot. simpl.
  rewrite (set_absent _ _ _ Hnew). split; [reflexivity|].
  rewrite length_app. simpl. lia.
Qed.

(** X4. When that id is already a key, [submit_bot] does not refuse: the
    record stored under it is replaced by the new one, at the same place,
    and the store keeps its keys and its size. *)
Theorem submit_bot_replaces_when_id_is_taken (old : Server.submission) :
  PyDict.get (Registry.fresh_id db (Registry.id_stamp now)) db = Some old ->
  PyDict.keys db' = PyDict.keys db
  /\ length db' = length db
  /\ PyDict.get (Registry.fresh_id db (Registry.id_stamp now)) db' =
       Some (Registry.new_submission result).
Proof.
  intros Htaken. subst result db'. unfold Registry.submit_bot. simpl.
  split; [apply (keys_set_present _ _ _ old Htaken)|].
  split; [apply (length_set_present _ _ _ old Htaken)|].
  apply get_set_eq.
Qed.

(** X5. A submission made under a new id and deleted right away leaves
    the store as it was. *)
Theorem submit_bot_then_delete :
  PyDict.get (Registry.fresh_id db (Registry.id_stamp now)) db = None ->
  Registry.delete_submission (Registry.new_id result) db' =
    (Server.Deleted
       ("Submission '" ++ Registry.new_id result ++ "' deleted successfully")
       (Registry.new_submission result),
     db).
Proof.
  intros Hnew. subst result db'.
  unfold Registry.delete_submission, Registry.submit_bot. simpl.
  rewrite get_set_eq, (remove_set_absent _ _ _ Hnew). reflexivity.
Qed.

End SubmitBot.

Lemma submit_bot_appends_when_id_is_new_witness :
  length Registry.two_submissions = 2.
Proof.
  apply (submit_bot_appends_when_id_is_new "Beta" "Minds" "0.9"
           "https://example.org/beta.git" "" "C#" "" Registry.noon
           (snd (Registry.submit_bot "Alpha" "Owls" "1.0"
                   "https://example.org/alpha.git" "" "" "" Registry.noon []))).
  vm_compute. reflexivity.
Defined.

(** Two submissions in the same second, the first one deleted, and a third
    submission in that second: it takes the id of the second one. *)
Lemma submit_bot_replaces_when_id_is_taken_witness :
  length (snd (Registry.submit_bot "Gamma" "Minds" "2.0"
                 "https://example.org/gamma.git" "" "" "" Registry.noon
                 Registry.first_deleted)) = 1
  /\ PyDict.get "sub_2_20240101120000"
       (snd (Registry.submit_bot "Gamma" "Minds" "2.0"
               "https://example.org/gamma.git" "" "" "" Registry.noon
               Registry.first_deleted)) =
     Some (Registry.new_submission
             (fst (Registry.submit_bot "Gamma" "Minds" "2.0"
                     "https://example.org/gamma.git" "" "" "" Registry.noon
                     Registry.first_deleted))).
Proof.
  destruct (submit_bot_replaces_when_id_is_taken "Gamma" "Minds" "2.0"
              "https://example.org/gamma.git" "" "" "" Registry.noon
              Registry.first_deleted
              (Registry.new_submission
                 (fst (Registry.submit_bot "Beta" "Minds" "0.9"
                         "https://example.org/beta.git" "" "C#" "" Registry.noon
                         (snd (Registry.submit_bot "Alpha" "Owls" "1.0"
                                 "https://example.org/alpha.git" "" "" ""
                                 Registry.noon [])))))
              eq_refl) as [_ [Hsize Hget]].
  split; [exact Hsize | exact Hget].
Defined.

Lemma submit_bot_then_delete_witness :
  snd (Registry.delete_submission "sub_1_20240101120000"
         (snd (Registry.submit_bot "Alpha" "Owls" "1.0"
                 "https://example.org/alpha.git" "" "" "" Registry.noon []))) = [].
Proof.
  exact (f_equal snd
           (submit_bot_then_delete "Alpha" "Owls" "1.0"
              "https://example.org/alpha.git" "" "" "" Registry.noon [] eq_refl)).
Defined.

(** *** Ids while nothing is deleted *)

(** Digits followed by an underscore: the number can be read back. *)
Lemma digits_then_underscore_inj (d1 d2 : Decimal.uint) (s t : string) :
  (NilEmpty.string_of_uint d1 ++ String "_" s)%string =
  (NilEmpty.string_of_uint d2 ++ String "_" t)%string ->
  d1 = d2.
Proof.
  revert d2. induction d1 as [|d1 IH|d1 IH|d1 IH|d1 IH|d1 IH|d1 IH|d1 IH|d1 IH|d1 IH|d1 IH];
    intros [|d2|d2|d2|d2|d2|d2|d2|d2|d2|d2]; simpl; intros Heq;
    try discriminate Heq; try reflexivity;
    injection Heq as Heq; f_equal; apply IH; exact Heq.
Qed.

Lemma str_of_nat_as_digits (n : nat) :
  exists d, Registry.str_of_nat n = NilEmpty.string_of_uint d /\ Nat.of_uint d = n.
Proof.
  unfold Registry.str_of_nat, NilZero.string_of_uint.
  pose proof (Unsigned.of_to n) as Hback.
  destruct (Nat.to_uint n) eqn:Hd;
    first [ exists (Decimal.D0 Decimal.Nil); split; [reflexivity | exact Hback]
          | eexists; split; [reflexivity | exact Hback] ].
Qed.

Lemma fresh_id_number_inj (a b : nat) (s t : string) :
  ("sub_" ++ Registry.str_of_nat a ++ "_" ++ s)%string =
  ("sub_" ++ Registry.str_of_nat b ++ "_" ++ t)%string ->
  a = b.
Proof.
  intros Heq.
  destruct (str_of_nat_as_digits a) as [da [Ha <-]].
  destruct (str_of_nat_as_digits b) as [db [Hb <-]].
  rewrite Ha, Hb in Heq. simpl in Heq. injection Heq as Heq.
  f_equal. apply (digits_then_underscore_inj da db s t). exact Heq.
Qed.

Lemma numbered_id_is_new (db : list (string * Server.submission)) (stamp : string) :
  Registry.numbered db -> PyDict.get (Registry.fresh_id db stamp) db = None.
Proof.
  intros Hnum. destruct (PyDict.get (Registry.fresh_id db stamp) db) as [s|] eqn:Hget;
    [|reflexivity].
  exfalso. apply get_some_in in Hget.
  apply In_nth_error in Hget. destruct Hget as [i Hi].
  pose proof (nth_error_Some db i) as Hlt.
  destruct (Hnum i _ _ Hi) as [stamp' Hkey].
  unfold Registry.fresh_id in Hkey. apply fresh_id_number_inj in Hkey.
  assert (i < length db) by (apply Hlt; rewrite Hi; discriminate). lia.
Qed.

Lemma numbered_append (db : list (string * Server.submission)) (stamp : string)
    (s : Server.submission) :
  Registry.numbered db ->
  Registry.numbered (db ++ [(Registry.fresh_id db stamp, s)]).
Proof.
  intros Hnum i k s' Hi.
  destruct (Nat.lt_ge_cases i (length db)) as [Hlt|Hge].
  - rewrite nth_error_app1 in Hi by exact Hlt. apply (Hnum i k s' Hi).
  - rewrite nth_error_app2 in Hi by exact Hge.
    destruct (i - length db) as [|j] eqn:Hj; simpl in Hi.
    + injection Hi as <- <-. exists stamp. unfold Registry.fresh_id.
      replace (i + 1) with (length db + 1) by lia. reflexivity.
    + destruct j; discriminate Hi.
Qed.

Lemma nth_error_set_key (db : list (string * Server.submission)) (id : string)
    (s : Server.submission) (i : nat) (k : string) (s' : Server.submission) :
  PyDict.get id db <> None ->
  nth_error (PyDict.set id s db) i = Some (k, s') ->
  exists s0, nth_error db i = Some (k, s0).
Proof.
  revert i. induction db as [|[k0 v0] db IH]; simpl; intros i Hkey Hi.
  - contradiction.
  - destruct (String.eqb k0 id) eqn:Hk.
    + destruct i as [|i]; simpl in *.
      * injection Hi as <- <-. eexists. reflexivity.
      * eexists. exact Hi.
    + destruct i as [|i]; simpl in *.
      * injection Hi as <- <-. eexists. reflexivity.
      * apply IH; assumption.
Qed.

Lemma grown_numbered (db : list (string * Server.submission)) :
  Registry.grown db -> Registry.numbered db.
Proof.
  induction 1 as [|bot team version url descr lang fw now db Hgrown IH
                  |id nv nd nu ns now db Hgrown IH].
  - intros [|i] k s Hi; discriminate Hi.
  - unfold Registry.submit_bot. simpl.
    rewrite (set_absent _ _ _ (numbered_id_is_new db _ IH)).
    apply numbered_append. exact IH.
  - unfold Registry.update_submission.
    destruct (PyDict.get id db) as [s|] eqn:Hget; simpl; [|exact IH].
    intros i k s' Hi.
    destruct (nth_error_set_key db id
                (Registry.updated_submission s nv nd nu ns now) i k s')
      as [s0 Hs0]; [rewrite Hget; discriminate | exact Hi |].
    apply (IH i k s0 Hs0).
Qed.

(** X6. In a store built by [submit_bot] and [update_submission] alone,
    with no deletion, the id of a new submission is never taken: the
    record goes last under an id of its own, whatever the times of the
    submissions were. *)
Theorem submit_bot_id_is_new_without_deletion
    (bot_name team_name bot_version repository_url description
     language framework : string)
    (now : Registry.clock) (db : list (string * Server.submission)) :
  Registry.grown db ->
  let result := Registry.submit_bot bot_name team_name bot_version
                  repository_url description language framework now db in
  PyDict.get (Registry.new_id (fst result)) db = None
  /\ snd result =
       db ++ [(Registry.new_id (fst result), Registry.new_submission (fst result))].
Proof.
  intros Hgrown result.
  pose proof (numbered_id_is_new db (Registry.id_stamp now)
                (grown_numbered db Hgrown)) as Hnew.
  split; [exact Hnew|].
  subst result. unfold Registry.submit_bot. simpl.
  apply (set_absent _ _ _ Hnew).
Qed.

Lemma submit_bot_id_is_new_without_deletion_witness :
  PyDict.get "sub_3_20240101120000" Registry.two_submissions = None.
Proof.
  apply (submit_bot_id_is_new_without_deletion "Gamma" "Minds" "2.0"
           "https://example.org/gamma.git" "" "" "" Registry.noon
           Registry.two_submissions).
  unfold Registry.two_submissions.
  apply Registry.grown_submit, Registry.grown_submit, Registry.grown_empty.
Defined.

(** *** Updating and deleting *)

(** X7. [update_submission] on a stored id answers with the record after
    the assignments, which [get_submission] then returns; the record keeps
    its place, no key is added or lost, every other id is answered as
    before, and the fields that identify the submission are those it had. *)
Theorem update_submission_effect (id : string)
    (new_version new_description new_url new_status : option string)
    (now : string) (db : list (string * Server.submission))
    (s : Server.submission) :
  PyDict.get id db = Some s ->
  let result := Registry.update_submission id new_version new_description
                  new_url new_status now db in
  let s' := Registry.updated_submission s new_version new_description new_url
              new_status now in
  fst result = Server.Updated ("Submission '" ++ id ++ "' updated successfully") s'
  /\ Registry.get_submission id (snd result) = (Server.Found s', snd result)
  /\ PyDict.keys (snd result) = PyDict.keys db
  /\ (forall id', id' <> id ->
        PyDict.get id' (snd result) = PyDict.get id' db)
  /\ (Server.submission_id s', Server.bot_name s', Server.team_name s',
      Server.language s', Server.framework s', Server.submitted_at s')
     = (Server.submission_id s, Server.bot_name s, Server.team_name s,
        Server.language s, Server.framework s, Server.submitted_at s)
  /\ Server.updated_at s' = now.
Proof.
  intros Hget result s'. subst result s'.
  unfold Registry.update_submission, Registry.get_submission. rewrite Hget. simpl.
  rewrite get_set_eq. repeat split.
  - apply (keys_set_present _ _ _ s Hget).
  - intros id' Hne. apply get_set_ne. intros Heq. apply Hne. symmetry. exact Heq.
Qed.

Lemma update_submission_effect_witness :
  PyDict.keys
    (snd (Registry.update_submission "sub_1_20240101120000" None None None
            (Some "approved") "2024-01-02T08:00:00" Registry.two_submissions))
  = ["sub_1_20240101120000"; "sub_2_20240101120000"].
Proof.
  destruct (update_submission_effect "sub_1_20240101120000" None None None
              (Some "approved") "2024-01-02T08:00:00" Registry.two_submissions
              (Registry.new_submission
                 (fst (Registry.submit_bot "Alpha" "Owls" "1.0"
                         "https://example.org/alpha.git" "" "" ""
                         Registry.noon [])))
              eq_refl) as [_ [_ [Hkeys _]]].
  exact Hkeys.
Defined.

(** X8. [delete_submission] on a stored id answers with the record that
    was stored; afterwards [get_submission] reports the id as not found,
    every other id is answered as before, the other records keep their
    order, and the store has one record less. *)
Theorem delete_submission_effect (id : string)
    (db : list (string * Server.submission)) (s : Server.submission) :
  PyDict.well_formed db ->
  PyDict.get id db = Some s ->
  let result := Registry.delete_submission id db in
  fst result = Server.Deleted ("Submission '" ++ id ++ "' deleted successfully") s
  /\ Registry.get_submission id (snd result) = (Server.not_found id, snd result)
  /\ (forall id', id' <> id ->
        PyDict.get id' (snd result) = PyDict.get id' db)
  /\ PyDict.keys (snd result) =
       filter (fun k => negb (String.eqb k id)) (PyDict.keys db)
  /\ S (length (snd result)) = length db
  /\ PyDict.well_formed (snd result).
Proof.
  intros Hwf Hget result. subst result.
  unfold Registry.delete_submission, Registry.get_submission. rewrite Hget. simpl.
  rewrite (get_remove_eq _ _ Hwf). repeat split.
  - intros id' Hne. apply get_remove_ne. intros Heq. apply Hne. symmetry. exact Heq.
  - apply keys_remove. exact Hwf.
  - apply (length_remove_present _ _ s Hget).
  - apply well_formed_remove. exact Hwf.
Qed.

Lemma delete_submission_effect_witness :
  PyDict.keys Registry.first_deleted = ["sub_2_20240101120000"].
Proof.
  destruct (delete_submission_effect "sub_1_20240101120000"
              Registry.two_submissions
              (Registry.new_submission
                 (fst (Registry.submit_bot "Alpha" "Owls" "1.0"
                         "https://example.org/alpha.git" "" "" ""
                         Registry.noon [])))
              well_formed_two_submissions eq_refl) as [_ [_ [_ [Hkeys _]]]].
  exact Hkeys.
Defined.

(** *** Listing *)

Lemma filter_sublist {A : Type} (f : A -> bool) (l : list A) :
  sublist (filter f l) l.
Proof.
  induction l as [|x l IH]; simpl.
  - constructor.
  - destruct (f x); [apply sublist_skip | apply sublist_cons]; exact IH.
Qed.

Lemma filter_all {A : Type} (f : A -> bool) (l : list A) :
  (forall x, f x = true) -> filter f l = l.
Proof.
  intros Hall. induction l as [|x l IH]; cbn [filter].
  - reflexivity.
  - rewrite Hall, IH. reflexivity.
Qed.

Lemma matches_spec (wanted : option string) (field : string) :
  Registry.matches wanted field = true <->
  forall w, wanted = Some w -> w <> "" -> Registry.lower field = Registry.lower w.
Proof.
  unfold Registry.matches. destruct wanted as [w|].
  - destruct w as [|c w]; simpl.
    + split; [|reflexivity]. intros _ w' [= <-] Hne. contradiction.
    + rewrite String.eqb_eq. split.
      * intros Heq w' [= <-] _. exact Heq.
      * intros Hall. apply (Hall _ eq_refl). discriminate.
  - split; [|reflexivity]. intros _ w' Hw. discriminate Hw.
Qed.

Lemma slice_to_prefix {A : Type} (limit : Z) (l : list A) :
  exists rest, l = Registry.slice_to limit l ++ rest.
Proof.
  unfold Registry.slice_to.
  destruct (0 <=? limit)%Z; eexists; symmetry; apply firstn_skipn.
Qed.

Lemma slice_to_length {A : Type} (limit : Z) (l : list A) :
  length (Registry.slice_to limit l) =
    if (0 <=? limit)%Z then Nat.min (Z.to_nat limit) (length l)
    else length l - Z.to_nat (- limit).
Proof.
  unfold Registry.slice_to.
  destruct (0 <=? limit)%Z; rewrite length_firstn; lia.
Qed.

(** X9. What [list_submissions] returns: its count is the length of its
    list; the list is a prefix of the stored records that pass both
    filters, in store order; a filter compares lower-cased text, and an
    absent or empty filter lets every record pass.  With a limit of 0 or
    more the count is the smaller of the limit and the number of records
    that pass; a negative limit is not refused: it leaves out that many
    records from the end. *)
Theorem list_submissions_result (team_name status : option string) (limit : Z)
    (db : list (string * Server.submission)) :
  let result := Registry.list_submissions team_name status limit db in
  let passing := Registry.matching team_name status db in
  Registry.count result = length (Registry.submissions result)
  /\ (exists rest, passing = Registry.submissions result ++ rest)
  /\ sublist passing (PyDict.values db)
  /\ (forall s, In s passing <->
        In s (PyDict.values db)
        /\ (forall w, team_name = Some w -> w <> "" ->
              Registry.lower (Server.team_name s) = Registry.lower w)
        /\ (forall w, status = Some w -> w <> "" ->
              Registry.lower (Server.status s) = Registry.lower w))
  /\ Registry.count result =
       if (0 <=? limit)%Z then Nat.min (Z.to_nat limit) (length passing)
       else length passing - Z.to_nat (- limit).
Proof.
  cbv zeta. unfold Registry.list_submissions, Registry.matching. simpl.
  split; [reflexivity|]. split; [apply slice_to_prefix|]. split.
  { etransitivity; apply filter_sublist. }
  split; [|apply slice_to_length].
  intros s. rewrite !filter_In, <- !matches_spec. tauto.
Qed.

(** X10. Without filters and with a limit that is at least the size of
    the store, [list_submissions] returns every record, in the order of
    submission. *)
Theorem list_submissions_all (team_name status : option string) (limit : Z)
    (db : list (string * Server.submission)) :
  team_name = None \/ team_name = Some "" ->
  status = None \/ status = Some "" ->
  (Z.of_nat (length db) <= limit)%Z ->
  Registry.list_submissions team_name status limit db =
    {| Registry.count := length db; Registry.submissions := PyDict.values db |}.
Proof.
  intros Hteam Hstatus Hlimit.
  assert (Hall : forall (wanted : option string) (l : list Server.submission)
                        (field : Server.submission -> string),
             wanted = None \/ wanted = Some "" ->
             filter (fun s => Registry.matches wanted (field s)) l = l).
  { intros wanted l field Hoff. apply filter_all. intros x.
    destruct Hoff as [->| ->]; reflexivity. }
  unfold Registry.list_submissions.
  rewrite (Hall team_name _ Server.team_name Hteam),
          (Hall status _ Server.status Hstatus).
  unfold Registry.slice_to.
  assert (Hpos : (0 <=? limit)%Z = true) by (apply Z.leb_le; lia).
  rewrite Hpos. unfold PyDict.values.
  rewrite firstn_all2 by (rewrite length_map; lia).
  rewrite length_map. reflexivity.
Qed.

Lemma list_submissions_all_witness :
  Registry.list_submissions None (Some "") 10 Registry.two_submissions =
    {| Registry.count := 2;
       Registry.submissions := PyDict.values Registry.two_submissions |}.
Proof.
  apply (list_submissions_all None (Some "") 10 Registry.two_submissions).
  - left. reflexivity.
  - right. reflexivity.
  - vm_compute. discriminate.
Defined.

(** A team filter in another case, and a limit of -1. *)
Example list_submissions_examples :
  map Server.bot_name
    (Registry.submissions
       (Registry.list_submissions (Some "MINDS") None 10 Registry.two_submissions))
  = ["Beta"]
  /\ map Server.bot_name
       (Registry.submissions
          (Registry.list_submissions None None (-1) Registry.two_submissions))
     = ["Alpha"].
Proof. split; vm_compute; reflexivity. Qed.

(** *** Statistics *)

Lemma counted_set_present (counts : list (string * nat)) (k : string) (n v : nat) :
  PyDict.get k counts = Some n ->
  Registry.counted (PyDict.set k v counts) + n = Registry.counted counts + v.
Proof.
  unfold Registry.counted, PyDict.values.
  induction counts as [|[k0 n0] counts IH]; simpl; [discriminate|].
  destruct (String.eqb k0 k); simpl.
  - intros [= ->]. lia.
  - intros Hget. specialize (IH Hget). lia.
Qed.

Lemma counted_set_absent (counts : list (string * nat)) (k : string) (v : nat) :
  PyDict.get k counts = None ->
  Registry.counted (PyDict.set k v counts) = Registry.counted counts + v.
Proof.
  intros Hget. rewrite (set_absent _ _ _ Hget).
  unfold Registry.counted, PyDict.values. rewrite map_app, list_sum_app.
  simpl. lia.
Qed.

Lemma counted_bump (counts : list (string * nat)) (k : string) :
  Registry.counted (Registry.bump k counts) = S (Registry.counted counts).
Proof.
  unfold Registry.bump. destruct (PyDict.get k counts) as [n|] eqn:Hget.
  - pose proof (counted_set_present counts k n (n + 1) Hget). lia.
  - rewrite (counted_set_absent _ _ _ Hget). lia.
Qed.

Section Tally.
Variables (field : Server.submission -> string) (keep : Server.submission -> bool).

(** The counter after the loop, for one of the three counters. *)
Let tally (records : list Server.submission) (counts : list (string * nat)) :=
  fold_left (fun counts s =>
               if keep s then Registry.bump (field s) counts else counts)
            records counts.

Lemma tally_counted (records : list Server.submission) :
  forall counts,
    Registry.counted (tally records counts) =
      Registry.counted counts + length (filter keep records).
Proof.
  subst tally. induction records as [|s records IH]; intros counts; simpl.
  - lia.
  - rewrite IH. destruct (keep s); simpl; [rewrite counted_bump|]; lia.
Qed.

Lemma tally_get (k : string) (records : list Server.submission) :
  forall counts,
    PyDict.get k (tally records counts) =
      match length (filter (fun s => keep s && String.eqb k (field s)) records) with
      | 0 => PyDict.get k counts
      | S n =>
          Some (match PyDict.get k counts with Some m => m | None => 0 end + S n)
      end.
Proof.
  subst tally. induction records as [|s records IH]; intros counts; simpl.
  - reflexivity.
  - rewrite IH. destruct (keep s); simpl; [|reflexivity].
    destruct (String.eqb_spec k (field s)) as [->|Hne]; simpl.
    + unfold Registry.bump. rewrite get_set_eq.
      destruct (length (filter _ records)); f_equal; lia.
    + unfold Registry.bump. rewrite get_set_ne by (intros Heq; apply Hne; symmetry; exact Heq).
      reflexivity.
Qed.

Lemma tally_well_formed (records : list Server.submission) :
  forall counts, PyDict.well_formed counts ->
                 PyDict.well_formed (tally records counts).
Proof.
  subst tally. induction records as [|s records IH]; intros counts Hwf; simpl.
  - exact Hwf.
  - apply IH. destruct (keep s); [|exact Hwf].
    unfold Registry.bump. apply well_formed_set. exact Hwf.
Qed.

End Tally.

Lemma count_submissions_split (records : list Server.submission) :
  forall a b c,
    fold_left (fun acc s => Registry.count_submission s acc) records (a, b, c) =
      (fold_left (fun counts s =>
                    if (fun _ => true) s
                    then Registry.bump (Server.status s) counts else counts)
                 records a,
       fold_left (fun counts s =>
                    if (fun _ => true) s
                    then Registry.bump (Server.team_name s) counts else counts)
                 records b,
       fold_left (fun counts s =>
                    if (fun s => PyStr.nonempty (Server.language s)) s
                    then Registry.bump (Server.language s) counts else counts)
                 records c).
Proof.
  induction records as [|s records IH]; intros a b c; simpl.
  - reflexivity.
  - rewrite IH. reflexivity.
Qed.

(** X11. What [get_statistics] counts.  The total is the number of
    records.  The counts by status add up to the total, and so do the
    counts by team; the counts by language add up to the number of
    records whose language is not empty.  A status, team or language is a
    key of its counter exactly when a record has it, and its count is the
    number of those records; no key comes twice. *)
Theorem get_statistics_counts (db : list (string * Server.submission)) :
  let stats := Registry.get_statistics db in
  let records := PyDict.values db in
  let number_of (p : Server.submission -> bool) := length (filter p records) in
  let entry (n : nat) := match n with 0 => None | S _ => Some n end in
  Registry.total_submissions stats = length db
  /\ Registry.counted (Registry.by_status stats) = length db
  /\ Registry.counted (Registry.by_team stats) = length db
  /\ Registry.counted (Registry.by_language stats) =
       number_of (fun s => PyStr.nonempty (Server.language s))
  /\ (forall k, PyDict.get k (Registry.by_status stats) =
                entry (number_of (fun s => String.eqb k (Server.status s))))
  /\ (forall k, PyDict.get k (Registry.by_team stats) =
                entry (number_of (fun s => String.eqb k (Server.team_name s))))
  /\ (forall k, PyDict.get k (Registry.by_language stats) =
                entry (number_of (fun s => PyStr.nonempty (Server.language s)
                                           && String.eqb k (Server.language s))))
  /\ PyDict.well_formed (Registry.by_status stats)
  /\ PyDict.well_formed (Registry.by_team stats)
  /\ PyDict.well_formed (Registry.by_language stats).
Proof.
  cbv zeta.
  set (records := PyDict.values db).
  set (statuses := fold_left (fun counts s => Registry.bump (Server.status s) counts)
                             records []).
  set (teams := fold_left (fun counts s => Registry.bump (Server.team_name s) counts)
                          records []).
  set (languages :=
         fold_left (fun counts s =>
                      if PyStr.nonempty (Server.language s)
                      then Registry.bump (Server.language s) counts else counts)
                   records []).
  assert (Hstats : Registry.get_statistics db =
            {| Registry.total_submissions := length db;
               Registry.by_status := statuses;
               Registry.by_team := teams;
               Registry.by_language := languages |}).
  { unfold Registry.get_statistics. rewrite count_submissions_split. reflexivity. }
  rewrite Hstats. clear Hstats.
  cbn [Registry.total_submissions Registry.by_status Registry.by_team
       Registry.by_language].
  assert (Hlen : length (filter (fun _ : Server.submission => true) records)
                 = length db).
  { rewrite filter_all by reflexivity. apply length_map. }
  assert (Hnil : PyDict.well_formed (@nil (string * nat))) by constructor.
  assert (Hentry : forall (counts : list (string * nat)) (k : string) (n : nat),
             PyDict.get k counts =
               match n with
               | 0 => PyDict.get k (@nil (string * nat))
               | S m => Some (match PyDict.get k (@nil (string * nat)) with
                              | Some m' => m'
                              | None => 0
                              end + S m)
               end ->
             PyDict.get k counts = match n with 0 => None | S _ => Some n end).
  { intros counts k [|n] Hget; exact Hget. }
  split; [reflexivity|].
  split.
  { pose proof (tally_counted Server.status (fun _ => true) records []) as H.
    rewrite Hlen in H. exact H. }
  split.
  { pose proof (tally_counted Server.team_name (fun _ => true) records []) as H.
    rewrite Hlen in H. exact H. }
  split.
  { exact (tally_counted Server.language
             (fun s => PyStr.nonempty (Server.language s)) records []). }
  split.
  { intros k. apply Hentry.
    exact (tally_get Server.status (fun _ => true) k records []). }
  split.
  { intros k. apply Hentry.
    exact (tally_get Server.team_name (fun _ => true) k records []). }
  split.
  { intros k. apply Hentry.
    exact (tally_get Server.language
             (fun s => PyStr.nonempty (Server.language s)) k records []). }
  split.
  { exact (tally_well_formed Server.status (fun _ => true) records [] Hnil). }
  split.
  { exact (tally_well_formed Server.team_name (fun _ => true) records [] Hnil). }
  exact (tally_well_formed Server.language
           (fun s => PyStr.nonempty (Server.language s)) records [] Hnil).
Qed.

(** Two records: both pending, two teams, one language given. *)
Example get_statistics_two_submissions :
  Registry.get_statistics Registry.two_submissions =
    {| Registry.total_submissions := 2;
       Registry.by_status := [("pending", 2)];
       Registry.by_team := [("Owls", 1); ("Minds", 1)];
       Registry.by_language := [("C#", 1)] |}.
Proof. vm_compute. reflexivity. Qed.

(* ===================================================================== *)
(** ** The report of a run *)
(* ===================================================================== *)


Example main_without_directory :
  main no_directory_env =
    (1%Z, [Error [Lit "UserBot directory not found: "; Lit "UserBot"]]).
Proof. reflexivity. Qed.

(* ===================================================================== *)
(** ** The no-adjacent-terminator rule: all the violations *)
(* ===================================================================== *)

Lemma in_enumerate {A : Type} (xs : list A) :
  forall (start n : nat) (x : A),
    In (n, x) (PyStr.enumerate start xs) <->
    start <= n /\ nth_error xs (n - start) = Some x.
Proof.
  induction xs as [|y xs IH]; intros start n x; simpl.
  - split; [tauto|]. intros [_ Hnth]. destruct (n - start); discriminate.
  - rewrite IH. split.
    + intros [[= <- <-]|[Hle Hnth]].
      * split; [lia|]. rewrite Nat.sub_diag. reflexivity.
      * split; [lia|]. replace (n - start) with (S (n - S start)) by lia.
        exact Hnth.
    + intros [Hle Hnth]. destruct (Nat.eq_dec start n) as [->|Hne].
      * rewrite Nat.sub_diag in Hnth. injection Hnth as ->. left. reflexivity.
      * right. split; [lia|].
        replace (n - start) with (S (n - S start)) in Hnth by lia. exact Hnth.
Qed.

Lemma double_semicolon_line_appends (f : cs_file) (numbered : nat * string)
    (acc : list issue) :
  double_semicolon_line f numbered acc =
    acc ++ (if double_semicolon_flagged (snd numbered)
            then [ {| issue_file := shown f; issue_line := fst numbered;
                      issue_content := PyStr.strip (snd numbered) |} ]
            else []).
Proof.
  destruct numbered as [n l]. unfold double_semicolon_line, double_semicolon_flagged.
  simpl. destruct (PyStr.contains ";;" l); simpl; [|symmetry; apply app_nil_r].
  destruct (negb (PyStr.startswith "//" (PyStr.strip l))
            && negb (PyStr.startswith "*" (PyStr.strip l)));
    [reflexivity | symmetry; apply app_nil_r].
Qed.

Lemma double_semicolon_lines_append (f : cs_file) (numbered : list (nat * string)) :
  forall acc,
    fold_left (fun acc nl => double_semicolon_line f nl acc) numbered acc =
      acc ++ flat_map (fun nl : nat * string =>
                         if double_semicolon_flagged (snd nl)
                         then [ {| issue_file := shown f; issue_line := fst nl;
                                   issue_content := PyStr.strip (snd nl) |} ]
                         else []) numbered.
Proof.
  induction numbered as [|nl numbered IH]; intros acc; simpl.
  - symmetry. apply app_nil_r.
  - rewrite IH, double_semicolon_line_appends, <- app_assoc. reflexivity.
Qed.

Lemma double_semicolon_file_appends (f : cs_file) (acc : list issue) :
  double_semicolon_file f acc =
    (acc ++ double_semicolon_file_issues f, unreadable_warnings [f]).
Proof.
  unfold double_semicolon_file, double_semicolon_file_issues, unreadable_warnings.
  simpl. destruct (readlines f) as [lines|e].
  - rewrite double_semicolon_lines_append. reflexivity.
  - rewrite app_nil_r. reflexivity.
Qed.

Lemma double_semicolon_files_append (cs_files : list cs_file) :
  forall acc,
    for_each cs_files double_semicolon_file acc =
      (acc ++ flat_map double_semicolon_file_issues cs_files,
       unreadable_warnings cs_files).
Proof.
  induction cs_files as [|f cs_files IH]; intros acc.
  - simpl. rewrite app_nil_r. reflexivity.
  - cbn [for_each]. rewrite double_semicolon_file_appends. unfold bind.
    rewrite IH. unfold unreadable_warnings. cbn [flat_map].
    rewrite app_nil_r, <- app_assoc. reflexivity.
Qed.

(** X14. The violations recorded by the no-adjacent-terminator check are
    those of the files, file after file in the order of the listing, and
    within a file by rising line number; a file that cannot be read gives
    a warning and no violation.  An entry is recorded exactly for a line
    of a readable file that contains [;;] and, once trimmed, starts
    neither with [//] nor with [*]; it carries the file, the number of the
    line counted from 1, and the trimmed line. *)
Theorem double_semicolon_issues_are_the_flagged_lines (cs_files : list cs_file) :
  double_semicolon_issues cs_files =
    (flat_map double_semicolon_file_issues cs_files, unreadable_warnings cs_files)
  /\ (forall f, StronglySorted lt (map issue_line (double_semicolon_file_issues f)))
  /\ (forall i, In i (value (double_semicolon_issues cs_files)) <->
        exists f lines n l,
          In f cs_files /\ readlines f = Returned lines
          /\ nth_error lines n = Some l
          /\ PyStr.contains ";;" l = true
          /\ PyStr.startswith "//" (PyStr.strip l) = false
          /\ PyStr.startswith "*" (PyStr.strip l) = false
          /\ i = {| issue_file := shown f; issue_line := S n;
                    issue_content := PyStr.strip l |}).
Proof.
  assert (Hall : double_semicolon_issues cs_files =
            (flat_map double_semicolon_file_issues cs_files,
             unreadable_warnings cs_files)).
  { unfold double_semicolon_issues. apply double_semicolon_files_append. }
  split; [exact Hall|]. split.
  - intros f. unfold double_semicolon_file_issues.
    destruct (readlines f) as [lines|e]; [|constructor].
    generalize 1. induction lines as [|l lines IH]; intros start; simpl.
    + constructor.
    + assert (Hlater : Forall (lt start)
                (map issue_line
                   (flat_map (fun numbered : nat * string =>
                      if double_semicolon_flagged (snd numbered)
                      then [ {| issue_file := shown f; issue_line := fst numbered;
                                issue_content := PyStr.strip (snd numbered) |} ]
                      else []) (PyStr.enumerate (S start) lines)))).
      { apply Forall_forall. intros n Hn. apply in_map_iff in Hn.
        destruct Hn as [i [<- Hi]]. apply in_flat_map in Hi.
        destruct Hi as [[m l'] [Hm Hi]]. apply in_enumerate in Hm.
        simpl in Hi. destruct (double_semicolon_flagged l'); [|destruct Hi].
        destruct Hi as [<-|[]]. simpl. lia. }
      destruct (double_semicolon_flagged l); simpl.
      * constructor; [apply IH | exact Hlater].
      * apply IH.
  - intros i. rewrite Hall. unfold value. simpl. rewrite in_flat_map. split.
    + intros [f [Hf Hi]]. unfold double_semicolon_file_issues in Hi.
      destruct (readlines f) as [lines|e] eqn:Hread; [|destruct Hi].
      apply in_flat_map in Hi. destruct Hi as [[n l] [Hn Hi]].
      apply in_enumerate in Hn. destruct Hn as [Hle Hnth]. simpl in Hi.
      destruct (double_semicolon_flagged l) eqn:Hflag; [|destruct Hi].
      destruct Hi as [<-|[]].
      unfold double_semicolon_flagged in Hflag.
      apply andb_true_iff in Hflag. destruct Hflag as [Hflag Hstar].
      apply andb_true_iff in Hflag. destruct Hflag as [Hdouble Hslash].
      apply negb_true_iff in Hstar, Hslash.
      exists f, lines, (n - 1), l. repeat split; try assumption.
      replace (S (n - 1)) with n by lia. reflexivity.
    + intros (f & lines & n & l & Hf & Hread & Hnth & Hdouble & Hslash & Hstar & ->).
      exists f. split; [exact Hf|]. unfold double_semicolon_file_issues.
      rewrite Hread. apply in_flat_map. exists (S n, l). split.
      * apply in_enumerate. split; [lia|].
        replace (S n - 1) with n by lia. exact Hnth.
      * simpl. unfold double_semicolon_flagged.
        rewrite Hdouble, Hslash, Hstar. left. reflexivity.
Qed.

(** X15. The no-adjacent-terminator check passes exactly when no readable
    file has a flagged line; files that cannot be read do not make it
    fail.  Its report is the header, one warning per unreadable file, and
    then either the success line or the number of violations, the first
    ten of them with file, line number and the first 100 characters, and
    the number of those left out when there are more than ten. *)
Theorem check_double_semicolons_report (env : environment) :
  let cs_files := ds_cs_files env in
  let issues := flat_map double_semicolon_file_issues cs_files in
  (value (check_double_semicolons env) = true <->
     forall f lines l,
       In f cs_files -> readlines f = Returned lines -> In l lines ->
       double_semicolon_flagged l = false)
  /\ printed (check_double_semicolons env) =
       Header "VERIFICATION 2: DOUBLE SEMICOLON RULE"
       :: unreadable_warnings cs_files
       ++ match issues with
          | [] => [Success [Lit "No double semicolons found in ";
                            Int (len cs_files); Lit " C# files"]]
          | _ :: _ =>
              Error [Lit "Found "; Int (len issues);
                     Lit " double semicolon violations:"]
              :: flat_map (fun issue =>
                    [ Print [Lit "  "; Lit (issue_file issue); Lit ":";
                             Int (Z.of_nat (issue_line issue))];
                      Print [Lit "    ";
                             Lit (PyStr.upto 100 (issue_content issue))] ])
                   (firstn 10 issues)
              ++ (if (10 <? len issues)%Z
                  then [Print [Lit "  ... and "; Int (len issues - 10);
                               Lit " more"]]
                  else [])
          end.
Proof.
  cbv zeta.
  assert (Hall : double_semicolon_issues (ds_cs_files env) =
            (flat_map double_semicolon_file_issues (ds_cs_files env),
             unreadable_warnings (ds_cs_files env))).
  { exact (double_semicolon_files_append (ds_cs_files env) []). }
  assert (Hvalue : value (check_double_semicolons env) =
            match flat_map double_semicolon_file_issues (ds_cs_files env) with
            | [] => true
            | _ :: _ => false
            end).
  { unfold check_double_semicolons. io_split. rewrite Hall.
    change (value (flat_map double_semicolon_file_issues (ds_cs_files env),
                   unreadable_warnings (ds_cs_files env)))
      with (flat_map double_semicolon_file_issues (ds_cs_files env)).
    destruct (flat_map double_semicolon_file_issues (ds_cs_files env));
      io_split; reflexivity. }
  split.
  - rewrite Hvalue. split.
    + intros Hpass f lines l Hf Hread Hl.
      destruct (double_semicolon_flagged l) eqn:Hflag; [|reflexivity].
      exfalso.
      assert (Hin : exists i, In i (flat_map double_semicolon_file_issues
                                      (ds_cs_files env))).
      { apply In_nth_error in Hl. destruct Hl as [n Hn].
        exists {| issue_file := shown f; issue_line := S n;
                  issue_content := PyStr.strip l |}.
        apply in_flat_map. exists f. split; [exact Hf|].
        unfold double_semicolon_file_issues. rewrite Hread.
        apply in_flat_map. exists (S n, l). split.
        - apply in_enumerate. split; [lia|].
          replace (S n - 1) with n by lia. exact Hn.
        - simpl. rewrite Hflag. left. reflexivity. }
      destruct Hin as [i Hi].
      destruct (flat_map double_semicolon_file_issues (ds_cs_files env));
        [destruct Hi | discriminate Hpass].
    + intros Hclean.
      assert (Hnone : flat_map double_semicolon_file_issues (ds_cs_files env) = []).
      { destruct (flat_map double_semicolon_file_issues (ds_cs_files env))
          as [|i rest] eqn:Hissues; [reflexivity|]. exfalso.
        assert (Hi : In i (flat_map double_semicolon_file_issues (ds_cs_files env)))
          by (rewrite Hissues; left; reflexivity).
        apply in_flat_map in Hi. destruct Hi as [f [Hf Hi]].
        unfold double_semicolon_file_issues in Hi.
        destruct (readlines f) as [lines|e] eqn:Hread; [|destruct Hi].
        apply in_flat_map in Hi. destruct Hi as [[n l] [Hn Hi]].
        apply in_enumerate in Hn. destruct Hn as [_ Hnth]. simpl in Hi.
        apply nth_error_In in Hnth.
        rewrite (Hclean f lines l Hf Hread Hnth) in Hi. destruct Hi. }
      rewrite Hnone. reflexivity.
  - unfold check_double_semicolons. io_split. rewrite Hall.
    change (value (flat_map double_semicolon_file_issues (ds_cs_files env),
                   unreadable_warnings (ds_cs_files env)))
      with (flat_map double_semicolon_file_issues (ds_cs_files env)).
    change (printed (flat_map double_semicolon_file_issues (ds_cs_files env),
                     unreadable_warnings (ds_cs_files env)))
      with (unreadable_warnings (ds_cs_files env)).
    change (printed (print_header "VERIFICATION 2: DOUBLE SEMICOLON RULE"))
      with [Header "VERIFICATION 2: DOUBLE SEMICOLON RULE"].
    cbn [app]. f_equal. f_equal.
    destruct (flat_map double_semicolon_file_issues (ds_cs_files env))
      as [|i rest] eqn:Hissues.
    + reflexivity.
    + io_split. rewrite printed_print_each.
      destruct (10 <? len (i :: rest))%Z;
        cbn [printed snd print_error print emit ret app];
        rewrite ?app_nil_r; reflexivity.
Qed.

(* ===================================================================== *)
(** ** The trailing-marker rule: the scan *)
(* ===================================================================== *)

Lemma scan_plus_start (sc : scan_state) : scan_plus sc scan_start = sc.
Proof.
  destruct sc as [issues total correct]. unfold scan_plus. simpl.
  rewrite app_nil_r, !Nat.add_0_r. reflexivity.
Qed.

Lemma scan_plus_assoc (a b c : scan_state) :
  scan_plus (scan_plus a b) c = scan_plus a (scan_plus b c).
Proof.
  unfold scan_plus. simpl. rewrite <- app_assoc, !Nat.add_assoc. reflexivity.
Qed.

(** A line adds to the scan so far what it adds to an empty scan. *)
Lemma statement_line_adds (f : cs_file) (numbered : nat * string) (flag : bool)
    (sc : scan_state) :
  statement_line f numbered (flag, sc) =
    (fst (statement_line f numbered (flag, scan_start)),
     scan_plus sc (snd (statement_line f numbered (flag, scan_start)))).
Proof.
  destruct numbered as [n l]. unfold statement_line. cbv zeta.
  split_tests; cbn [fst snd]; rewrite ?scan_plus_start; try reflexivity;
    unfold scan_plus; simpl; rewrite ?app_nil_r, ?Nat.add_0_r; reflexivity.
Qed.

Lemma statement_lines_add (f : cs_file) (numbered : list (nat * string)) :
  forall (flag : bool) (sc : scan_state),
    fold_left (fun acc nl => statement_line f nl acc) numbered (flag, sc) =
      (fst (fold_left (fun acc nl => statement_line f nl acc) numbered
                      (flag, scan_start)),
       scan_plus sc
         (snd (fold_left (fun acc nl => statement_line f nl acc) numbered
                         (flag, scan_start)))).
Proof.
  induction numbered as [|nl numbered IH]; intros flag sc; cbn [fold_left].
  - cbn [fst snd]. rewrite scan_plus_start. reflexivity.
  - rewrite (statement_line_adds f nl flag sc).
    destruct (statement_line f nl (flag, scan_start)) as [flag' d] eqn:Hstep.
    cbn [fst snd]. rewrite (IH flag' (scan_plus sc d)), (IH flag' d).
    cbn [fst snd]. rewrite scan_plus_assoc. reflexivity.
Qed.

Lemma statement_file_adds (f : cs_file) (sc : scan_state) :
  statement_file f sc =
    (scan_plus sc (value (statement_file f scan_start)),
     printed (statement_file f scan_start)).
Proof.
  unfold statement_file. destruct (readlines f) as [lines|e].
  - unfold ret, value, printed. cbn [fst snd].
    rewrite statement_lines_add. reflexivity.
  - unfold bind, value, printed. simpl. rewrite scan_plus_start. reflexivity.
Qed.

Lemma statement_files_add (cs_files : list cs_file) :
  forall sc,
    for_each cs_files statement_file sc =
      (scan_plus sc (value (for_each cs_files statement_file scan_start)),
       printed (for_each cs_files statement_file scan_start)).
Proof.
  induction cs_files as [|f cs_files IH]; intros sc.
  - simpl. unfold ret, value. simpl. rewrite scan_plus_start. reflexivity.
  - cbn [for_each].
    rewrite (statement_file_adds f sc).
    unfold bind at 1. rewrite IH.
    pose proof (statement_file_adds f scan_start) as Hf.
    destruct (statement_file f scan_start) as [d out] eqn:Hd.
    unfold bind. unfold value, printed in *. cbn [fst snd] in *.
    rewrite (IH d). cbn [fst snd]. rewrite scan_plus_assoc. reflexivity.
Qed.

(** X16. The scan of the trailing-marker check treats every file on its
    own: scanning a listing gives the issues of its first part followed by
    those of the rest, the statement counts added, and the warnings of
    both; the state of a block comment left open in one file does not
    reach the next file. *)
Theorem statement_scan_file_by_file (first rest : list cs_file) :
  for_each (first ++ rest) statement_file scan_start =
    (scan_plus (value (for_each first statement_file scan_start))
               (value (for_each rest statement_file scan_start)),
     printed (for_each first statement_file scan_start)
     ++ printed (for_each rest statement_file scan_start)).
Proof.
  induction first as [|f first IH].
  - simpl. destruct (for_each rest statement_file scan_start) as [sc out].
    unfold scan_plus, value, printed. simpl. destruct sc. reflexivity.
  - cbn [app for_each].
    destruct (statement_file f scan_start) as [d out] eqn:Hd.
    unfold bind.
    rewrite (statement_files_add (first ++ rest) d), IH.
    rewrite (statement_files_add first d).
    unfold value, printed. cbn [fst snd].
    rewrite scan_plus_assoc, app_assoc. reflexivity.
Qed.

(** *** Bounds kept by the scan *)

Lemma statement_line_within_total (f : cs_file) (numbered : nat * string)
    (flag : bool) (sc : scan_state) :
  within_total sc -> within_total (snd (statement_line f numbered (flag, sc))).
Proof.
  intros Hsc. destruct numbered as [n l]. unfold statement_line. cbv zeta.
  split_tests; cbn [snd]; try exact Hsc; unfold within_total in *;
    cbn [total_statements correct_statements issues_found];
    rewrite ?length_app; simpl; lia.
Qed.

Lemma statement_lines_within_total (f : cs_file) (numbered : list (nat * string)) :
  forall (flag : bool) (sc : scan_state),
    within_total sc ->
    within_total (snd (fold_left (fun acc nl => statement_line f nl acc)
                                 numbered (flag, sc))).
Proof.
  induction numbered as [|nl numbered IH]; intros flag sc Hsc; cbn [fold_left].
  - exact Hsc.
  - destruct (statement_line f nl (flag, sc)) as [flag' sc'] eqn:Hstep.
    apply IH. change sc' with (snd (flag', sc')). rewrite <- Hstep.
    apply statement_line_within_total. exact Hsc.
Qed.

Lemma statement_files_within_total (cs_files : list cs_file) :
  forall sc, within_total sc ->
             within_total (value (for_each cs_files statement_file sc)).
Proof.
  induction cs_files as [|f cs_files IH]; intros sc Hsc.
  - exact Hsc.
  - cbn [for_each]. rewrite value_bind. apply IH.
    unfold statement_file. destruct (readlines f) as [lines|e]; [|exact Hsc].
    apply statement_lines_within_total. exact Hsc.
Qed.

Lemma rate_bounds (correct total : nat) :
  correct <= total ->
  (0 <= true_div correct total * 100 /\ true_div correct total * 100 <= 100)%Q.
Proof.
  intros Hle. unfold true_div, Qdiv, Qinv, Qmult, Qle. simpl.
  destruct total as [|total]; simpl.
  - lia.
  - split; nia.
Qed.

(** X17. Whatever is scanned, the compliant statements and the recorded
    violations together are no more than the statements counted; so the
    compliance rate the trailing-marker check compares with 95 lies
    between 0 and 100. *)
Theorem statement_scan_bounds (env : environment) :
  let sc := value (statement_scan env) in
  correct_statements sc + length (issues_found sc) <= total_statements sc
  /\ (0 <= compliance_rate sc)%Q
  /\ (compliance_rate sc <= 100)%Q.
Proof.
  cbv zeta.
  assert (Hin : within_total (value (statement_scan env))).
  { apply statement_files_within_total. unfold within_total. simpl. lia. }
  split; [exact Hin|].
  unfold compliance_rate. apply rate_bounds. unfold within_total in Hin. lia.
Qed.

(** *** Files that are not scanned *)

Lemma statement_files_unreadable (cs_files : list cs_file) :
  (forall f, In f cs_files -> exists e, readlines f = Raised e) ->
  forall sc, for_each cs_files statement_file sc =
             (sc, unreadable_warnings cs_files).
Proof.
  intros Hall. induction cs_files as [|f cs_files IH]; intros sc.
  - reflexivity.
  - cbn [for_each]. destruct (Hall f (or_introl eq_refl)) as [e He].
    unfold statement_file at 1. rewrite He. unfold bind at 1. simpl.
    rewrite IH by (intros g Hg; apply Hall; right; exact Hg).
    unfold unreadable_warnings. simpl. rewrite He. reflexivity.
Qed.

(** X18. Files whose path holds [obj/], [bin/], [/obj\] or [\bin\] are
    left out of the trailing-marker scan, and a file that cannot be read
    costs a warning only.  When every file of the two listings is one or
    the other, nothing is counted and the check passes, its last line
    being the warning that no statement was found. *)
Theorem check_statement_endings_nothing_scanned (env : environment) :
  (forall f, In f (se_cs_files env ++ se_test_files env) ->
             is_generated f = true \/ exists e, readlines f = Raised e) ->
  check_statement_endings env =
    (true,
     Header "VERIFICATION 4: STATEMENT ENDING RULE (//)"
     :: unreadable_warnings (statement_files env)
     ++ [Warning [Lit "No statements found to verify"]]).
Proof.
  intros Hall.
  assert (Hscan : statement_scan env =
                    (scan_start, unreadable_warnings (statement_files env))).
  { unfold statement_scan. apply statement_files_unreadable.
    intros f Hf. unfold statement_files in Hf. apply filter_In in Hf.
    destruct Hf as [Hf Hgen]. destruct (Hall f Hf) as [Hyes|Hno]; [|exact Hno].
    rewrite Hyes in Hgen. discriminate Hgen. }
  unfold check_statement_endings. rewrite Hscan. reflexivity.
Qed.

Lemma check_statement_endings_nothing_scanned_witness :
  check_statement_endings unscanned_env =
    (true,
     [ Header "VERIFICATION 4: STATEMENT ENDING RULE (//)";
       Warning [Lit "Could not read ";
                Lit "UserBot/UserBot.StrategicMind/Locked.cs"; Lit ": ";
                Lit "[Errno 13] Permission denied: 'UserBot/UserBot.StrategicMind/Locked.cs'"];
       Warning [Lit "No statements found to verify"] ]).
Proof.
  apply (check_statement_endings_nothing_scanned unscanned_env).
  intros f [<-|[<-|[]]].
  - right. eexists. reflexivity.
  - left. reflexivity.
Defined.

(** The no-adjacent-terminator check has no such exemption: on the same
    listing it flags the line of the file under [obj/]. *)
Example generated_file_is_checked_for_double_semicolons :
  value (check_double_semicolons unscanned_env) = false
  /\ value (double_semicolon_issues (ds_cs_files unscanned_env)) =
       [ {| issue_file := "UserBot.StrategicMind/obj/Debug/AssemblyInfo.cs";
            issue_line := 2; issue_content := "int x = 5;;" |} ].
Proof. split; vm_compute; reflexivity. Qed.

(** *** Block comments *)

Lemma statement_lines_in_open_comment (f : cs_file) (lines : list string) :
  (forall l, In l lines -> PyStr.contains "*/" (PyStr.strip l) = false) ->
  forall (start : nat) (sc : scan_state),
    fold_left (fun acc nl => statement_line f nl acc)
              (PyStr.enumerate start lines) (true, sc) = (true, sc).
Proof.
  induction lines as [|l lines IH]; intros Hopen start sc.
  - reflexivity.
  - cbn [PyStr.enumerate fold_left].
    assert (Hstep : statement_line f (start, l) (true, sc) = (true, sc)).
    { unfold statement_line. cbv zeta.
      rewrite (Hopen l (or_introl eq_refl)).
      destruct (negb (PyStr.nonempty (PyStr.strip l))); [reflexivity|].
      destruct (PyStr.contains "/*" (PyStr.strip l)); reflexivity. }
    rewrite Hstep. apply IH. intros l' Hl'. apply Hopen. right. exact Hl'.
Qed.

(** X19. Once a line holds the opening marker [/*], the lines that follow
    are not counted until a line holds the closing marker.  In a file
    whose first line holds [/*] and in which no line holds [*/], nothing
    is counted and nothing is recorded, whatever the lines are, and this
    also when the opening marker stands in a single-line comment. *)
Theorem statement_file_open_block_comment (f : cs_file) (first : string)
    (rest : list string) (sc : scan_state) :
  readlines f = Returned (first :: rest) ->
  PyStr.contains "/*" (PyStr.strip first) = true ->
  (forall l, In l (first :: rest) -> PyStr.contains "*/" (PyStr.strip l) = false) ->
  statement_file f sc = (sc, []).
Proof.
  intros Hread Hopens Hopen. unfold statement_file. rewrite Hread.
  cbn [PyStr.enumerate fold_left].
  assert (Hfirst : statement_line f (1, first) (false, sc) = (true, sc)).
  { unfold statement_line. cbv zeta.
    rewrite Hopens, (Hopen first (or_introl eq_refl)).
    destruct (negb (PyStr.nonempty (PyStr.strip first))) eqn:Hempty; [|reflexivity].
    exfalso. destruct (PyStr.strip first); [discriminate Hopens|discriminate Hempty]. }
  rewrite Hfirst, statement_lines_in_open_comment; [reflexivity|].
  intros l Hl. apply Hopen. right. exact Hl.
Qed.

Lemma statement_file_open_block_comment_witness :
  statement_file comment_opens_block scan_start = (scan_start, []).
Proof.
  apply (statement_file_open_block_comment comment_opens_block
           (ln "// see /* below") [ln "int lost = 1;"; ln "int alsoLost = 2;"]).
  - reflexivity.
  - reflexivity.
  - intros l [<-|[<-|[<-|[]]]]; reflexivity.
Defined.

(** *** Where the recorded violations come from *)

Lemma statement_line_issue (f : cs_file) (n : nat) (l : string) (flag : bool)
    (sc : scan_state) :
  issues_found (snd (statement_line f (n, l) (flag, sc))) = issues_found sc
  \/ (issues_found (snd (statement_line f (n, l) (flag, sc))) =
        issues_found sc
        ++ [ {| issue_file := shown f; issue_line := n;
                issue_content := PyStr.upto 80 (PyStr.strip l) |} ]
      /\ PyStr.endswith "//" (PyStr.strip l) = false
      /\ PyStr.startswith "//" (PyStr.strip l) = false
      /\ PyStr.contains "*/" (PyStr.strip l) = false).
Proof.
  unfold statement_line. cbv zeta.
  destruct (negb (PyStr.nonempty (PyStr.strip l))); [left; reflexivity|].
  destruct (PyStr.contains "*/" (PyStr.strip l)) eqn:Hclose; [left; reflexivity|].
  destruct (if PyStr.contains "/*" (PyStr.strip l) then true else flag);
    [left; reflexivity|].
  destruct (PyStr.startswith "///" (PyStr.strip l)
            || PyStr.startswith "//" (PyStr.strip l)) eqn:Hcomment;
    [left; reflexivity|].
  apply orb_false_iff in Hcomment. destruct Hcomment as [_ Hcomment].
  destruct (PyStr.startswith "[" (PyStr.strip l)
            && PyStr.endswith "]" (PyStr.strip l)); [left; reflexivity|].
  match goal with
  | |- context [if ?c then _ else _] => destruct c; [|left; reflexivity]
  end.
  destruct (PyStr.endswith "//" (PyStr.strip l)) eqn:Hmarker; [left; reflexivity|].
  match goal with
  | |- context [if ?c then _ else _] => destruct c; [|left; reflexivity]
  end.
  right. repeat split; assumption || reflexivity.
Qed.

Lemma statement_lines_issue (f : cs_file) (numbered : list (nat * string)) :
  forall (flag : bool) (sc : scan_state) (i : issue),
    In i (issues_found
            (snd (fold_left (fun acc nl => statement_line f nl acc) numbered
                            (flag, sc)))) ->
    In i (issues_found sc)
    \/ exists n l,
         In (n, l) numbered
         /\ i = {| issue_file := shown f; issue_line := n;
                   issue_content := PyStr.upto 80 (PyStr.strip l) |}
         /\ PyStr.endswith "//" (PyStr.strip l) = false
         /\ PyStr.startswith "//" (PyStr.strip l) = false
         /\ PyStr.contains "*/" (PyStr.strip l) = false.
Proof.
  induction numbered as [|[n l] numbered IH]; intros flag sc i Hi;
    cbn [fold_left] in Hi.
  - left. exact Hi.
  - destruct (statement_line f (n, l) (flag, sc)) as [flag' sc'] eqn:Hstep.
    destruct (IH flag' sc' i Hi) as [Hold|(n' & l' & Hin & Hrest)].
    + pose proof (statement_line_issue f n l flag sc) as Hline.
      rewrite Hstep in Hline. cbn [snd] in Hline.
      destruct Hline as [Hsame|[Hnew Hfacts]].
      * left. rewrite <- Hsame. exact Hold.
      * rewrite Hnew in Hold. apply in_app_or in Hold.
        destruct Hold as [Hold|[<-|[]]]; [left; exact Hold|].
        right. exists n, l. split; [left; reflexivity|].
        split; [reflexivity | exact Hfacts].
    + right. exists n', l'. split; [right; exact Hin | exact Hrest].
Qed.

Lemma statement_files_issue (cs_files : list cs_file) :
  forall (sc : scan_state) (i : issue),
    In i (issues_found (value (for_each cs_files statement_file sc))) ->
    In i (issues_found sc)
    \/ exists f lines n l,
         In f cs_files /\ readlines f = Returned lines
         /\ nth_error lines n = Some l
         /\ i = {| issue_file := shown f; issue_line := S n;
                   issue_content := PyStr.upto 80 (PyStr.strip l) |}
         /\ PyStr.endswith "//" (PyStr.strip l) = false
         /\ PyStr.startswith "//" (PyStr.strip l) = false
         /\ PyStr.contains "*/" (PyStr.strip l) = false.
Proof.
  induction cs_files as [|f cs_files IH]; intros sc i Hi.
  - left. exact Hi.
  - cbn [for_each] in Hi. rewrite value_bind in Hi.
    destruct (IH _ i Hi) as [Hold|(g & lines & n & l & Hg & Hrest)].
    + unfold statement_file in Hold.
      destruct (readlines f) as [lines|e] eqn:Hread; [|left; exact Hold].
      unfold value, ret in Hold. cbn [fst] in Hold.
      destruct (statement_lines_issue f _ _ _ i Hold)
        as [Hsc|(n & l & Hin & -> & Hfacts)]; [left; exact Hsc|].
      apply in_enumerate in Hin. destruct Hin as [Hle Hnth].
      right. exists f, lines, (n - 1), l.
      split; [left; reflexivity|]. split; [exact Hread|].
      split; [exact Hnth|]. split; [|exact Hfacts].
      replace (S (n - 1)) with n by lia. reflexivity.
    + right. exists g, lines, n, l. split; [right; exact Hg | exact Hrest].
Qed.

(** X20. Every violation the trailing-marker check records is a line of
    a file that was scanned, a file outside [obj/] and [bin/] that could
    be read; the line, once trimmed, does not end with [//], is not a
    single-line comment and does not close a block comment; and the entry
    carries the file, the number of the line counted from 1, and the
    first 80 characters of the trimmed line. *)
Theorem statement_issues_are_scanned_lines (env : environment) (i : issue) :
  In i (issues_found (value (statement_scan env))) ->
  exists f lines n l,
    In f (se_cs_files env ++ se_test_files env)
    /\ is_generated f = false
    /\ readlines f = Returned lines
    /\ nth_error lines n = Some l
    /\ i = {| issue_file := shown f; issue_line := S n;
              issue_content := PyStr.upto 80 (PyStr.strip l) |}
    /\ PyStr.endswith "//" (PyStr.strip l) = false
    /\ PyStr.startswith "//" (PyStr.strip l) = false
    /\ PyStr.contains "*/" (PyStr.strip l) = false.
Proof.
  intros Hi. unfold statement_scan in Hi.
  destruct (statement_files_issue _ _ i Hi)
    as [[]|(f & lines & n & l & Hf & Hrest)].
  unfold statement_files in Hf. apply filter_In in Hf. destruct Hf as [Hf Hgen].
  apply negb_true_iff in Hgen.
  exists f, lines, n, l. split; [exact Hf|]. split; [exact Hgen | exact Hrest].
Qed.

Lemma statement_issues_are_scanned_lines_witness :
  exists f lines n l,
    In f (se_cs_files eighteen_of_twenty_env ++ se_test_files eighteen_of_twenty_env)
    /\ is_generated f = false
    /\ readlines f = Returned lines
    /\ nth_error lines n = Some l
    /\ {| issue_file := "UserBot/UserBot.StrategicMind/Moves.cs"; issue_line := 19;
          issue_content := "total = count;" |} =
       {| issue_file := shown f; issue_line := S n;
          issue_content := PyStr.upto 80 (PyStr.strip l) |}
    /\ PyStr.endswith "//" (PyStr.strip l) = false
    /\ PyStr.startswith "//" (PyStr.strip l) = false
    /\ PyStr.contains "*/" (PyStr.strip l) = false.
Proof.
  apply (statement_issues_are_scanned_lines eighteen_of_twenty_env).
  vm_compute. left. reflexivity.
Defined.

(* ===================================================================== *)
(** ** What a failed check prints *)
(* ===================================================================== *)















(** The sample of the witness: twenty statements, eighteen of them
    compliant; of the two offending lines the one that holds a string
    literal is left out, and the other is the entry recorded. *)
Example mixed_statements_report :
  offending_lines (in_statement_listing mixed_statements) =
    [ (19, ln (String.concat PyStr.quote ["    var s = "; "a;b"; ";"]));
      (20, ln "    return total;") ]
  /\ issues_found (value (statement_scan mixed_statements_env)) =
       [ {| issue_file := "UserBot/UserBot.StrategicMind/Log.cs";
            issue_line := 20; issue_content := "return total;" |} ]
  /\ value (check_statement_endings mixed_statements_env) = false.
Proof. repeat split; vm_compute; reflexivity. Qed.


(* ===================================================================== *)
(** ** The thresholds in whole numbers *)
(* ===================================================================== *)




(* ===================================================================== *)
(** ** Rounding to the nearest float keeps the order *)
(* ===================================================================== *)

Section Binary64.
Local Open Scope Z_scope.

Lemma nearest_even_spec (n d : Z) :
  0 < d ->
  (2 * F64.nearest_even n d - 1) * d <= 2 * n <= (2 * F64.nearest_even n d + 1) * d
  /\ (2 * n = (2 * F64.nearest_even n d + 1) * d ->
      Z.even (F64.nearest_even n d) = true)
  /\ (2 * n = (2 * F64.nearest_even n d - 1) * d ->
      Z.even (F64.nearest_even n d) = true).
Proof.
  intros Hd. unfold F64.nearest_even.
  pose proof (Z.div_mod n d ltac:(lia)) as Hdm.
  pose proof (Z.mod_pos_bound n d Hd) as Hr.
  set (q := n / d) in *. set (r := n mod d) in *. clearbody q r.
  destruct (2 * r ?= d) eqn:Hcmp.
  - apply Z.compare_eq in Hcmp.
    destruct (Z.even q) eqn:Heven.
    + split; [nia|]. split; [intros _; exact Heven | intros H; exfalso; nia].
    + split; [nia|]. split; [intros H; exfalso; nia|].
      intros _. replace (q + 1) with (Z.succ q) by lia.
      rewrite Z.even_succ, <- Z.negb_even, Heven. reflexivity.
  - assert (Hlt : 2 * r < d) by exact Hcmp.
    split; [nia|]. split; intros H; exfalso; nia.
  - assert (Hgt : d < 2 * r) by (apply Z.compare_gt_iff; exact Hcmp).
    split; [nia|]. split; intros H; exfalso; nia.
Qed.

Lemma nearest_even_le (n d m : Z) :
  0 < d -> n <= m * d -> F64.nearest_even n d <= m.
Proof.
  intros Hd Hle. destruct (nearest_even_spec n d Hd) as [[Hlow _] _]. nia.
Qed.

Lemma nearest_even_ge (n d m : Z) :
  0 < d -> m * d <= n -> m <= F64.nearest_even n d.
Proof.
  intros Hd Hle. destruct (nearest_even_spec n d Hd) as [[_ Hup] _]. nia.
Qed.

Lemma nearest_even_mono (n1 d1 n2 d2 : Z) :
  0 < d1 -> 0 < d2 -> n1 * d2 <= n2 * d1 ->
  F64.nearest_even n1 d1 <= F64.nearest_even n2 d2.
Proof.
  intros Hd1 Hd2 Hle.
  destruct (nearest_even_spec n1 d1 Hd1) as [[Hlow1 _] [_ Htie1]].
  destruct (nearest_even_spec n2 d2 Hd2) as [[_ Hup2] [Htie2 _]].
  set (k1 := F64.nearest_even n1 d1) in *.
  set (k2 := F64.nearest_even n2 d2) in *.
  destruct (Z_le_gt_dec k1 k2) as [Hok|Hgt]; [exact Hok|]. exfalso.
  assert (H1 : (2 * k1 - 1) * d1 * d2 <= 2 * n1 * d2) by nia.
  assert (H2 : 2 * n2 * d1 <= (2 * k2 + 1) * d2 * d1) by nia.
  assert (H3 : (2 * k1 - 1) * (d1 * d2) <= (2 * k2 + 1) * (d1 * d2)) by nia.
  assert (Hpos : 0 < d1 * d2) by nia.
  assert (Hk : k1 = k2 + 1) by nia.
  assert (He1 : 2 * n1 = (2 * k1 - 1) * d1) by nia.
  assert (He2 : 2 * n2 = (2 * k2 + 1) * d2) by nia.
  specialize (Htie1 He1). specialize (Htie2 He2).
  rewrite Hk in Htie1. replace (k2 + 1) with (Z.succ k2) in Htie1 by lia.
  rewrite Z.even_succ, <- Z.negb_even, Htie2 in Htie1. discriminate Htie1.
Qed.

Lemma nearest_even_scale (c n d : Z) :
  0 < c -> 0 < d ->
  F64.nearest_even (c * n) (c * d) = F64.nearest_even n d.
Proof.
  intros Hc Hd. unfold F64.nearest_even.
  rewrite Z.div_mul_cancel_l by lia.
  rewrite Z.mul_mod_distr_l by lia.
  replace (2 * (c * (n mod d))) with (c * (2 * (n mod d))) by ring.
  rewrite <- (Zmult_compare_compat_l (2 * (n mod d)) d c) by lia.
  reflexivity.
Qed.

End Binary64.

Section Binary64Exponent.
Local Open Scope Z_scope.

Lemma pow2_pos (a : Z) : 0 <= a -> 0 < 2 ^ a.
Proof. intros Ha. apply Z.pow_pos_nonneg; lia. Qed.

Lemma pow2_succ (a : Z) : 0 <= a -> 2 ^ (a + 1) = 2 * 2 ^ a.
Proof. intros Ha. rewrite Z.pow_add_r by lia. rewrite Z.pow_1_r. ring. Qed.

Lemma pow2_le (a b : Z) : 0 <= a <= b -> 2 ^ a <= 2 ^ b.
Proof. intros H. apply Z.pow_le_mono_r; lia. Qed.

(** [exponent n d] is the integer part of the base 2 logarithm of
    [n / d]. *)
Lemma exponent_spec (n d : Z) :
  0 < n -> 0 < d ->
  pow_le (F64.exponent n d) n d /\ ~ pow_le (F64.exponent n d + 1) n d.
Proof.
  intros Hn Hd.
  pose proof (Z.log2_spec n Hn) as Ha. pose proof (Z.log2_spec d Hd) as Hb.
  pose proof (Z.log2_nonneg n) as Ha0. pose proof (Z.log2_nonneg d) as Hb0.
  unfold F64.exponent. cbv zeta.
  set (a := Z.log2 n) in *. set (b := Z.log2 d) in *. clearbody a b.
  replace (Z.succ a) with (a + 1) in Ha by lia.
  replace (Z.succ b) with (b + 1) in Hb by lia.
  rewrite pow2_succ in Ha, Hb by lia.
  destruct (0 <=? a - b) eqn:Hsign.
  - apply Z.leb_le in Hsign.
    assert (Hab : 2 ^ a = 2 ^ b * 2 ^ (a - b)).
    { rewrite <- Z.pow_add_r by lia. f_equal. lia. }
    pose proof (pow2_pos (a - b) Hsign) as Hw.
    destruct (d * 2 ^ (a - b) <=? n) eqn:Htest.
    + apply Z.leb_le in Htest. unfold pow_le.
      replace (0 <=? a - b) with true by (symmetry; apply Z.leb_le; lia).
      replace (0 <=? a - b + 1) with true by (symmetry; apply Z.leb_le; lia).
      split; [exact Htest|]. rewrite pow2_succ by lia. nia.
    + apply Z.leb_gt in Htest. unfold pow_le.
      replace (a - b - 1 + 1) with (a - b) by lia.
      replace (0 <=? a - b) with true by (symmetry; apply Z.leb_le; lia).
      split; [|lia].
      destruct (0 <=? a - b - 1) eqn:Hsign'.
      * apply Z.leb_le in Hsign'.
        pose proof (pow2_pos (a - b - 1) Hsign') as Hw'.
        assert (Hw2 : 2 ^ (a - b) = 2 * 2 ^ (a - b - 1)).
        { rewrite <- pow2_succ by lia. f_equal. lia. }
        nia.
      * apply Z.leb_gt in Hsign'.
        assert (Hzero : a - b = 0) by lia. rewrite Hzero in *.
        replace (- (0 - 1)) with 1 by lia.
        rewrite Z.pow_0_r in *. rewrite Z.pow_1_r. nia.
  - apply Z.leb_gt in Hsign.
    assert (Hab : 2 ^ b = 2 ^ a * 2 ^ (- (a - b))).
    { rewrite <- Z.pow_add_r by lia. f_equal. lia. }
    pose proof (pow2_pos (- (a - b)) ltac:(lia)) as Hm.
    destruct (d <=? n * 2 ^ (- (a - b))) eqn:Htest.
    + apply Z.leb_le in Htest. unfold pow_le.
      replace (0 <=? a - b) with false by (symmetry; apply Z.leb_gt; lia).
      split; [exact Htest|].
      destruct (0 <=? a - b + 1) eqn:Hsign'.
      * apply Z.leb_le in Hsign'.
        assert (Hone : a - b = -1) by lia. rewrite Hone in *.
        replace (-1 + 1) with 0 by lia. replace (- -1) with 1 in * by lia.
        rewrite Z.pow_0_r. rewrite Z.pow_1_r in *. nia.
      * apply Z.leb_gt in Hsign'.
        pose proof (pow2_pos (- (a - b + 1)) ltac:(lia)) as Hm'.
        assert (Hm2 : 2 ^ (- (a - b)) = 2 * 2 ^ (- (a - b + 1))).
        { rewrite <- pow2_succ by lia. f_equal. lia. }
        nia.
    + apply Z.leb_gt in Htest. unfold pow_le.
      replace (a - b - 1 + 1) with (a - b) by lia.
      replace (0 <=? a - b) with false by (symmetry; apply Z.leb_gt; lia).
      replace (0 <=? a - b - 1) with false by (symmetry; apply Z.leb_gt; lia).
      split; [|lia].
      assert (Hm2 : 2 ^ (- (a - b - 1)) = 2 * 2 ^ (- (a - b))).
      { rewrite <- pow2_succ by lia. f_equal. lia. }
      nia.
Qed.

(** The same comparison after a shift that makes every exponent
    non-negative. *)
Lemma pow_le_shift (a s n d : Z) :
  0 < n -> 0 < d -> 0 <= s -> 0 <= a + s ->
  pow_le a n d <-> d * 2 ^ (a + s) <= n * 2 ^ s.
Proof.
  intros Hn Hd Hs Has. unfold pow_le.
  pose proof (pow2_pos s Hs) as Hps.
  destruct (0 <=? a) eqn:Hsign.
  - apply Z.leb_le in Hsign. rewrite Z.pow_add_r by lia.
    pose proof (pow2_pos a Hsign) as Hpa. split; intros H; nia.
  - apply Z.leb_gt in Hsign.
    assert (Hsplit : 2 ^ s = 2 ^ (a + s) * 2 ^ (- a)).
    { rewrite <- Z.pow_add_r by lia. f_equal. lia. }
    pose proof (pow2_pos (a + s) Has) as Hpas.
    pose proof (pow2_pos (- a) ltac:(lia)) as Hpa.
    rewrite Hsplit. split; intros H; nia.
Qed.

Lemma exponent_upper (n d : Z) :
  0 < n -> 0 < d ->
  n * 2 ^ 1074 < d * 2 ^ (Z.max (F64.exponent n d) (-1022) + 1075).
Proof.
  intros Hn Hd. destruct (exponent_spec n d Hn Hd) as [_ Hup].
  set (e := F64.exponent n d) in *. clearbody e.
  destruct (Z_le_gt_dec 0 (e + 1 + 1074)) as [Hbig|Hsmall].
  - assert (Hlt : n * 2 ^ 1074 < d * 2 ^ (e + 1 + 1074)).
    { apply Z.nle_gt. intros H. apply Hup.
      apply (pow_le_shift (e + 1) 1074 n d); try lia. }
    assert (Hmono : 2 ^ (e + 1 + 1074) <= 2 ^ (Z.max e (-1022) + 1075))
      by (apply pow2_le; lia).
    nia.
  - unfold pow_le in Hup.
    replace (0 <=? e + 1) with false in Hup by (symmetry; apply Z.leb_gt; lia).
    assert (Hmono : 2 ^ 1074 <= 2 ^ (- (e + 1))) by (apply pow2_le; lia).
    replace (Z.max e (-1022) + 1075) with 53 by lia.
    pose proof (pow2_pos 53 ltac:(lia)) as H53.
    pose proof (pow2_pos 1074 ltac:(lia)) as H1074.
    assert (Hone : 1 <= 2 ^ 53) by lia.
    nia.
Qed.

Lemma exponent_lower (n d : Z) :
  0 < n -> 0 < d -> -1022 <= F64.exponent n d ->
  d * 2 ^ (F64.exponent n d + 1074) <= n * 2 ^ 1074.
Proof.
  intros Hn Hd He. destruct (exponent_spec n d Hn Hd) as [Hlow _].
  apply (pow_le_shift (F64.exponent n d) 1074 n d); try lia. exact Hlow.
Qed.

End Binary64Exponent.

Section Binary64Round.
Local Open Scope Z_scope.

Lemma scaled_round_nonneg (n d : Z) :
  0 < n -> 0 < d -> 0 <= scaled_round n d.
Proof.
  intros Hn Hd. unfold scaled_round. cbv zeta.
  set (P := Z.max (F64.exponent n d) (-1022) + 1022).
  pose proof (pow2_pos P ltac:(lia)) as HP.
  pose proof (pow2_pos 1074 ltac:(lia)) as HT.
  assert (Hk : 0 <= F64.nearest_even (n * 2 ^ 1074) (d * 2 ^ P))
    by (apply nearest_even_ge; nia).
  nia.
Qed.

Lemma scaled_round_significand (n d : Z) :
  0 < n -> 0 < d ->
  let P := Z.max (F64.exponent n d) (-1022) + 1022 in
  F64.nearest_even (n * 2 ^ 1074) (d * 2 ^ P) <= 2 ^ 53.
Proof.
  intros Hn Hd. cbv zeta.
  pose proof (exponent_upper n d Hn Hd) as Hup.
  set (E := Z.max (F64.exponent n d) (-1022)) in *.
  assert (HE : -1022 <= E) by lia. clearbody E.
  pose proof (pow2_pos (E + 1022) ltac:(lia)) as HP.
  apply nearest_even_le; [nia|].
  replace (E + 1075) with (53 + (E + 1022)) in Hup by lia.
  rewrite Z.pow_add_r in Hup by lia. nia.
Qed.

Lemma scaled_round_mono (n1 d1 n2 d2 : Z) :
  0 < n1 -> 0 < d1 -> 0 < d2 -> n1 * d2 <= n2 * d1 ->
  scaled_round n1 d1 <= scaled_round n2 d2.
Proof.
  intros Hn1 Hd1 Hd2 Hle.
  assert (Hn2 : 0 < n2) by nia.
  pose proof (exponent_upper n1 d1 Hn1 Hd1) as Hup1.
  pose proof (exponent_upper n2 d2 Hn2 Hd2) as Hup2.
  pose proof (exponent_lower n1 d1 Hn1 Hd1) as Hlow1.
  pose proof (exponent_lower n2 d2 Hn2 Hd2) as Hlow2.
  pose proof (scaled_round_significand n1 d1 Hn1 Hd1) as Hsig1.
  cbv zeta in Hsig1.
  unfold scaled_round. cbv zeta.
  set (e1 := F64.exponent n1 d1) in *. set (e2 := F64.exponent n2 d2) in *.
  clearbody e1 e2.
  pose proof (pow2_pos 1074 ltac:(lia)) as HT.
  set (T := 2 ^ 1074) in *.
  assert (Hexp : Z.max e1 (-1022) <= Z.max e2 (-1022)).
  { destruct (Z_le_gt_dec (Z.max e1 (-1022)) (Z.max e2 (-1022))) as [H|H];
      [exact H|]. exfalso.
    assert (He1 : -1022 <= e1) by lia. specialize (Hlow1 He1).
    replace (Z.max e1 (-1022)) with e1 in * by lia.
    assert (Hmono : 2 ^ (Z.max e2 (-1022) + 1075) <= 2 ^ (e1 + 1074))
      by (apply pow2_le; lia).
    pose proof (pow2_pos (e1 + 1074) ltac:(lia)) as HG.
    assert (H1 : d1 * d2 * 2 ^ (e1 + 1074) <= n1 * T * d2) by nia.
    assert (H2 : n2 * T * d1 < d2 * 2 ^ (Z.max e2 (-1022) + 1075) * d1) by nia.
    assert (H3 : n1 * T * d2 <= n2 * T * d1) by nia.
    nia. }
  set (E1 := Z.max e1 (-1022)) in *. set (E2 := Z.max e2 (-1022)) in *.
  pose proof (pow2_pos (E1 + 1022) ltac:(lia)) as HP1.
  pose proof (pow2_pos (E2 + 1022) ltac:(lia)) as HP2.
  destruct (Z.eq_dec E1 E2) as [Heq|Hne].
  - rewrite <- Heq.
    assert (Hk : F64.nearest_even (n1 * T) (d1 * 2 ^ (E1 + 1022))
                 <= F64.nearest_even (n2 * T) (d2 * 2 ^ (E1 + 1022))).
    { apply nearest_even_mono; nia. }
    nia.
  - assert (Hlt : E1 < E2) by lia.
    assert (He2 : -1022 <= e2) by lia. specialize (Hlow2 He2).
    assert (HE2 : E2 = e2) by lia.
    assert (Hk2 : 2 ^ 52 <= F64.nearest_even (n2 * T) (d2 * 2 ^ (E2 + 1022))).
    { apply nearest_even_ge; [nia|].
      rewrite <- HE2 in Hlow2.
      replace (E2 + 1074) with (52 + (E2 + 1022)) in Hlow2 by lia.
      rewrite Z.pow_add_r in Hlow2 by lia. nia. }
    assert (Hgrid : 2 * 2 ^ (E1 + 1022) <= 2 ^ (E2 + 1022)).
    { rewrite <- pow2_succ by lia. apply pow2_le. lia. }
    assert (H53 : 2 ^ 53 = 2 * 2 ^ 52) by reflexivity.
    pose proof (pow2_pos 52 ltac:(lia)) as H52.
    set (k1 := F64.nearest_even (n1 * T) (d1 * 2 ^ (E1 + 1022))) in *.
    set (k2 := F64.nearest_even (n2 * T) (d2 * 2 ^ (E2 + 1022))) in *.
    clearbody k1 k2.
    assert (Ha : k1 * 2 ^ (E1 + 1022) <= 2 ^ 53 * 2 ^ (E1 + 1022)) by nia.
    assert (Hb : 2 ^ 52 * 2 ^ (E2 + 1022) <= k2 * 2 ^ (E2 + 1022)) by nia.
    assert (Hc : 2 ^ 53 * 2 ^ (E1 + 1022) <= 2 ^ 52 * 2 ^ (E2 + 1022)) by nia.
    lia.
Qed.

(** [round], from the scaled value. *)
Lemma round_scaled (x : Q) :
  0 < Qnum x ->
  let u := scaled_round (Qnum x) (Zpos (Qden x)) in
  (F64.round x = F64.Infinity /\ 2 ^ 2098 <= u)
  \/ (exists q, F64.round x = F64.Finite q
                /\ (q == u # Z.to_pos (2 ^ 1074))%Q
                /\ u < 2 ^ 2098).
Proof.
  intros Hn. cbv zeta.
  pose proof (scaled_round_significand (Qnum x) (Zpos (Qden x)) Hn ltac:(lia))
    as Hsig. cbv zeta in Hsig.
  unfold F64.round, scaled_round. cbv zeta.
  replace (Qnum x <=? 0) with false by (symmetry; apply Z.leb_gt; exact Hn).
  set (n := Qnum x) in *. set (d := Zpos (Qden x)) in *.
  assert (Hd : 0 < d) by (unfold d; lia).
  set (E := Z.max (F64.exponent n d) (-1022)) in *.
  assert (HE : -1022 <= E) by lia. clearbody E n d.
  pose proof (pow2_pos 1074 ltac:(lia)) as HT.
  pose proof (pow2_pos (E + 1022) ltac:(lia)) as HP.
  assert (Hto : Zpos (Z.to_pos (2 ^ 1074)) = 2 ^ 1074) by (apply Z2Pos.id; lia).
  destruct (0 <=? E - 52) eqn:Hsign.
  - apply Z.leb_le in Hsign.
    pose proof (pow2_pos (E - 52) Hsign) as Hp.
    assert (Hsplit : 2 ^ (E + 1022) = 2 ^ 1074 * 2 ^ (E - 52)).
    { rewrite <- Z.pow_add_r by lia. f_equal. lia. }
    assert (Hk : F64.nearest_even (n * 2 ^ 1074) (d * 2 ^ (E + 1022)) =
                 F64.nearest_even n (d * 2 ^ (E - 52))).
    { rewrite <- (nearest_even_scale (2 ^ 1074) n (d * 2 ^ (E - 52))) by nia.
      f_equal; [ring | rewrite Hsplit; ring]. }
    rewrite Hk.
    set (k := F64.nearest_even n (d * 2 ^ (E - 52))) in *. clearbody k.
    assert (H2098 : 2 ^ 2098 = 2 ^ 1024 * 2 ^ 1074).
    { rewrite <- Z.pow_add_r by lia. reflexivity. }
    destruct (2 ^ 1024 <=? k * 2 ^ (E - 52)) eqn:Hover.
    + apply Z.leb_le in Hover. left. split; [reflexivity|].
      rewrite Hsplit, H2098. nia.
    + apply Z.leb_gt in Hover. right. exists (inject_Z (k * 2 ^ (E - 52))).
      split; [reflexivity|]. split.
      * unfold Qeq, inject_Z. cbn [Qnum Qden]. rewrite Hto, Hsplit. ring.
      * rewrite Hsplit, H2098. nia.
  - apply Z.leb_gt in Hsign.
    pose proof (pow2_pos (- (E - 52)) ltac:(lia)) as Hp.
    assert (Hsplit : 2 ^ 1074 = 2 ^ (E + 1022) * 2 ^ (- (E - 52))).
    { rewrite <- Z.pow_add_r by lia. f_equal. lia. }
    assert (Hk : F64.nearest_even (n * 2 ^ 1074) (d * 2 ^ (E + 1022)) =
                 F64.nearest_even (n * 2 ^ (- (E - 52))) d).
    { rewrite <- (nearest_even_scale (2 ^ (E + 1022)) (n * 2 ^ (- (E - 52))) d)
        by lia.
      f_equal; [rewrite Hsplit; ring | ring]. }
    rewrite Hk in *.
    set (k := F64.nearest_even (n * 2 ^ (- (E - 52))) d) in *. clearbody k.
    right. exists (Qred (k # Z.to_pos (2 ^ (- (E - 52))))).
    split; [reflexivity|]. split.
    + rewrite Qred_correct. unfold Qeq. cbn [Qnum Qden].
      rewrite Hto, Z2Pos.id by lia. rewrite Hsplit. ring.
    + assert (Hgrid : 2 ^ (E + 1022) <= 2 ^ 1073) by (apply pow2_le; lia).
      assert (Hbig : 2 ^ 53 * 2 ^ 1073 < 2 ^ 2098).
      { rewrite <- Z.pow_add_r by lia. apply Z.pow_lt_mono_r; lia. }
      pose proof (pow2_pos 53 ltac:(lia)) as H53.
      nia.
Qed.

Lemma round_mono (x y : Q) :
  (x <= y)%Q -> F64.le (F64.round x) (F64.round y).
Proof.
  intros Hle.
  assert (Hto : Zpos (Z.to_pos (2 ^ 1074)) = 2 ^ 1074)
    by (apply Z2Pos.id; apply pow2_pos; lia).
  pose proof (pow2_pos 1074 ltac:(lia)) as HT.
  destruct (Z_lt_le_dec 0 (Qnum y)) as [Hy|Hy].
  2:{ assert (Hx : Qnum x <= 0) by (unfold Qle in Hle; nia).
      unfold F64.round.
      replace (Qnum x <=? 0) with true by (symmetry; apply Z.leb_le; exact Hx).
      replace (Qnum y <=? 0) with true by (symmetry; apply Z.leb_le; exact Hy).
      cbn [F64.le]. apply Qle_refl. }
  pose proof (scaled_round_nonneg (Qnum y) (Zpos (Qden y)) Hy ltac:(lia)) as Huy.
  destruct (Z_lt_le_dec 0 (Qnum x)) as [Hx|Hx].
  - pose proof (scaled_round_mono (Qnum x) (Zpos (Qden x)) (Qnum y) (Zpos (Qden y))
                  Hx ltac:(lia) ltac:(lia) Hle) as Hmono.
    destruct (round_scaled x Hx) as [[-> Hux]|(qx & -> & Hqx & Hux)];
      destruct (round_scaled y Hy) as [[-> Huy']|(qy & -> & Hqy & Huy')];
      cbn [F64.le]; try exact I; cbv zeta in *.
    + lia.
    + rewrite Hqx, Hqy. unfold Qle. cbn [Qnum Qden]. rewrite Hto. nia.
  - unfold F64.round at 1.
    replace (Qnum x <=? 0) with true by (symmetry; apply Z.leb_le; exact Hx).
    destruct (round_scaled y Hy) as [[-> _]|(qy & -> & Hqy & _)];
      cbn [F64.le]; [exact I|].
    rewrite Hqy. unfold Qle. cbn [Qnum Qden]. cbv zeta in Huy. nia.
Qed.

End Binary64Round.

Section Binary64Estimate.

Lemma f64_le_infinity (a : F64.t) : F64.le a F64.Infinity.
Proof. destruct a; exact I. Qed.

Lemma f64_div_mono (a b : F64.t) (k : Z) :
  (0 < k)%Z -> F64.le a b -> F64.le (F64.div a k) (F64.div b k).
Proof.
  intros Hk Hle. destruct a as [x|], b as [y|]; cbn [F64.div].
  - apply round_mono. cbn [F64.le] in Hle.
    unfold Qdiv. apply Qmult_le_compat_r; [exact Hle|].
    apply Qinv_le_0_compat. unfold Qle, inject_Z. cbn [Qnum Qden]. lia.
  - apply f64_le_infinity.
  - destruct Hle.
  - exact I.
Qed.

Lemma f64_mul_mono (a b : F64.t) (k : Z) :
  (0 < k)%Z -> F64.le a b -> F64.le (F64.mul a k) (F64.mul b k).
Proof.
  intros Hk Hle. destruct a as [x|], b as [y|]; cbn [F64.mul].
  - apply round_mono. cbn [F64.le] in Hle.
    apply Qmult_le_compat_r; [exact Hle|].
    unfold Qle, inject_Z. cbn [Qnum Qden]. lia.
  - apply f64_le_infinity.
  - destruct Hle.
  - exact I.
Qed.

Lemma estimated_api_time_mono (a b : F64.t) :
  F64.le a b -> F64.le (estimated_api_time a) (estimated_api_time b).
Proof.
  intros Hle. unfold estimated_api_time, avg_time_ms.
  apply f64_div_mono; [lia|]. apply f64_mul_mono; [lia|]. apply f64_div_mono; [lia|].
  exact Hle.
Qed.

Lemma estimate_at_threshold :
  estimated_api_time (F64.Finite (207 # 2)) = F64.Finite (inject_Z 300).
Proof. vm_compute. reflexivity. Qed.

Lemma estimate_below_threshold :
  exists r, estimated_api_time (F64.Finite below_threshold) = F64.Finite r
            /\ Qle_bool (inject_Z 300) r = false.
Proof. eexists. split; vm_compute; reflexivity. Qed.

Local Open Scope Z_scope.

(** A float below 103.5 is at most the float just before. *)
Lemma scaled_round_below_threshold (n d : Z) :
  0 < n -> 0 < d ->
  scaled_round n d < 207 * 2 ^ 1073 ->
  scaled_round n d <= 207 * 2 ^ 1073 - 2 ^ 1028.
Proof.
  intros Hn Hd.
  pose proof (scaled_round_significand n d Hn Hd) as Hsig. cbv zeta in Hsig.
  unfold scaled_round. cbv zeta.
  set (E := Z.max (F64.exponent n d) (-1022)) in *.
  assert (HE : -1022 <= E) by lia. clearbody E.
  set (k := F64.nearest_even (n * 2 ^ 1074) (d * 2 ^ (E + 1022))) in *.
  clearbody k.
  pose proof (pow2_pos 1028 ltac:(lia)) as HG.
  assert (H1073 : 2 ^ 1073 = 2 ^ 45 * 2 ^ 1028).
  { rewrite <- Z.pow_add_r by lia. reflexivity. }
  rewrite H1073.
  destruct (Z_le_gt_dec 1028 (E + 1022)) as [Hcoarse|Hfine].
  - assert (Hsplit : 2 ^ (E + 1022) = 2 ^ (E + 1022 - 1028) * 2 ^ 1028).
    { rewrite <- Z.pow_add_r by lia. f_equal. lia. }
    rewrite Hsplit.
    set (G := 2 ^ 1028) in *. set (w := k * 2 ^ (E + 1022 - 1028)).
    intros Hlt.
    assert (Hw : w < 207 * 2 ^ 45) by (subst w; nia).
    assert (Hw' : w <= 207 * 2 ^ 45 - 1) by lia.
    replace (k * (2 ^ (E + 1022 - 1028) * G)) with (w * G) by (subst w; ring).
    nia.
  - intros _.
    assert (Hgrid : 2 ^ (E + 1022) <= 2 ^ 1027) by (apply pow2_le; lia).
    pose proof (pow2_pos (E + 1022) ltac:(lia)) as HP.
    assert (H53 : 0 < 2 ^ 53) by (apply pow2_pos; lia).
    assert (Hu : k * 2 ^ (E + 1022) <= 2 ^ 53 * 2 ^ 1027) by nia.
    assert (Hc : 2 ^ 53 * 2 ^ 1027 = 2 ^ 52 * 2 ^ 1028).
    { rewrite <- !Z.pow_add_r by lia. reflexivity. }
    set (G := 2 ^ 1028) in *.
    assert (H52 : 2 ^ 52 <= 207 * 2 ^ 45 - 1) by (vm_compute; discriminate).
    nia.
Qed.

Lemma round_below_threshold (x q : Q) :
  F64.round x = F64.Finite q ->
  Qle_bool (207 # 2) q = false ->
  (q <= below_threshold)%Q.
Proof.
  intros Hround Hlow.
  assert (Hlt : (q < 207 # 2)%Q).
  { apply Qnot_le_lt. intros H. apply Qle_bool_iff in H.
    rewrite H in Hlow. discriminate Hlow. }
  destruct (Z_lt_le_dec 0 (Qnum x)) as [Hx|Hx].
  - destruct (round_scaled x Hx) as [[Hinf _]|(q' & Hfin & Hq & _)].
    { rewrite Hinf in Hround. discriminate Hround. }
    rewrite Hfin in Hround. injection Hround as ->. cbv zeta in Hq.
    pose proof (scaled_round_below_threshold (Qnum x) (Zpos (Qden x)) Hx
                  ltac:(lia)) as Hgrid.
    set (u := scaled_round (Qnum x) (Zpos (Qden x))) in *. clearbody u.
    assert (Hto : Zpos (Z.to_pos (2 ^ 1074)) = 2 ^ 1074)
      by (apply Z2Pos.id; apply pow2_pos; lia).
    assert (H1074 : 2 ^ 1074 = 2 * 2 ^ 1073) by (rewrite <- pow2_succ by lia; reflexivity).
    assert (H1073 : 2 ^ 1073 = 2 ^ 45 * 2 ^ 1028).
    { rewrite <- Z.pow_add_r by lia. reflexivity. }
    pose proof (pow2_pos 1028 ltac:(lia)) as HG.
    rewrite Hq in Hlt. rewrite Hq.
    unfold Qlt in Hlt. cbn [Qnum Qden] in Hlt. rewrite Hto in Hlt.
    assert (Hu : u < 207 * 2 ^ 1073) by lia.
    specialize (Hgrid Hu).
    unfold Qle, below_threshold. cbn [Qnum Qden]. rewrite Hto.
    change (Zpos (2 ^ 46)) with (2 ^ 46).
    rewrite H1074, H1073 in *.
    set (G := 2 ^ 1028) in *. clearbody G.
    change (2 ^ 46) with (2 * 2 ^ 45). nia.
  - unfold F64.round in Hround.
    replace (Qnum x <=? 0) with true in Hround
      by (symmetry; apply Z.leb_le; exact Hx).
    injection Hround as <-. vm_compute. discriminate.
Qed.

(** In seconds: the estimate is below 300 exactly for a float below
    103.5. *)
Lemma estimate_threshold (x : Q) :
  F64.ltb (estimated_api_time (F64.round x)) 300 =
    match F64.round x with
    | F64.Finite seconds => negb (Qle_bool (207 # 2) seconds)
    | F64.Infinity => false
    end.
Proof.
  destruct (F64.round x) as [q|] eqn:Hround; [|reflexivity].
  destruct (Qle_bool (207 # 2) q) eqn:Hcmp; cbn [negb].
  - apply Qle_bool_iff in Hcmp.
    pose proof (estimated_api_time_mono (F64.Finite (207 # 2)) (F64.Finite q) Hcmp)
      as Hmono.
    rewrite estimate_at_threshold in Hmono.
    destruct (estimated_api_time (F64.Finite q)) as [r|]; [|reflexivity].
    cbn [F64.le] in Hmono. cbn [F64.ltb].
    apply Qle_bool_iff in Hmono. rewrite Hmono. reflexivity.
  - pose proof (round_below_threshold x q Hround Hcmp) as Hgrid.
    pose proof (estimated_api_time_mono (F64.Finite q) (F64.Finite below_threshold)
                  Hgrid) as Hmono.
    destruct estimate_below_threshold as (r & Hr & Hbelow).
    rewrite Hr in Hmono.
    destruct (estimated_api_time (F64.Finite q)) as [r'|]; [|destruct Hmono].
    cbn [F64.le] in Hmono. cbn [F64.ltb].
    destruct (Qle_bool (inject_Z 300) r') eqn:Hr'; [|reflexivity].
    apply Qle_bool_iff in Hr'.
    assert (Hcontra : Qle_bool (inject_Z 300) r = true).
    { apply Qle_bool_iff. apply (Qle_trans _ r'); assumption. }
    rewrite Hcontra in Hbelow. discriminate Hbelow.
Qed.

End Binary64Estimate.

Lemma py_float_rounds (s : string) (t : F64.t) :
  py_float s = Some t -> exists x, t = F64.round x.
Proof.
  unfold py_float. destruct (span is_digit s) as [int_part rest].
  destruct rest as [|c frac_part].
  - destruct (PyStr.nonempty int_part); [|discriminate].
    intros [= <-]. eexists. reflexivity.
  - destruct (Ascii.eqb c "."%char
              && forallb is_digit (list_ascii_of_string frac_part)
              && (PyStr.nonempty int_part || PyStr.nonempty frac_part));
      [|discriminate].
    intros [= <-]. eexists. reflexivity.
Qed.

(** X22. In seconds: when a total time is available, the execution-time
    check closes with the success line if the time read from the timing
    line, a float, is below 103.5 seconds, and with the warning that the
    estimate approaches the limit from 103.5 seconds on; the three
    roundings of the estimate do not move this threshold. *)
Theorem check_execution_time_in_seconds (env : environment) (u : unhandled)
    (total_time : F64.t) :
  aggregate_timing env = Some total_time ->
  last (printed (Process.check_execution_time env u)) (Header "") =
    if match total_time with
       | F64.Finite seconds => Qle_bool (207 # 2) seconds
       | F64.Infinity => true
       end
    then Warning [Lit "Estimated API execution time (";
                  F64.fixed 2 (estimated_api_time total_time);
                  Lit " ms) approaches limit"]
    else Success [Lit "Estimated API execution time (";
                  F64.fixed 2 (estimated_api_time total_time);
                  Lit " ms) is well below "; Int 300; Lit " ms"].
Proof.
  rewrite process_check_execution_time. cbn [printed snd].
  unfold aggregate_timing, check_execution_time.
  destruct (perf_setup env) as [[]|e]; [|discriminate].
  destruct (perf_build env) as [b|e]; [|discriminate].
  destruct (perf_test_run env) as [r|e]; [|discriminate].
  destruct (PyStr.contains "Total time:" (stdout r)); [|discriminate].
  destruct (search_total_time (stdout r)) as [g|]; [|discriminate].
  intros Hfloat. rewrite Hfloat.
  destruct (py_float_rounds g total_time Hfloat) as [x ->].
  cbv zeta. unfold MAX_EXECUTION_TIME_MS. rewrite estimate_threshold.
  destruct (F64.round x) as [seconds|]; [|reflexivity].
  destruct (Qle_bool (207 # 2) seconds); reflexivity.
Qed.

Lemma check_execution_time_in_seconds_witness :
  last (printed (Process.check_execution_time rounded_env nothing_raises))
       (Header "") =
    Warning [Lit "Estimated API execution time ("; Fixed 2 (inject_Z 300);
             Lit " ms) approaches limit"].
Proof.
  exact (check_execution_time_in_seconds rounded_env nothing_raises
           (F64.Finite (207 # 2)) eq_refl).
Defined.

(* ===================================================================== *)
(** ** The timing line *)
(* ===================================================================== *)

Lemma drop_prefix_some (p s r : string) :
  drop_prefix p s = Some r -> s = (p ++ r)%string.
Proof.
  revert s. induction p as [|a p IH]; intros s; simpl.
  - intros [= ->]. reflexivity.
  - destruct s as [|b s]; [discriminate|].
    destruct (Ascii.eqb_spec a b) as [->|Hne]; [|discriminate].
    intros Hdrop. rewrite (IH s Hdrop). reflexivity.
Qed.

Lemma drop_prefix_app (p r : string) : drop_prefix p (p ++ r) = Some r.
Proof.
  induction p as [|a p IH]; simpl; [reflexivity|].
  rewrite Ascii.eqb_refl. exact IH.
Qed.

Lemma prefix_app (p r : string) : String.prefix p (p ++ r) = true.
Proof.
  induction p as [|a p IH]; simpl.
  - destruct r; reflexivity.
  - destruct (ascii_dec a a) as [_|Hne]; [exact IH | contradiction].
Qed.

Lemma prefix_some (p s : string) :
  String.prefix p s = true -> exists r, s = (p ++ r)%string.
Proof.
  revert s. induction p as [|a p IH]; intros s.
  - intros _. exists s. reflexivity.
  - destruct s as [|b s]; simpl; [discriminate|].
    destruct (ascii_dec a b) as [->|Hne]; [|discriminate].
    intros Hp. destruct (IH s Hp) as [r ->]. exists r. reflexivity.
Qed.

Lemma contains_app (sub pre post : string) :
  PyStr.contains sub (pre ++ sub ++ post) = true.
Proof.
  induction pre as [|c pre IH].
  - change (EmptyString ++ sub ++ post)%string with (sub ++ post)%string.
    pose proof (prefix_app sub post) as Hp.
    destruct (sub ++ post)%string; cbn [PyStr.contains]; rewrite Hp; reflexivity.
  - change (String c pre ++ sub ++ post)%string
      with (String c (pre ++ sub ++ post))%string.
    cbn [PyStr.contains]. rewrite IH. apply orb_true_r.
Qed.

Lemma span_some (p : ascii -> bool) (s a b : string) :
  span p s = (a, b) ->
  s = (a ++ b)%string /\ forallb p (list_ascii_of_string a) = true.
Proof.
  revert a b. induction s as [|c s IH]; intros a b; simpl.
  - intros [= <- <-]. split; reflexivity.
  - destruct (p c) eqn:Hc.
    + destruct (span p s) as [a' b'] eqn:Hspan. intros [= <- <-].
      destruct (IH a' b' eq_refl) as [-> Hall]. split; [reflexivity|].
      simpl. rewrite Hc, Hall. reflexivity.
    + intros [= <- <-]. split; reflexivity.
Qed.

Lemma span_app (p : ascii -> bool) (a : string) (c : ascii) (r : string) :
  forallb p (list_ascii_of_string a) = true ->
  p c = false ->
  span p (a ++ String c r) = (a, String c r).
Proof.
  intros Hall Hc. induction a as [|x a IH]; simpl in *.
  - rewrite Hc. reflexivity.
  - apply andb_true_iff in Hall. destruct Hall as [Hx Hall].
    rewrite Hx, (IH Hall). reflexivity.
Qed.

Lemma match_total_time_some (s g : string) :
  match_total_time s = Some g ->
  g <> EmptyString
  /\ forallb is_digit_or_dot (list_ascii_of_string g) = true
  /\ exists post, s = ("Total time: " ++ g ++ " Seconds" ++ post)%string.
Proof.
  unfold match_total_time.
  destruct (drop_prefix "Total time: " s) as [rest|] eqn:Hdrop; [|discriminate].
  destruct (span is_digit_or_dot rest) as [group after] eqn:Hspan.
  destruct (PyStr.nonempty group) eqn:Hne; [|discriminate]. simpl.
  destruct (PyStr.startswith " Seconds" after) eqn:Hsec; [|discriminate].
  intros [= <-].
  apply drop_prefix_some in Hdrop. apply span_some in Hspan.
  destruct Hspan as [-> Hall]. apply prefix_some in Hsec.
  destruct Hsec as [post ->].
  split; [intros ->; discriminate Hne|]. split; [exact Hall|].
  exists post. exact Hdrop.
Qed.

Lemma match_total_time_app (g post : string) :
  g <> EmptyString ->
  forallb is_digit_or_dot (list_ascii_of_string g) = true ->
  match_total_time ("Total time: " ++ g ++ " Seconds" ++ post) = Some g.
Proof.
  intros Hne Hall. unfold match_total_time.
  rewrite drop_prefix_app.
  change (" Seconds" ++ post)%string with (String " " ("Seconds" ++ post))%string.
  rewrite (span_app is_digit_or_dot g " " _ Hall eq_refl).
  change (String " " ("Seconds" ++ post))%string with (" Seconds" ++ post)%string.
  unfold PyStr.startswith. rewrite prefix_app.
  destruct g; [contradiction|]. reflexivity.
Qed.

Lemma search_total_time_here (s g : string) :
  match_total_time s = Some g -> search_total_time s = Some g.
Proof.
  intros Hhere. destruct s; cbn [search_total_time]; rewrite Hhere; reflexivity.
Qed.

(** X23. What the search for [Total time: ([\d.]+) Seconds] finds.  A
    result is a non-empty run of digits and dots that stands in the text
    between [Total time: ] and [ Seconds]; and a result is found as soon
    as the text holds such a run at some place.  A text with a result
    holds [Total time:], so the test the script makes before the search
    never hides a match. *)
Theorem search_total_time_finds_the_timing (s : string) :
  (forall g, search_total_time s = Some g ->
     g <> EmptyString
     /\ forallb is_digit_or_dot (list_ascii_of_string g) = true
     /\ (exists pre post,
           s = (pre ++ "Total time: " ++ g ++ " Seconds" ++ post)%string)
     /\ PyStr.contains "Total time:" s = true)
  /\ (forall pre g post,
        s = (pre ++ "Total time: " ++ g ++ " Seconds" ++ post)%string ->
        g <> EmptyString ->
        forallb is_digit_or_dot (list_ascii_of_string g) = true ->
        exists g', search_total_time s = Some g').
Proof.
  split.
  - induction s as [|c s IH]; intros g Hfound.
    + simpl in Hfound. discriminate Hfound.
    + cbn [search_total_time] in Hfound.
      destruct (match_total_time (String c s)) as [g0|] eqn:Hhere.
      * injection Hfound as <-.
        destruct (match_total_time_some _ _ Hhere) as [Hne [Hall [post Hs]]].
        split; [exact Hne|]. split; [exact Hall|]. split.
        -- exists EmptyString, post. exact Hs.
        -- rewrite Hs.
           change ("Total time: " ++ g0 ++ " Seconds" ++ post)%string
             with ("" ++ "Total time:" ++ (" " ++ g0 ++ " Seconds" ++ post))%string.
           apply contains_app.
      * destruct (IH g Hfound) as [Hne [Hall [[pre [post Hs]] Hguard]]].
        split; [exact Hne|]. split; [exact Hall|]. split.
        -- exists (String c pre), post. rewrite Hs. reflexivity.
        -- cbn [PyStr.contains]. rewrite Hguard. apply orb_true_r.
  - intros pre g post -> Hne Hall.
    induction pre as [|c pre IH].
    + exists g. apply search_total_time_here.
      apply (match_total_time_app g post Hne Hall).
    + destruct IH as [g' Hg'].
      change (String c pre ++ "Total time: " ++ g ++ " Seconds" ++ post)%string
        with (String c (pre ++ "Total time: " ++ g ++ " Seconds" ++ post))%string.
      cbn [search_total_time].
      destruct (match_total_time
                  (String c (pre ++ "Total time: " ++ g ++ " Seconds" ++ post)))
        as [g0|]; [exists g0; reflexivity | exists g'; exact Hg'].
Qed.

Lemma search_total_time_finds_the_timing_witness :
  exists g', search_total_time "Passed!  Total time: 1.38 Seconds" = Some g'.
Proof.
  destruct (search_total_time_finds_the_timing "Passed!  Total time: 1.38 Seconds")
    as [_ Hfound].
  apply (Hfound "Passed!  " "1.38" "").
  - reflexivity.
  - discriminate.
  - reflexivity.
Defined.

(* ===================================================================== *)
(** ** Sending an archive *)
(* ===================================================================== *)

Section UploadLemmas.
Variable basename : string -> string.
Variable repr : Upload.json -> string.

Lemma extract_raised (entries : list (string * Upload.attempt string))
    (x : Upload.exc) :
  fold_left (fun files_data entry => Upload.extract_entry basename entry files_data)
            entries (Upload.Raise x) = Upload.Raise x.
Proof. induction entries as [|entry entries IH]; simpl; [reflexivity | exact IH]. Qed.

Lemma extract_from (entries : list (string * Upload.attempt string)) :
  forall files,
    fold_left (fun files_data entry => Upload.extract_entry basename entry files_data)
              entries (Upload.Done files) =
      match Upload.first_failure entries with
      | Some x => Upload.Raise x
      | None => Upload.Done (files ++ Upload.sent_files basename entries)
      end.
Proof.
  induction entries as [|[name content] entries IH]; intros files; simpl.
  - rewrite app_nil_r. reflexivity.
  - destruct (Upload.skipped name); simpl.
    + apply IH.
    + destruct content as [code|x]; simpl.
      * rewrite IH. destruct (Upload.first_failure entries); [reflexivity|].
        rewrite <- app_assoc. reflexivity.
      * apply extract_raised.
Qed.

Lemma first_failure_some (entries : list (string * Upload.attempt string))
    (x : Upload.exc) :
  Upload.first_failure entries = Some x ->
  exists name, In (name, Upload.Raise x) entries /\ Upload.skipped name = false.
Proof.
  induction entries as [|[name content] entries IH]; simpl; [discriminate|].
  destruct (Upload.skipped name) eqn:Hskip.
  - intros H. destruct (IH H) as [n [Hin Hn]]. exists n. split; [right|]; assumption.
  - destruct content as [code|y].
    + intros H. destruct (IH H) as [n [Hin Hn]]. exists n. split; [right|]; assumption.
    + intros [= ->]. exists name. split; [left; reflexivity | exact Hskip].
Qed.

Lemma first_failure_none (entries : list (string * Upload.attempt string)) :
  Upload.first_failure entries = None ->
  (forall name x, In (name, Upload.Raise x) entries -> Upload.skipped name = true)
  /\ map Upload.FileName (Upload.sent_files basename entries) =
       map (fun entry => basename (fst entry))
           (filter (fun entry => negb (Upload.skipped (fst entry))) entries).
Proof.
  induction entries as [|[name content] entries IH]; simpl.
  - intros _. split; [intros name x []|reflexivity].
  - destruct (Upload.skipped name) eqn:Hskip; simpl.
    + intros H. destruct (IH H) as [Hall Hnames]. split; [|exact Hnames].
      intros n x [[= <- _]|Hin]; [exact Hskip | apply (Hall n x Hin)].
    + destruct content as [code|y]; [|discriminate].
      intros H. destruct (IH H) as [Hall Hnames]. split.
      * intros n x [Heq|Hin]; [discriminate Heq | apply (Hall n x Hin)].
      * simpl. rewrite Hnames. reflexivity.
Qed.

(** X24. The files taken from an archive.  Entries whose name ends with
    [/] or starts with [.] are skipped without being read.  If reading an
    entry that is not skipped raises, the loop ends with that exception.
    Otherwise there is one file per entry that is not skipped, in the
    order of the archive, named by the base name of the entry. *)
Theorem extract_takes_unskipped_entries
    (entries : list (string * Upload.attempt string)) :
  match Upload.extract basename entries with
  | Upload.Done files =>
      files = Upload.sent_files basename entries
      /\ map Upload.FileName files =
           map (fun entry => basename (fst entry))
               (filter (fun entry => negb (Upload.skipped (fst entry))) entries)
      /\ (forall name x, In (name, Upload.Raise x) entries ->
                         Upload.skipped name = true)
  | Upload.Raise x =>
      exists name, In (name, Upload.Raise x) entries /\ Upload.skipped name = false
  end.
Proof.
  unfold Upload.extract. rewrite extract_from.
  destruct (Upload.first_failure entries) as [x|] eqn:Hfail.
  - apply first_failure_some. exact Hfail.
  - destruct (first_failure_none entries Hfail) as [Hall Hnames].
    split; [reflexivity|]. split; [exact Hnames | exact Hall].
Qed.

Lemma extract_nothing (entries : list (string * Upload.attempt string)) :
  (forall name, In name (map fst entries) -> Upload.skipped name = true) ->
  Upload.extract basename entries = Upload.Done [].
Proof.
  intros Hall. unfold Upload.extract.
  assert (Hgen : forall files,
             fold_left (fun files_data entry =>
                          Upload.extract_entry basename entry files_data)
                       entries (Upload.Done files) = Upload.Done files).
  { induction entries as [|[name content] entries IH]; intros files; simpl.
    - reflexivity.
    - rewrite (Hall name (or_introl eq_refl)). apply IH.
      intros n Hn. apply Hall. right. exact Hn. }
  apply Hgen.
Qed.

(** X25. An archive in which every entry is a folder or a hidden file at
    the top gives no file to send: [verify_bot_submission] and
    [submit_bot_to_tournament] both answer that no valid file was found,
    print nothing, and do not depend on the API, which is not called. *)
Theorem no_valid_files_is_answered_locally (zip_file_path team_name : string)
    (overwrite : bool) (env : Upload.environment)
    (entries : list (string * Upload.attempt string)) :
  Upload.path_exists env = true ->
  Upload.open_zip env = Upload.Done entries ->
  (forall name, In name (map fst entries) -> Upload.skipped name = true) ->
  Upload.verify_bot_submission basename repr zip_file_path team_name env =
    (Upload.Failed "No valid files found in ZIP archive", [])
  /\ Upload.submit_bot_to_tournament basename zip_file_path team_name overwrite env =
    (Upload.Failed "No valid files found in ZIP archive", []).
Proof.
  intros Hexists Hopen Hall.
  unfold Upload.verify_bot_submission, Upload.submit_bot_to_tournament.
  rewrite Hexists, Hopen, (extract_nothing entries Hall). split; reflexivity.
Qed.

(** X26. [verify_bot_submission] gives a verification result only when
    the path exists, the archive opens, at least one file is taken from
    it, the request with the team name and those files is answered with
    status 200 and the body decodes to an object.  The result then counts
    the files sent, keeps the body, and takes [success] from the body's
    [success], or from its [isValid] when [success] is missing, or [False]
    when both are.  Every other case is answered with an error. *)
Theorem verify_bot_submission_result (zip_file_path team_name : string)
    (env : Upload.environment) :
  match value (Upload.verify_bot_submission basename repr zip_file_path
                 team_name env) with
  | Upload.Verified success is_valid message errors warnings files_verified raw =>
      exists entries files response fields,
        Upload.path_exists env = true
        /\ Upload.open_zip env = Upload.Done entries
        /\ Upload.extract basename entries = Upload.Done files
        /\ files <> []
        /\ files_verified = length files
        /\ Upload.post env "http://localhost:8080/api/bots/verify"
             {| Upload.TeamName := team_name; Upload.Files := files;
                Upload.Overwrite := None |} = Upload.Done response
        /\ Upload.status_code response = 200
        /\ Upload.json_body response = Upload.Done (Upload.JObject fields)
        /\ raw = Upload.JObject fields
        /\ is_valid = match PyDict.get "isValid" fields with
                      | Some v => v
                      | None => Upload.JBool false
                      end
        /\ success = match PyDict.get "success" fields with
                     | Some v => v
                     | None => is_valid
                     end
  | Upload.Submitted _ _ _ _ _ _ => False
  | Upload.Failed _ | Upload.FailedWithDetails _ _ => True
  end.
Proof.
  unfold Upload.verify_bot_submission.
  destruct (Upload.path_exists env) eqn:Hexists; cbn [negb]; [|exact I].
  destruct (Upload.open_zip env) as [entries|x] eqn:Hopen;
    [|destruct x; exact I].
  destruct (Upload.extract basename entries) as [[|f files]|x] eqn:Hfiles;
    [exact I | | destruct x; exact I].
  io_split.
  destruct (Upload.post env _ _) as [response|x] eqn:Hpost;
    [|destruct x; exact I].
  destruct (Upload.status_code response =? 200)%nat eqn:Hstatus; [|exact I].
  destruct (Upload.json_body response) as [result|x] eqn:Hbody;
    [|destruct x; exact I].
  io_split.
  destruct result as [| | | | | |fields]; try exact I.
  exists entries, (f :: files), response, fields.
  apply Nat.eqb_eq in Hstatus.
  repeat split; try assumption; try reflexivity. discriminate.
Qed.

End UploadLemmas.

Lemma no_valid_files_is_answered_locally_witness :
  Upload.verify_bot_submission Upload.after_last_slash Upload.type_name
    "bot.zip" "Minds" Upload.no_files_env =
    (Upload.Failed "No valid files found in ZIP archive", []).
Proof.
  apply (no_valid_files_is_answered_locally Upload.after_last_slash
           Upload.type_name "bot.zip" "Minds" true Upload.no_files_env
           [("src/", Upload.Done ""); (".gitignore", Upload.Done "bin/")]).
  - reflexivity.
  - reflexivity.
  - intros name [<-|[<-|[]]]; reflexivity.
Defined.

(** The sample archive: the folder and the hidden file at the top are
    skipped (the latter is not even read), the hidden file inside the
    folder is sent. *)
Example sample_archive_files :
  Upload.extract Upload.after_last_slash Upload.sample_entries =
    Upload.Done [ {| Upload.FileName := ".editorconfig"; Upload.Code := "root = true" |};
                  {| Upload.FileName := "Bot.cs"; Upload.Code := "class Bot {}" |} ]
  /\ value (Upload.verify_bot_submission Upload.after_last_slash Upload.type_name
              "bot.zip" "Minds" Upload.sample_env) =
     Upload.Verified (Upload.JBool true) (Upload.JBool true)
       (Upload.JString "Verification completed") (Upload.JArray []) (Upload.JArray [])
       2 (Upload.JObject [("isValid", Upload.JBool true)]).
Proof. split; vm_compute; reflexivity. Qed.
